(** * Verification of the trace-collection orchestration
      (workflows/fetch-any-quic/scripts: fetch_with_vpn.py, wireguard.py)

    The Python code is embedded shallowly: pure functions become Rocq
    functions, exceptions become the [Raise] branch of [pyresult], and
    objects that are mutated or run external commands thread an explicit
    state.  Python [int] is [Z], [str] is [string], [Counter] and [dict]
    keyed by strings are [gmap string _]. *)

From Stdlib Require Import ZArith Lia SpecFloat Ascii.
From stdpp Require Import base option list gmap strings pretty fin_maps.

Local Open Scope Z_scope.

(** ** Exceptions *)

Inductive pyexc : Type :=
  | ZeroDivisionError
  | OverflowError
  | AssertionError
  | ValueError
  | ErrorReturnCode (code : Z)
  | CancelledError
  | RuntimeError (msg : string).

Inductive pyresult (A : Type) : Type :=
  | Ok (a : A)
  | Raise (e : pyexc).
Arguments Ok {A} a.
Arguments Raise {A} e.

(** Sequencing: the first raised exception aborts what follows. *)
#[global] Instance pyresult_ret : MRet pyresult := fun _ a => Ok a.
#[global] Instance pyresult_bind : MBind pyresult := fun _ _ k r =>
  match r with
  | Ok a => k a
  | Raise e => Raise e
  end.

#[global] Instance pyresult_fmap : FMap pyresult := fun _ _ f r =>
  match r with
  | Ok a => Ok (f a)
  | Raise e => Raise e
  end.

(** ** Python strings: [in] and [split] with one character *)

Module PyStr.

(** [a not in s] *)
Fixpoint free_of (a : Ascii.ascii) (s : string) : bool :=
  match s with
  | String b rest => negb (Ascii.eqb b a) && free_of a rest
  | EmptyString => true
  end.

(** [s.split(sep)]: the pieces between the separators. *)
Fixpoint split_on (sep : Ascii.ascii) (s : string) : list string :=
  match s with
  | EmptyString => [EmptyString]
  | String a rest =>
      if Ascii.eqb a sep then EmptyString :: split_on sep rest
      else
        match split_on sep rest with
        | first :: others => String a first :: others
        | [] => [String a EmptyString]
        end
  end.

End PyStr.

(** ** [pathlib.PurePosixPath], as far as the script uses it *)

Module PyPath.
Import PyStr.

Local Open Scope string_scope.

(** A parsed path: its root ([""], ["/"] or ["//"]) and the components
    after the root. *)
Record t : Type := { root : string; parts : list string }.

(** [part.lstrip("/")] *)
Fixpoint lstrip_sep (s : string) : string :=
  match s with
  | String a rest => if Ascii.eqb a "/" then lstrip_sep rest else s
  | EmptyString => EmptyString
  end.

(** [splitroot]: exactly two leading slashes are the root ["//"], one
    or more than two the root ["/"]. *)
Definition splitroot (part : string) : string * string :=
  match part with
  | String a _ =>
      if Ascii.eqb a "/" then
        let stripped_part := lstrip_sep part in
        if (String.length part - String.length stripped_part =? 2)%nat
        then ("//", stripped_part)
        else ("/", stripped_part)
      else ("", part)
  | EmptyString => ("", part)
  end.

(** The components that parsing keeps: not empty and not ["."]. *)
Definition kept (x : string) : bool :=
  negb (String.eqb x "") && negb (String.eqb x ".").

(** [Path(s)] *)
Definition of_str (s : string) : t :=
  let '(r, rel) := splitroot s in
  {| root := r; parts := List.filter kept (split_on "/" rel) |}.

(** [Path(p, s)]: an absolute [s] replaces [p]. *)
Definition joinpath (p : t) (s : string) : t :=
  let q := of_str s in
  match root q with
  | EmptyString => {| root := root p; parts := parts p ++ parts q |}
  | String _ _ => q
  end.

(** [str(p)] *)
Definition to_str (p : t) : string :=
  match root p, parts p with
  | EmptyString, [] => "."
  | r, ps => r +:+ String.concat "/" ps
  end.

(** The [name] property: the last component, if there is one. *)
Definition name (p : t) : string := List.last (parts p) "".

(** [s.rfind(a)] *)
Fixpoint rfind (a : Ascii.ascii) (s : string) : option nat :=
  match s with
  | String b rest =>
      match rfind a rest with
      | Some i => Some (S i)
      | None => if Ascii.eqb b a then Some 0%nat else None
      end
  | EmptyString => None
  end.

(** The [suffix] property: from the last dot of the name on, unless
    that dot is the first or the last character. *)
Definition suffix (p : t) : string :=
  let n := name p in
  match rfind "." n with
  | Some i =>
      if (0 <? i)%nat && (i <? String.length n - 1)%nat
      then String.substring i (String.length n - i) n
      else ""
  | None => ""
  end.

(** [p.with_suffix(suffix)] *)
Definition with_suffix (p : t) (new : string) : pyresult t :=
  if negb (free_of "/" new) then Raise ValueError
  else if negb (String.eqb new "") && negb (String.prefix "." new)
          || String.eqb new "."
  then Raise ValueError
  else
    let n := name p in
    if String.eqb n "" then Raise ValueError
    else
      let old_suffix := suffix p in
      let renamed :=
        if String.eqb old_suffix "" then n +:+ new
        else String.substring 0 (String.length n - String.length old_suffix) n
               +:+ new in
      Ok {| root := root p; parts := removelast (parts p) ++ [renamed] |}.

#[global] Arguments of_str : simpl never.
#[global] Arguments joinpath : simpl never.
#[global] Arguments to_str : simpl never.
#[global] Arguments with_suffix : simpl never.

End PyPath.

(** ** Python numbers: [int / int] and [math.ceil] *)

Module PyNum.

(** A finite binary64 value, kept exactly as [fmant * 2 ^ fexpo]. *)
Record pyfloat : Type := PyFloat { fmant : Z; fexpo : Z }.

(** Nearest integer to [p / q], ties to even ([0 <= p], [0 < q]). *)
Definition round_nearest_even (p q : Z) : Z :=
  let k := p / q in
  let r := p mod q in
  if 2 * r <? q then k
  else if q <? 2 * r then k + 1
  else if Z.even k then k else k + 1.

(** The binade of [a / b] for positive [a], [b]: the [d] with
    [2 ^ d <= a / b < 2 ^ (d + 1)]. *)
Definition binade (a b : Z) : Z :=
  let d0 := Z.log2 a - Z.log2 b in
  let below :=
    if 0 <=? d0 then a <? b * 2 ^ d0 else a * 2 ^ (- d0) <? b in
  if below then d0 - 1 else d0.

(** [a / b] on Python ints (true division): the binary64 value nearest
    to the exact quotient, ties to even, with gradual underflow;
    [ZeroDivisionError] for a zero divisor and [OverflowError] when the
    rounded quotient leaves the binary64 range. *)
Definition int_true_divide (a b : Z) : pyresult pyfloat :=
  if b =? 0 then Raise ZeroDivisionError
  else if a =? 0 then Ok (PyFloat 0 0)
  else
    let sign := Z.sgn a * Z.sgn b in
    let a' := Z.abs a in
    let b' := Z.abs b in
    let e := Z.max (binade a' b' - 52) (-1074) in
    let m :=
      if 0 <=? e then round_nearest_even a' (b' * 2 ^ e)
      else round_nearest_even (a' * 2 ^ (- e)) b' in
    if (m =? 0) then Ok (PyFloat 0 0)
    else if 1024 <=? Z.log2 m + e then Raise OverflowError
    else Ok (PyFloat (sign * m) e).

(** [math.ceil] of a finite float: the least integer not below it. *)
Definition math_ceil (x : pyfloat) : Z :=
  if 0 <=? fexpo x then fmant x * 2 ^ fexpo x
  else - ((- fmant x) / 2 ^ (- fexpo x)).

(** [math.ceil(value / n_batches)] as the source writes it. *)
Definition ceil_truediv (value n : Z) : pyresult Z :=
  q ← int_true_divide value n; Ok (math_ceil q).

(** The exact ceiling of the rational [a / b], for comparison. *)
Definition exact_ceil (a b : Z) : Z := - ((- a) / b).

(** Agreement with a value of the Standard Library's IEEE-754
    specification, used to cross-check [int_true_divide] against
    [SFdiv]. *)
Definition agrees (x : pyfloat) (s : spec_float) : bool :=
  match s with
  | S754_zero _ => fmant x =? 0
  | S754_finite sg m e =>
      let lo := Z.min e (fexpo x) in
      (if sg then Z.neg m else Z.pos m) * 2 ^ (e - lo)
        =? fmant x * 2 ^ (fexpo x - lo)
  | _ => false
  end.

Definition agrees_with_SFdiv (a b : positive) : bool :=
  match int_true_divide (Z.pos a) (Z.pos b) with
  | Ok x =>
      agrees x (SFdiv 53 1024 (S754_finite false a 0) (S754_finite false b 0))
  | Raise _ => false
  end.

End PyNum.

(** ** [collections.Counter] and the batch planner (fetch_with_vpn.py) *)

Module Planner.
Import PyNum.

(** [counter[elem]]: a missing key counts as zero. *)
Definition count (c : gmap string Z) (elem : string) : Z :=
  default 0 (c !! elem).

(** [self |= other]: for every item of [other], keep the larger count. *)
Definition counter_ior (self other : gmap string Z) : gmap string Z :=
  map_fold
    (fun elem other_count acc =>
       if count acc elem <? other_count then <[elem := other_count]> acc
       else acc)
    self other.

(** [+counter]: strip zero and negative counts. *)
Definition counter_pos (c : gmap string Z) : gmap string Z :=
  filter (fun kv => 0 < kv.2) c.

(** The dict comprehension [{key: ceil(value / n) for key, value in ...}];
    an exception raised for one item aborts the comprehension. *)
Definition ceil_items (n_batches : Z) (counter : gmap string Z)
  : pyresult (gmap string Z) :=
  map_fold
    (fun key value acc =>
       done ← acc;
       q ← ceil_truediv value n_batches;
       Ok (<[key := q]> done))
    (Ok ∅) counter.

Definition merge_remaining (remaining : gmap string (gmap string Z))
  : gmap string Z :=
  map_fold (fun _ version_ctr counter => counter_ior counter version_ctr)
    ∅ remaining.

Definition batch (remaining : gmap string (gmap string Z)) (n_batches : Z)
  : pyresult (gmap string Z) :=
  let counter := merge_remaining remaining in
  let counter := counter_pos counter in
  ceil_items n_batches counter.

(** *** What the claims say, in their own words *)

(** [M] is the maximum count of category [k] across all peers. *)
Definition is_max_count (remaining : gmap string (gmap string Z))
    (k : string) (M : Z) : Prop :=
  (exists peer ctr, remaining !! peer = Some ctr /\ ctr !! k = Some M) /\
  (forall peer ctr v,
     remaining !! peer = Some ctr -> ctr !! k = Some v -> v <= M).

(** Category [k] is absent or non-positive for every peer. *)
Definition nowhere_positive (remaining : gmap string (gmap string Z))
    (k : string) : Prop :=
  forall peer ctr v,
    remaining !! peer = Some ctr -> ctr !! k = Some v -> v <= 0.

Definition all_zero (remaining : gmap string (gmap string Z)) : Prop :=
  forall peer ctr k v,
    remaining !! peer = Some ctr -> ctr !! k = Some v -> v = 0.

Record exact_plan (remaining : gmap string (gmap string Z)) (n : Z)
    (plan : gmap string Z) : Prop := {
  plan_ceil : forall k M,
    is_max_count remaining k M -> 0 < M -> plan !! k = Some (exact_ceil M n);
  plan_positive : forall k v, plan !! k = Some v -> 0 < v;
  plan_drops : forall k, nowhere_positive remaining k -> plan !! k = None;
  plan_empty : all_zero remaining -> plan = ∅
}.

(** The planner returns a plan, and the plan is the exact one. *)
Definition batch_is_exact (remaining : gmap string (gmap string Z))
    (n : Z) : Prop :=
  exists plan, batch remaining n = Ok plan /\ exact_plan remaining n plan.

(** What the merging loop has accumulated: an upper bound of every
    count seen, and every stored count is positive and was seen. *)
Definition merged_inv (counter : gmap string Z)
    (seen : gmap string (gmap string Z)) : Prop :=
  forall k,
    (forall peer ctr u,
       seen !! peer = Some ctr -> ctr !! k = Some u -> u <= count counter k) /\
    (forall v, counter !! k = Some v ->
       0 < v /\ exists peer ctr, seen !! peer = Some ctr /\ ctr !! k = Some v).

(** Every count any peer holds stays below [bound]. *)
Definition counts_below (bound : Z)
    (remaining : gmap string (gmap string Z)) : Prop :=
  map_Forall (fun _ ctr => map_Forall (fun _ v => v < bound) ctr) remaining.

(** The cases of test_fetch_with_vpn.py. *)
Definition test_counters : gmap string (gmap string Z) :=
  {[ "a.com" := {[ "Q043" := 40; "Q046" := 10; "tcp" := 100 ]};
     "b.com" := {[ "Q043" := 30; "Q046" := 40; "tcp" := 110 ]};
     "c.com" := {[ "Q043" := 20; "Q046" := 30; "tcp" := 90 ]} ]}.

End Planner.

(** ** Wireguard configurations (wireguard.py) *)

Module Wireguard.

Local Open Scope string_scope.

Definition DEFAULT_ENDPOINT_PORT : Z := 51888.

Definition newline : string := String (Ascii.ascii_of_nat 10) EmptyString.

(** ["\n".join(lines)] *)
Definition join_lines (lines : list string) : string :=
  String.concat newline lines.

(** Config objects are shared and mutated ([client.gateway = self]), so
    they live in a store and are named by reference. *)
Definition ref : Type := nat.

Record BasicConfig : Type := {
  private_key : string;
  public_key : string;
  address : string;
  endpoint : option string
}.

Record ClientConfig : Type := {
  client_basic :> BasicConfig;
  gateway : option ref
}.

Record GatewayConfig : Type := {
  gateway_basic :> BasicConfig;
  clients : list ref
}.

Record Store : Type := {
  gateway_objs : gmap ref GatewayConfig;
  client_objs : gmap ref ClientConfig
}.

(** Dereferencing.  Python references never dangle; a store that lacks
    the object is reported instead of being given a meaning. *)
Definition get_client (st : Store) (c : ref) : pyresult ClientConfig :=
  match client_objs st !! c with
  | Some obj => Ok obj
  | None => Raise (RuntimeError "unallocated client")
  end.

Definition get_gateway (st : Store) (g : ref) : pyresult GatewayConfig :=
  match gateway_objs st !! g with
  | Some obj => Ok obj
  | None => Raise (RuntimeError "unallocated gateway")
  end.

(** [BasicConfig.__init__] with both keys given ([private_key is not
    None] and the assertion on [public_key] holds). *)
Definition basic_config (address private_key public_key : string)
    (endpoint : option string) : BasicConfig :=
  {| private_key := private_key; public_key := public_key;
     address := address; endpoint := endpoint |}.

(** [ClientConfig(address=..., private_key=..., public_key=...)]: the
    new object has no gateway yet. *)
Definition new_client (c : ref) (address private_key public_key : string)
    (st : Store) : Store :=
  {| gateway_objs := gateway_objs st;
     client_objs :=
       <[c := {| client_basic :=
                   basic_config address private_key public_key None;
                 gateway := None |}]> (client_objs st) |}.

(** [GatewayConfig.set_clients]: clear the list, then point every client
    back to this gateway and append it.  The argument is a list of its
    own (every caller builds a fresh one), not [self.clients] itself. *)
Definition attach (self : ref) (st : Store) (client : ref) : Store :=
  {| gateway_objs :=
       alter (fun gw => {| gateway_basic := gateway_basic gw;
                           clients := (clients gw ++ [client])%list |})
         self (gateway_objs st);
     client_objs :=
       alter (fun cl => {| client_basic := client_basic cl;
                           gateway := Some self |})
         client (client_objs st) |}.

Definition clear_clients (self : ref) (st : Store) : Store :=
  {| gateway_objs :=
       alter (fun gw => {| gateway_basic := gateway_basic gw;
                           clients := [] |})
         self (gateway_objs st);
     client_objs := client_objs st |}.

Definition set_clients (self : ref) (new_clients : list ref) (st : Store)
  : Store :=
  fold_left (attach self) new_clients (clear_clients self st).

(** [GatewayConfig(endpoint, private_key=..., public_key=...)]: address
    10.0.0.1, an empty client list ([set_clients([])]). *)
Definition new_gateway (g : ref) (endpoint private_key public_key : string)
    (st : Store) : Store :=
  set_clients g []
    {| gateway_objs :=
         <[g := {| gateway_basic :=
                     basic_config "10.0.0.1" private_key public_key
                       (Some endpoint);
                   clients := [] |}]> (gateway_objs st);
       client_objs := client_objs st |}.

(** Truthiness of an [Optional[str]]: [None] and [""] are false. *)
Definition truthy (s : option string) : bool :=
  match s with
  | Some (String _ _) => true
  | _ => false
  end.

(** [ClientConfig.to_string]: the list that is joined. *)
Definition client_config_lines (st : Store) (self : ref)
  : pyresult (list string) :=
  get_client st self ≫= fun me : ClientConfig =>
  match gateway me with
  | None => Raise AssertionError
  | Some g =>
      get_gateway st g ≫= fun gw : GatewayConfig =>
      if truthy (endpoint gw) && truthy (Some (address me)) then
        Ok [ "[Interface]";
             "PrivateKey = " +:+ private_key me;
             "Address = " +:+ address me +:+ "/32";
             "";
             "[Peer]";
             "PublicKey = " +:+ public_key gw;
             "Endpoint = " +:+ default "" (endpoint gw) +:+ ":"
               +:+ pretty DEFAULT_ENDPOINT_PORT;
             "AllowedIPs = 0.0.0.0/0";
             "" ]
      else Raise AssertionError
  end.

Definition client_to_string (st : Store) (self : ref) : pyresult string :=
  join_lines <$> client_config_lines st self.

(** [GatewayConfig.to_string]: the interface lines, extended by four
    lines per client in list order. *)
Definition interface_lines (gw : GatewayConfig) : list string :=
  [ "[Interface]";
    "PrivateKey = " +:+ private_key gw;
    "Address = " +:+ address gw +:+ "/24";
    "ListenPort = 51888";
    "PostUp = iptables -t nat -A POSTROUTING -o eth0 -j MASQUERADE";
    "PostDown = iptables -t nat -D POSTROUTING -o eth0 -j MASQUERADE";
    "" ].

Definition peer_lines (client : ClientConfig) : list string :=
  [ "[Peer]";
    "PublicKey = " +:+ public_key client;
    "AllowedIPs = " +:+ address client +:+ "/32";
    "" ].

Definition gateway_config_lines (st : Store) (self : ref)
  : pyresult (list string) :=
  get_gateway st self ≫= fun gw : GatewayConfig =>
  fold_left
    (fun (config_lines : pyresult (list string)) (client : ref) =>
       lines ← config_lines;
       cl ← get_client st client;
       Ok (lines ++ peer_lines cl)%list)
    (clients gw) (Ok (interface_lines gw)).

Definition gateway_to_string (st : Store) (self : ref) : pyresult string :=
  join_lines <$> gateway_config_lines st self.

(** How many lines of a config are the header [h]. *)
Fixpoint count_header (h : string) (lines : list string) : nat :=
  match lines with
  | [] => 0
  | l :: rest => (if String.eqb l h then 1 else 0) + count_header h rest
  end%nat.

(** The objects of test_wireguard.py. *)
Definition empty_store : Store :=
  {| gateway_objs := ∅; client_objs := ∅ |}.

Definition test_store : Store :=
  set_clients 0%nat [1%nat; 2%nat]
    (new_client 2%nat "10.0.0.3" "client2_privkey" "client2_pubkey"
      (new_client 1%nat "10.0.0.2" "client1_privkey" "client1_pubkey"
        (new_gateway 0%nat "localhost" "privkey" "pubkey" empty_store))).

(** [text.split("\n")]: the lines of a rendered config. *)
Definition split_lines (text : string) : list string :=
  PyStr.split_on (Ascii.ascii_of_nat 10) text.

(** The string holds no newline. *)
Definition single_line (s : string) : bool :=
  PyStr.free_of (Ascii.ascii_of_nat 10) s.

End Wireguard.

(** ** The orchestration (fetch_with_vpn.py) *)

Module FetchWithVpn.
Import PyNum PyStr Planner.

Local Open Scope string_scope.

(** *** The world outside the script *)

(** [FetchOptions], the options forwarded to fetch-websites. *)
Record FetchOptions : Type := {
  driver_path : option string;
  delay : option string;
  max_attempts : Z;
  snaplen : option Z;
  version_ctr : gmap string Z;
  attempts_per_protocol : bool
}.

(** One invocation of scripts/docker-fetch-websites: the arguments built
    by [_fetch_args], the URLs on its input and the keyword arguments. *)
Record FetchRequest : Type := {
  fr_docker_host : option string;
  fr_wireguard : string;
  fr_version_ctr : gmap string Z;
  fr_options : FetchOptions;
  fr_urls : list string;
  fr_bulk_log : string
}.

(** What the script asks of its surroundings: the commands it runs and,
    last, [process.terminate()] on a collector it has launched. *)
Inductive command : Type :=
  | Mkdir (path : string)
  | Uuid4
  | PerfCounterNs
  | Wg (args : list string) (stdin : string)
  | PutText (node : option string) (text filename : string)
  | Docker (node : option string) (args : list string)
  | DockerWgGateway (node : option string) (args : list string)
  | DockerFetchWebsites (request : FetchRequest)
  | Terminate (request : FetchRequest).

(** Modelled from the spec: the record that [decode_result] of
    lab.fetch_websites yields for one checkpoint line ("work-item
    identifier, category, success/failure indicator, and attempt count
    so far"). *)
Record Outcome : Type := {
  o_url : string;
  o_category : string;
  o_success : bool;
  o_attempts : Z
}.

(** The collaborators that are not part of this repository: the URL
    parser, the checkpoint functions of lab.fetch_websites, the
    commands, and the event loop's decision to cancel.  What they do
    may depend on the commands that ran before.
    - [filter_by_checkpoint] is the dict that the function returns, as
      a map, and [remaining_keys] the keys of that dict in the order
      the dict holds them (a Python dict keeps its insertion order);
    - [shell] is the result of a command: its output, or the exception
      it raises;
    - [fetch_output] and [fetch_errors] are what one invocation of the
      collector writes to its standard output and to its standard
      error, up to its end or up to the moment it is terminated;
    - [cancelled] tells whether [CancelledError] is thrown into the
      agent while it waits for that invocation, and [still_alive]
      whether the collector is running at that moment. *)
Record Env : Type := {
  urlparse_port : string -> pyresult (option Z);
  decode_result : string -> Outcome;
  filter_by_checkpoint :
    list string -> list Outcome -> gmap string Z -> Z ->
    gmap string (gmap string Z);
  remaining_keys :
    list string -> list Outcome -> gmap string Z -> Z -> list string;
  shell : list command -> command -> pyresult string;
  fetch_output : list command -> FetchRequest -> list string -> list string;
  fetch_errors : list command -> FetchRequest -> list string;
  cancelled : list command -> FetchRequest -> bool;
  still_alive : list command -> FetchRequest -> bool
}.

(** A task of the event loop, as the loop sees it: still [polls]
    suspensions away from finishing with [result]; asked to cancel, so
    that [CancelledError] is thrown into it when it is next resumed; or
    finished.  A cancelled task is finished with [CancelledError]. *)
Inductive task : Type :=
  | Pending (polls : nat) (result : pyresult string)
  | Cancelling
  | Finished (result : pyresult string).

(** The state the script works on: the wireguard config objects, the
    local files (a file is kept as its lines: the checkpoint as the
    lines written to it, a text written as a whole as the pieces
    between its newlines), the commands issued so far, the
    [_container_id] of the one [WireguardGateway] of the experiment, and
    the tasks created on the event loop. *)
Record State : Type := {
  wg : Wireguard.Store;
  files : gmap string (list string);
  history : list command;
  container_id : option string;
  tasks : list task
}.

Definition set_wg (f : Wireguard.Store -> Wireguard.Store) (st : State)
  : State :=
  {| wg := f (wg st); files := files st; history := history st;
     container_id := container_id st; tasks := tasks st |}.

Definition set_files
    (f : gmap string (list string) -> gmap string (list string))
    (st : State) : State :=
  {| wg := wg st; files := f (files st); history := history st;
     container_id := container_id st; tasks := tasks st |}.

Definition record_command (c : command) (st : State) : State :=
  {| wg := wg st; files := files st; history := history st ++ [c];
     container_id := container_id st; tasks := tasks st |}.

Definition set_container_id (c : option string) (st : State) : State :=
  {| wg := wg st; files := files st; history := history st;
     container_id := c; tasks := tasks st |}.

Definition set_tasks (ts : list task) (st : State) : State :=
  {| wg := wg st; files := files st; history := history st;
     container_id := container_id st; tasks := ts |}.

(** Everything but the files and the command history is left alone by a
    statement. *)
Definition same_objects (st st' : State) : Prop :=
  wg st' = wg st /\ container_id st' = container_id st
  /\ tasks st' = tasks st.

(** The one [OSError] of the script, raised by [Path.unlink]. *)
Inductive oserror : Type :=
  | FileNotFoundError (filename : string).

(** Statements: they change the state and return or raise. *)
Definition Cmd (A : Type) : Type := State -> State * pyresult A.

#[global] Instance cmd_ret : MRet Cmd := fun _ a st => (st, Ok a).
#[global] Instance cmd_bind : MBind Cmd := fun _ _ k c st =>
  match c st with
  | (st', Ok a) => k a st'
  | (st', Raise e) => (st', Raise e)
  end.

Definition lift {A} (r : pyresult A) : Cmd A := fun st => (st, r).

Definition get_state : Cmd State := fun st => (st, Ok st).

(** Run a command: it is recorded, and the world decides its result. *)
Definition exec (env : Env) (c : command) : Cmd string := fun st =>
  (record_command c st, shell env (history st) c).

Definition modify (f : State -> State) : Cmd unit := fun st => (f st, Ok tt).

(** [for _ in range(n)] *)
Fixpoint repeat_cmd (n : nat) (body : Cmd unit) : Cmd unit :=
  match n with
  | O => mret tt
  | S n => body ≫= fun _ : unit => repeat_cmd n body
  end.

(** [str.strip()] *)
Definition is_space (a : Ascii.ascii) : bool :=
  let n := Ascii.nat_of_ascii a in
  ((9 <=? n) && (n <=? 13) || (28 <=? n) && (n <=? 32))%nat.

Fixpoint lstrip (s : string) : string :=
  match s with
  | String a rest => if is_space a then lstrip rest else s
  | EmptyString => EmptyString
  end.

Definition strip (s : string) : string :=
  String.rev (lstrip (String.rev (lstrip s))).

(** [str.replace(old, new)] for single characters. *)
Fixpoint replace_char (old new : Ascii.ascii) (s : string) : string :=
  match s with
  | String a rest =>
      String (if Ascii.eqb a old then new else a) (replace_char old new rest)
  | EmptyString => EmptyString
  end.

(** [_make_counter]: every occurrence of a version adds [repetitions]
    to its count ([counter[version] += repetitions], a missing key
    counting as zero). *)
Definition make_counter (versions : list string) (repetitions : Z)
  : gmap string Z :=
  fold_left
    (fun counter version =>
       <[version := count counter version + repetitions]> counter)
    versions ∅.

(** How often [version] occurs in [versions]. *)
Definition occurrences (version : string) (versions : list string) : Z :=
  Z.of_nat (length (filter (fun v => v = version) versions)).

(** *** SSHNode *)

Module SSHNode.

(** A node is its [node_address]; [None] is the localhost. *)
Definition t : Type := option string.

Definition is_localhost (self : t) : bool :=
  match self with None => true | Some _ => false end.

(** The [public_ip] property: the text between the first and the second
    ["@"] of the address.  Past the two assertions the split has a
    second piece; a list without one is reported, as Python would raise
    [IndexError]. *)
Definition public_ip (self : t) : pyresult string :=
  match self with
  | None => Raise AssertionError
  | Some node_address =>
      if free_of "@" node_address then Raise AssertionError
      else
        match split_on "@" node_address !! 1%nat with
        | Some ip => Ok ip
        | None => Raise (RuntimeError "IndexError")
        end
  end.

Definition docker (env : Env) (self : t) (args : list string) : Cmd string :=
  exec env (Docker self args).

(** [put_text]: the text is written to a temporary file, which [put]
    copies to [filename] and which is gone when the [with] block ends.
    [PutText] is that copy: [cp] on the localhost, where [filename] is
    then a local file with the text, and [scp] to the node otherwise.
    (The temporary file's name is never [filename]; a copy that fails
    is taken to leave [filename] as it was.) *)
Definition put_text (env : Env) (self : t) (text filename : string)
  : Cmd string :=
  exec env (PutText self text filename) ≫= fun _ : string =>
  (if is_localhost self
   then modify (set_files <[filename := Wireguard.split_lines text]>)
   else mret tt) ≫= fun _ : unit =>
  mret filename.

End SSHNode.

(** *** BrowserPeer *)

(** [urllib.parse.urlparse(url).port is None] *)
Definition has_no_port (env : Env) (url : string) : bool :=
  match urlparse_port env url with
  | Ok None => true
  | _ => false
  end.

(** [_filter_urls], consumed by [list(...)]: the URLs whose parse has no
    port, in order.  [ParseResult.port] raises [ValueError] for a port
    that is not a number in range, which ends the iteration. *)
Fixpoint filter_urls (env : Env) (urls : list string)
  : pyresult (list string) :=
  match urls with
  | [] => Ok []
  | url :: rest =>
      port ← urlparse_port env url;
      kept ← filter_urls env rest;
      Ok (match port with None => url :: kept | Some _ => kept end)
  end.

Module BrowserPeer.

Record t : Type := {
  peer_uuid : string;
  wg_conf : Wireguard.ref;
  node : SSHNode.t;
  checkpoint_path : string;
  bulk_log : string;
  remote_config : string;
  urls : list string;
  fetch_options : FetchOptions;
  n_batches : Z
}.

(** The [slug] property: "peer-" and the address with dots replaced. *)
Definition slug_of (address : string) : string :=
  "peer-" +:+ replace_char "."%char "_"%char address.

(** [__init__].  The checkpoint and the bulk log are
    [pathlib.Path(checkpoint_dir, self.slug)] with the suffixes
    [.state] and [.log]. *)
Definition init (env : Env) (conf : Wireguard.ref)
    (all_urls : list string) (checkpoint_dir : string)
    (node_arg : option SSHNode.t) (batches : Z) (options : FetchOptions)
  : Cmd t :=
  exec env Uuid4 ≫= fun hex : string =>
  get_state ≫= fun st : State =>
  lift (Wireguard.get_client (wg st) conf) ≫=
    fun cl : Wireguard.ClientConfig =>
  let slug := slug_of (Wireguard.address (Wireguard.client_basic cl)) in
  let base := PyPath.joinpath (PyPath.of_str checkpoint_dir) slug in
  lift (PyPath.with_suffix base ".state") ≫= fun state_file : PyPath.t =>
  lift (PyPath.with_suffix base ".log") ≫= fun log_file : PyPath.t =>
  lift (filter_urls env all_urls) ≫= fun kept : list string =>
  mret {| peer_uuid := hex;
          wg_conf := conf;
          node := default None node_arg;
          checkpoint_path := PyPath.to_str state_file;
          bulk_log := PyPath.to_str log_file;
          remote_config := "/tmp/" +:+ slug +:+ "-" +:+ hex +:+ "-wg0.conf";
          urls := kept;
          fetch_options := options;
          n_batches := batches |}.

(** The first half of [_recover_from_checkpoint]: the decoded lines of
    the checkpoint file, or nothing when there is no such file. *)
Definition load_checkpoint (env : Env) (self : t) (st : State)
  : list Outcome :=
  match files st !! checkpoint_path self with
  | Some lines => decode_result env <$> lines
  | None => []
  end.

Definition recover_from_checkpoint (env : Env) (self : t)
  : Cmd (gmap string (gmap string Z)) :=
  get_state ≫= fun st : State =>
  let checkpoint := load_checkpoint env self st in
  mret (filter_by_checkpoint env (urls self) checkpoint
          (version_ctr (fetch_options self))
          (max_attempts (fetch_options self))).

(** [list(remaining.keys())] for the dict that
    [_recover_from_checkpoint] returns in the state [st]. *)
Definition remaining_urls (env : Env) (self : t) (st : State)
  : list string :=
  remaining_keys env (urls self) (load_checkpoint env self st)
    (version_ctr (fetch_options self)) (max_attempts (fetch_options self)).

Definition fetch_request (self : t) (batch_urls : list string)
    (batch_ctr : gmap string Z) : FetchRequest :=
  {| fr_docker_host := node self;
     fr_wireguard := remote_config self;
     fr_version_ctr := batch_ctr;
     fr_options := fetch_options self;
     fr_urls := batch_urls;
     fr_bulk_log := bulk_log self |}.

(** [_collect_batch].  The checkpoint file is opened for appending
    (which creates it) and the collector is launched with the
    checkpoint as its standard output and the bulk log, opened for
    writing (which empties it), as its standard error.  The agent then
    sleeps until the collector has exited, and [process.wait()] raises
    when the collector failed.  When [CancelledError] arrives during
    the sleep, the handler terminates the collector if it is alive,
    waits for it with [ErrorReturnCode] suppressed, and raises the
    [CancelledError] again.  (The two files differ by their suffixes;
    the checkpoint is written last here.) *)
Definition collect_batch (env : Env) (self : t)
    (batch_urls : list string) (batch_ctr : gmap string Z) : Cmd unit :=
  fun st =>
    let request := fetch_request self batch_urls batch_ctr in
    let current := default [] (files st !! checkpoint_path self) in
    let output := fetch_output env (history st) request current in
    let errors := fetch_errors env (history st) request in
    let launched :=
      record_command (DockerFetchWebsites request)
        (set_files
           (fun fs => <[checkpoint_path self := (current ++ output)%list]>
                        (<[bulk_log self := errors]> fs)) st) in
    if cancelled env (history st) request then
      (if still_alive env (history st) request
       then record_command (Terminate request) launched
       else launched,
       Raise CancelledError)
    else
      (launched,
       _ ← shell env (history st) (DockerFetchWebsites request); Ok tt).

(** [run].  [remaining] is read once; [st] is still the state it was
    read in when its keys are taken for the URLs of the rounds. *)
Definition run (env : Env) (self : t) : Cmd string :=
  recover_from_checkpoint env self ≫=
    fun remaining : gmap string (gmap string Z) =>
  lift (batch remaining (n_batches self)) ≫= fun batch_ctr : gmap string Z =>
  if decide (batch_ctr = ∅) then mret (checkpoint_path self)
  else
    get_state ≫= fun st : State =>
    lift (Wireguard.client_to_string (wg st) (wg_conf self)) ≫=
      fun text : string =>
    SSHNode.put_text env (node self) text (remote_config self) ≫= fun _ : string =>
    let batch_urls := remaining_urls env self st in
    repeat_cmd (Z.to_nat (n_batches self))
      (collect_batch env self batch_urls batch_ctr) ≫= fun _ : unit =>
    mret (checkpoint_path self).

(** [clear_checkpoint]: [Path.unlink] removes the file, and raises
    [FileNotFoundError] when there is none. *)
Definition clear_checkpoint (self : t) (st : State)
  : State * (oserror + unit) :=
  match files st !! checkpoint_path self with
  | Some _ => (set_files (delete (checkpoint_path self)) st, inr tt)
  | None => (st, inl (FileNotFoundError (checkpoint_path self)))
  end.

End BrowserPeer.


(** *** WireguardGateway *)

Module WireguardGateway.

Record t : Type := {
  wg_conf : Wireguard.ref;
  node : SSHNode.t
}.

(** Truthiness of a command's result: its output is not empty. *)
Definition truthy (output : string) : bool :=
  match output with
  | String _ _ => true
  | EmptyString => false
  end.

(** [start]: push the rendered config, launch the container, record its
    id, and after the settle delay ask docker whether it runs. *)
Definition start (env : Env) (self : t) : Cmd unit :=
  get_state ≫= fun st : State =>
  lift (Wireguard.gateway_to_string (wg st) (wg_conf self)) ≫=
    fun text : string =>
  SSHNode.put_text env (node self) text "/tmp/wg0.conf" ≫=
    fun remote_conf_path : string =>
  exec env (DockerWgGateway (node self) ["start"; remote_conf_path]) ≫=
    fun output : string =>
  modify (set_container_id (Some output)) ≫= fun _ : unit =>
  modify (set_container_id (Some (strip output))) ≫= fun _ : unit =>
  SSHNode.docker env (node self)
    ["container"; "inspect"; "--format"; "{{ .State.Running }}";
     strip output] ≫= fun running : string =>
  if truthy running then mret tt else lift (Raise AssertionError).

(** [stop]: stop the VPN server if it is running. *)
Definition stop (env : Env) (self : t) : Cmd unit :=
  get_state ≫= fun st : State =>
  match container_id st with
  | Some c =>
      SSHNode.docker env (node self) ["stop"; c] ≫= fun _ : string =>
      SSHNode.docker env (node self) ["rm"; c] ≫= fun _ : string =>
      modify (set_container_id None)
  | None => mret tt
  end.

Definition aenter (env : Env) (self : t) : Cmd unit := start env self.

Definition aexit (env : Env) (self : t) : Cmd unit := stop env self.

End WireguardGateway.

(** [async with manager: body].  When [__aenter__] raises, neither the
    body nor [__aexit__] runs.  Otherwise [__aexit__] runs whatever the
    body did; it returns [None], so what the body raised is raised
    again, unless [__aexit__] itself raises. *)
Definition async_with {A} (aenter aexit : Cmd unit) (body : Cmd A) : Cmd A :=
  fun st =>
    match aenter st with
    | (st1, Raise e) => (st1, Raise e)
    | (st1, Ok _) =>
        let '(st2, outcome) := body st1 in
        match aexit st2 with
        | (st3, Raise e) => (st3, Raise e)
        | (st3, Ok _) => (st3, outcome)
        end
    end.

(** *** asyncio, as far as the coordinator uses it *)

Module asyncio.

(** [Task.cancel()]: a task that is done is left alone. *)
Definition cancel (t : task) : task :=
  match t with
  | Pending _ _ => Cancelling
  | Cancelling => Cancelling
  | Finished r => Finished r
  end.

(** One pass of the event loop resumes every task that is not done.
    Every suspension of [BrowserPeer.run] is inside the [try] of
    [_collect_batch], whose handler cleans up and raises
    [CancelledError] again. *)
Definition step (t : task) : task :=
  match t with
  | Pending O r => Finished r
  | Pending (S n) r => Pending n r
  | Cancelling => Finished (Raise CancelledError)
  | Finished r => Finished r
  end.

(** What a task ends as when the loop runs it to its end. *)
Definition finish (t : task) : task :=
  match t with
  | Pending _ r => Finished r
  | Cancelling => Finished (Raise CancelledError)
  | Finished r => Finished r
  end.

(** The task is heading for the result [p]. *)
Definition heads_for (p : string) (t : task) : Prop :=
  finish t = Finished (Ok p).

Definition result_of (t : task) : option (pyresult string) :=
  match t with
  | Finished r => Some r
  | _ => None
  end.

Fixpoint first_exception (ts : list task) : option pyexc :=
  match ts with
  | [] => None
  | Finished (Raise e) :: _ => Some e
  | _ :: rest => first_exception rest
  end.

(** The result that the future of [gather] over the tasks holds, if it is done.
    Without [return_exceptions] the first exception of a child is set on
    the future at once; otherwise, and with [return_exceptions] always,
    the future is done when all children are, with their results (or
    exceptions) in order. *)
Definition gather_result (return_exceptions : bool) (ts : list task)
  : option (pyresult (list (pyresult string))) :=
  if return_exceptions then Ok <$> mapM result_of ts
  else
    match first_exception ts with
    | Some e => Some (Raise e)
    | None => Ok <$> mapM result_of ts
    end.

(** [await gather(...)]: the loop runs until the future is done.  The
    awaiting coroutine is itself never cancelled here. *)
Fixpoint await_gather (passes : nat) (return_exceptions : bool)
    (ts : list task)
  : list task * option (pyresult (list (pyresult string))) :=
  match gather_result return_exceptions ts with
  | Some r => (ts, Some r)
  | None =>
      match passes with
      | O => (ts, None)
      | S passes => await_gather passes return_exceptions (step <$> ts)
      end
  end.

(** Loop passes after which every task is done. *)
Definition passes_needed (t : task) : nat :=
  match t with
  | Pending n _ => S n
  | Cancelling => 1
  | Finished _ => 0
  end.

Definition patience (ts : list task) : nat :=
  list_max (passes_needed <$> ts).

(** [_GatheringFuture.cancel()]: [if self.done(): return False];
    otherwise every child is cancelled. *)
Definition gathering_future_cancel
    (future : option (pyresult (list (pyresult string)))) (ts : list task)
  : list task :=
  match future with
  | Some _ => ts
  | None => cancel <$> ts
  end.

(** [except Exception] does not catch [CancelledError], which derives
    from [BaseException]. *)
Definition is_Exception (e : pyexc) : bool :=
  match e with
  | CancelledError => false
  | _ => true
  end.

End asyncio.

(** *** TraceCollectionExperiment *)

(** [urls[start::step]]: the items at the indices of
    [range(start, len(urls), step)]. *)
Definition slice_step {A} (start step : nat) (l : list A) : list A :=
  omap (fun i => l !! i)
    ((fun t => start + t * step)%nat
       <$> seq 0 ((length l - start + step - 1) / step)%nat).

(** [BasicConfig.__init__] without keys: [wg genkey], then [wg pubkey]. *)
Definition generate_keys (env : Env) : Cmd (string * string) :=
  exec env (Wg ["genkey"] "") ≫= fun private : string =>
  exec env (Wg ["pubkey"] (strip private)) ≫= fun public : string =>
  mret (strip private, strip public).

(** [wireguard.GatewayConfig(endpoint)] *)
Definition new_gateway_config (env : Env) (endpoint : string)
  : Cmd Wireguard.ref :=
  generate_keys env ≫= fun keys : string * string =>
  get_state ≫= fun st : State =>
  let g := fresh (dom (Wireguard.gateway_objs (wg st))) in
  modify (set_wg (Wireguard.new_gateway g endpoint keys.1 keys.2))
    ≫= fun _ : unit =>
  mret g.

(** [wireguard.ClientConfig(address=...)] *)
Definition new_client_config (env : Env) (address : string)
  : Cmd Wireguard.ref :=
  generate_keys env ≫= fun keys : string * string =>
  get_state ≫= fun st : State =>
  let c := fresh (dom (Wireguard.client_objs (wg st))) in
  modify (set_wg (Wireguard.new_client c address keys.1 keys.2))
    ≫= fun _ : unit =>
  mret c.

Module TraceCollectionExperiment.

Record t : Type := {
  gateway : WireguardGateway.t;
  clients : list BrowserPeer.t
}.

(** The list comprehension over [enumerate(client_nodes)], from index
    [i] on; [k] is [len(client_nodes)]. *)
Fixpoint make_clients (env : Env) (all_urls : list string) (k : nat)
    (checkpoint_dir : string) (n_batches : Z) (options : FetchOptions)
    (i : nat) (client_nodes : list SSHNode.t) : Cmd (list BrowserPeer.t) :=
  match client_nodes with
  | [] => mret []
  | node :: rest =>
      new_client_config env ("10.0.0." +:+ pretty (i + 2)%nat) ≫=
        fun conf : Wireguard.ref =>
      BrowserPeer.init env conf (slice_step i k all_urls) checkpoint_dir
        (Some node) n_batches options ≫= fun peer : BrowserPeer.t =>
      make_clients env all_urls k checkpoint_dir n_batches options
        (S i) rest ≫= fun peers : list BrowserPeer.t =>
      mret (peer :: peers)
  end.

(** [__init__] *)
Definition init (env : Env) (gateway_node : SSHNode.t)
    (client_nodes : list SSHNode.t) (all_urls : list string)
    (checkpoint_dir : option string) (n_batches : Z)
    (gateway_endpoint : string) (options : FetchOptions) : Cmd t :=
  match checkpoint_dir with
  | Some dir => mret dir
  | None =>
      exec env PerfCounterNs ≫= fun ns : string =>
      mret ("/tmp/checkpoints-" +:+ ns)
  end ≫= fun dir : string =>
  exec env (Mkdir (PyPath.to_str (PyPath.of_str dir))) ≫= fun _ : string =>
  new_gateway_config env gateway_endpoint ≫= fun gconf : Wireguard.ref =>
  make_clients env all_urls (length client_nodes) dir n_batches options
    0 client_nodes ≫= fun peers : list BrowserPeer.t =>
  modify (set_wg (Wireguard.set_clients gconf (BrowserPeer.wg_conf <$> peers)))
    ≫= fun _ : unit =>
  mret {| gateway := {| WireguardGateway.wg_conf := gconf;
                        WireguardGateway.node := gateway_node |};
          clients := peers |}.

(** The [try] statement of [run], on the tasks created for the clients. *)
Definition supervise (ts : list task) : list task * pyresult (list string) :=
  let '(ts1, gathered_tasks) :=
    asyncio.await_gather (asyncio.patience ts) false ts in
  match gathered_tasks with
  | Some (Ok client_checkpoints) =>
      (ts1,
       Ok (omap (fun r : pyresult string =>
                   match r with Ok c => Some c | Raise _ => None end)
             client_checkpoints))
  | Some (Raise e) =>
      if asyncio.is_Exception e then
        let ts2 := asyncio.gathering_future_cancel gathered_tasks ts1 in
        let '(ts3, _) :=
          asyncio.await_gather (asyncio.patience ts2) true ts2 in
        (ts3, Raise e)
      else (ts1, Raise e)
  | None => (ts1, Raise (RuntimeError "event loop stopped"))
  end.

(** The body of the [async with] in [run].  [create_task] tells what the
    event loop will see of each client's [run()]. *)
Definition run_clients (create_task : BrowserPeer.t -> task) (self : t)
  : Cmd (list string) :=
  fun st =>
    let '(ts, outcome) := supervise (create_task <$> clients self) in
    (set_tasks ts st, outcome).

(** [run] *)
Definition run (env : Env) (create_task : BrowserPeer.t -> task) (self : t)
  : Cmd (list string) :=
  async_with (WireguardGateway.aenter env (gateway self))
    (WireguardGateway.aexit env (gateway self))
    (run_clients create_task self).

(** [clear_checkpoint]: the agents' checkpoints are removed in order;
    the first one that is missing ends the loop. *)
Fixpoint clear_checkpoints (agents : list BrowserPeer.t) (st : State)
  : State * (oserror + unit) :=
  match agents with
  | [] => (st, inr tt)
  | client :: rest =>
      match BrowserPeer.clear_checkpoint client st with
      | (st', inr _) => clear_checkpoints rest st'
      | (st', inl e) => (st', inl e)
      end
  end.

Definition clear_checkpoint (self : t) (st : State)
  : State * (oserror + unit) :=
  clear_checkpoints (clients self) st.

End TraceCollectionExperiment.

(** *** The entry point *)

(** [main], the client nodes: without [-c] one client on the localhost;
    [--n-clients n] with a single node repeats that node. *)
Definition client_nodes_of (client_node : list SSHNode.t) (n_clients : Z)
  : pyresult (list SSHNode.t) :=
  let nodes := match client_node with [] => [None] | _ => client_node end in
  if (n_clients =? 1)%Z || (length nodes =? 1)%nat then
    match nodes with
    | [first] =>
        if (1 <? n_clients)%Z
        then Ok (nodes ++ replicate (Z.to_nat (n_clients - 1)) first)%list
        else Ok nodes
    | _ => Ok nodes
    end
  else Raise AssertionError.

(** [[url for (url, ) in urlfile]]: a row that does not have exactly
    one column cannot be unpacked. *)
Fixpoint unpack_rows (urlfile : list (list string)) : pyresult (list string) :=
  match urlfile with
  | [] => Ok []
  | [url] :: rest => urls ← unpack_rows rest; Ok (url :: urls)
  | _ :: _ => Raise ValueError
  end.

(** [gateway_endpoint or gateway_node.public_ip]: the property is read
    only when the option is [None] or empty. *)
Definition endpoint_of (gateway_endpoint : option string)
    (gateway_node : SSHNode.t) : pyresult string :=
  match gateway_endpoint with
  | Some (String a rest) => Ok (String a rest)
  | _ => SSHNode.public_ip gateway_node
  end.

(** [main] up to and including the construction of the experiment. *)
Definition main_experiment (env : Env) (urlfile : list (list string))
    (gateway_node : SSHNode.t) (client_node : list SSHNode.t)
    (n_clients : Z) (checkpoint_dir : option string)
    (gateway_endpoint : option string) (n_batches : Z)
    (options : FetchOptions) : Cmd TraceCollectionExperiment.t :=
  lift (client_nodes_of client_node n_clients) ≫=
    fun nodes : list SSHNode.t =>
  lift (unpack_rows urlfile) ≫= fun urls : list string =>
  lift (endpoint_of gateway_endpoint gateway_node) ≫=
    fun endpoint : string =>
  TraceCollectionExperiment.init env gateway_node nodes urls checkpoint_dir
    n_batches endpoint options.

(** The collector invocations among the commands issued. *)
Definition fetch_requests (cs : list command) : list FetchRequest :=
  omap (fun c => match c with
                 | DockerFetchWebsites r => Some r
                 | _ => None
                 end) cs.

End FetchWithVpn.

(** ** The collection rounds as the specification words them *)

Module AsSpecified.
Import Planner FetchWithVpn.





End AsSpecified.

(** ** Stand-ins for the collaborators, for running the script *)

Module Scenario.
Import Planner FetchWithVpn.

(** Modelled from the spec: [filter_by_checkpoint] of lab.fetch_websites
    ("folds loaded outcomes into per-item, per-category
    counts-still-needed, treating an item/category as exhausted either
    when its requested count is met or when its consecutive-failure
    count reaches [max_attempts]; items with empty plans are dropped
    entirely"). *)
Definition concerns (url category : string) (o : Outcome) : bool :=
  bool_decide (o_url o = url) && bool_decide (o_category o = category).

Definition successes (url category : string) (checkpoint : list Outcome) : Z :=
  Z.of_nat (length (filter (fun o => concerns url category o && o_success o)
                      checkpoint)).

(** The failures since the last success, newest outcome first. *)
Fixpoint recent_failures (url category : string) (newest_first : list Outcome)
  : Z :=
  match newest_first with
  | [] => 0
  | o :: older =>
      if concerns url category o then
        if o_success o then 0
        else 1 + recent_failures url category older
      else recent_failures url category older
  end.

Definition still_needed (checkpoint : list Outcome) (max_attempts : Z)
    (url category : string) (requested : Z) : Z :=
  if max_attempts <=? recent_failures url category (rev checkpoint) then 0
  else Z.max 0 (requested - successes url category checkpoint).

Definition remaining_plan (checkpoint : list Outcome) (max_attempts : Z)
    (requested : gmap string Z) (url : string) : gmap string Z :=
  filter (fun kv => 0 < kv.2)
    (map_imap (fun category n =>
                 Some (still_needed checkpoint max_attempts url category n))
       requested).

Definition remaining_of (all_urls : list string) (checkpoint : list Outcome)
    (requested : gmap string Z) (max_attempts : Z)
  : gmap string (gmap string Z) :=
  list_to_map
    (omap (fun url =>
             let plan := remaining_plan checkpoint max_attempts requested url in
             if decide (plan = ∅) then None else Some (url, plan))
       all_urls).

(** The keys of that dict: the URLs with work left, in the order in
    which they were given. *)
Definition remaining_order (all_urls : list string)
    (checkpoint : list Outcome) (requested : gmap string Z)
    (max_attempts : Z) : list string :=
  omap (fun url =>
          let plan := remaining_plan checkpoint max_attempts requested url in
          if decide (plan = ∅) then None else Some url)
    (remove_dups all_urls).

(** A stand-in for [urllib.parse.urlparse(url).port] on URLs of the form
    scheme://host[:port][/...]. *)
Fixpoint after_scheme (s : string) : option string :=
  match s with
  | String ":" (String "/" (String "/" rest)) => Some rest
  | String _ rest => after_scheme rest
  | EmptyString => None
  end.

Fixpoint netloc (s : string) : string :=
  match s with
  | String a rest =>
      if (Ascii.eqb a "/" || Ascii.eqb a "?" || Ascii.eqb a "#")%bool
      then EmptyString else String a (netloc rest)
  | EmptyString => EmptyString
  end.

(** The text after the last colon, if there is a colon. *)
Fixpoint after_last_colon (s : string) : option string :=
  match s with
  | String a rest =>
      match after_last_colon rest with
      | Some p => Some p
      | None => if Ascii.eqb a ":" then Some rest else None
      end
  | EmptyString => None
  end.

Fixpoint digits_value (acc : Z) (s : string) : option Z :=
  match s with
  | EmptyString => Some acc
  | String a rest =>
      let n := Z.of_nat (Ascii.nat_of_ascii a) in
      if (48 <=? n) && (n <=? 57) then digits_value (10 * acc + (n - 48)) rest
      else None
  end.

Definition simple_port (url : string) : pyresult (option Z) :=
  match after_scheme url with
  | None => Ok None
  | Some rest =>
      match after_last_colon (netloc rest) with
      | None | Some EmptyString => Ok None
      | Some p =>
          match digits_value 0 p with
          | Some n => if n <=? 65535 then Ok (Some n) else Raise ValueError
          | None => Raise ValueError
          end
      end
  end.

(** A collector that fetches everything it is asked for: one line
    "url category" per requested repetition. *)
Fixpoint before_space (s : string) : string :=
  match s with
  | String a rest =>
      if Ascii.eqb a " " then EmptyString else String a (before_space rest)
  | EmptyString => EmptyString
  end.

Fixpoint after_space (s : string) : string :=
  match s with
  | String a rest => if Ascii.eqb a " " then rest else after_space rest
  | EmptyString => EmptyString
  end.

Definition decode_line (line : string) : Outcome :=
  {| o_url := before_space line; o_category := after_space line;
     o_success := true; o_attempts := 1 |}.

Definition fetch_everything (request : FetchRequest) : list string :=
  url ← fr_urls request;
  kv ← map_to_list (fr_version_ctr request);
  replicate (Z.to_nat kv.2) (url +:+ " " +:+ kv.1).

(** Every command succeeds. *)
Definition obliging_shell (c : command) : pyresult string :=
  match c with
  | Uuid4 => Ok "1b4e28ba2fa111d2883f0016d3cca427"
  | PerfCounterNs => Ok "1000"
  | Wg ("genkey" :: _) _ => Ok ("private" +:+ Wireguard.newline)
  | Wg _ stdin => Ok ("public-of-" +:+ stdin +:+ Wireguard.newline)
  | DockerWgGateway _ _ => Ok ("c0ffee" +:+ Wireguard.newline)
  | Docker _ ("container" :: _) => Ok ("true" +:+ Wireguard.newline)
  | _ => Ok ""
  end.

Definition obliging : Env :=
  {| urlparse_port := simple_port;
     decode_result := decode_line;
     filter_by_checkpoint := remaining_of;
     remaining_keys := remaining_order;
     shell := fun _ c => obliging_shell c;
     fetch_output := fun _ request _ => fetch_everything request;
     fetch_errors := fun _ _ => [];
     cancelled := fun _ _ => false;
     still_alive := fun _ _ => false |}.

Definition initial : State :=
  {| wg := Wireguard.empty_store; files := ∅; history := [];
     container_id := None; tasks := [] |}.

Definition options (requested : gmap string Z) : FetchOptions :=
  {| driver_path := None; delay := None; max_attempts := 3;
     snaplen := None; version_ctr := requested;
     attempts_per_protocol := false |}.

(** One agent on the localhost, client 1 of the store of
    test_wireguard.py, with one URL to fetch over "tcp". *)
Definition agent (repetitions batches : Z) : BrowserPeer.t :=
  {| BrowserPeer.peer_uuid := "1b4e28ba2fa111d2883f0016d3cca427";
     BrowserPeer.wg_conf := 1%nat;
     BrowserPeer.node := None;
     BrowserPeer.checkpoint_path := "/ckpt/peer-10_0_0_2.state";
     BrowserPeer.bulk_log := "/ckpt/peer-10_0_0_2.log";
     BrowserPeer.remote_config :=
       "/tmp/peer-10_0_0_2-1b4e28ba2fa111d2883f0016d3cca427-wg0.conf";
     BrowserPeer.urls := ["https://a.com"];
     BrowserPeer.fetch_options := options {[ "tcp" := repetitions ]};
     BrowserPeer.n_batches := batches |}.

Definition configured : State :=
  set_wg (fun _ => Wireguard.test_store) initial.

(** The same, with a checkpoint that already holds [n] fetches. *)
Definition checkpointed (n : nat) : State :=
  set_files <[ "/ckpt/peer-10_0_0_2.state" := replicate n "https://a.com tcp" ]>
    configured.

(** An experiment with two agents; the first one's [run()] raises at
    once (its collector exits with status 1), the second one's has five
    more suspensions to go and would then return its checkpoint. *)
Definition second_agent : BrowserPeer.t :=
  {| BrowserPeer.peer_uuid := "6ba7b8109dad11d180b400c04fd430c8";
     BrowserPeer.wg_conf := 2%nat;
     BrowserPeer.node := None;
     BrowserPeer.checkpoint_path := "/ckpt/peer-10_0_0_3.state";
     BrowserPeer.bulk_log := "/ckpt/peer-10_0_0_3.log";
     BrowserPeer.remote_config :=
       "/tmp/peer-10_0_0_3-6ba7b8109dad11d180b400c04fd430c8-wg0.conf";
     BrowserPeer.urls := ["https://d.org"];
     BrowserPeer.fetch_options := options {[ "tcp" := 4 ]};
     BrowserPeer.n_batches := 2 |}.

Definition two_agents : TraceCollectionExperiment.t :=
  {| TraceCollectionExperiment.gateway :=
       {| WireguardGateway.wg_conf := 0%nat;
          WireguardGateway.node := Some "root@gateway" |};
     TraceCollectionExperiment.clients := [agent 4 2; second_agent] |}.

Definition first_fails (peer : BrowserPeer.t) : task :=
  if decide (BrowserPeer.wg_conf peer = 1%nat)
  then Pending 0 (Raise (ErrorReturnCode 1))
  else Pending 5 (Ok (BrowserPeer.checkpoint_path peer)).

(** A world in which the gateway container does not come up: asking
    docker about it fails. *)
Definition unhealthy : Env :=
  {| urlparse_port := simple_port;
     decode_result := decode_line;
     filter_by_checkpoint := remaining_of;
     remaining_keys := remaining_order;
     shell := fun _ c =>
       match c with
       | Docker _ ("container" :: _) => Raise (ErrorReturnCode 1)
       | _ => obliging_shell c
       end;
     fetch_output := fun _ request _ => fetch_everything request;
     fetch_errors := fun _ _ => [];
     cancelled := fun _ _ => false;
     still_alive := fun _ _ => false |}.

(** A world in which the agent is cancelled while it waits for its
    second round, whose collector has by then written one line and is
    still running. *)
Definition interrupted : Env :=
  {| urlparse_port := simple_port;
     decode_result := decode_line;
     filter_by_checkpoint := remaining_of;
     remaining_keys := remaining_order;
     shell := fun _ c => obliging_shell c;
     fetch_output := fun h request _ =>
       match fetch_requests h with
       | [] => fetch_everything request
       | _ => take 1 (fetch_everything request)
       end;
     fetch_errors := fun _ _ => ["starting"];
     cancelled := fun h _ =>
       match fetch_requests h with [] => false | _ => true end;
     still_alive := fun _ _ => true |}.

End Scenario.

(** ** Facts about the string and path functions *)

Module PyStrFacts.
Import PyStr.
Local Open Scope string_scope.

Lemma string_length_app (s1 s2 : string) :
  String.length (s1 +:+ s2) = (String.length s1 + String.length s2)%nat.
Proof. induction s1 as [|b s1 IH]; simpl; [reflexivity|]. rewrite IH. reflexivity. Qed.

Lemma string_app_inj_r (s1 s2 t : string) :
  s1 +:+ t = s2 +:+ t -> s1 = s2.
Proof.
  revert s2. induction s1 as [|a s1 IH]; intros [|b s2] Heq; simpl in Heq.
  - reflexivity.
  - exfalso. apply (f_equal String.length) in Heq.
    rewrite !string_length_app in Heq. simpl in Heq.
    rewrite ?string_length_app in Heq. lia.
  - exfalso. apply (f_equal String.length) in Heq.
    rewrite !string_length_app in Heq. simpl in Heq.
    rewrite ?string_length_app in Heq. lia.
  - injection Heq as -> Heq. f_equal. apply IH. exact Heq.
Qed.

Lemma free_of_app (a : Ascii.ascii) (s t : string) :
  free_of a (s +:+ t) = free_of a s && free_of a t.
Proof.
  induction s as [|b s IH]; simpl; [reflexivity|].
  rewrite IH, andb_assoc. reflexivity.
Qed.

Lemma split_on_nonempty (sep : Ascii.ascii) (s : string) :
  split_on sep s <> [].
Proof.
  destruct s as [|a s]; simpl; [discriminate|].
  destruct (Ascii.eqb a sep); [discriminate|].
  destruct (split_on sep s); discriminate.
Qed.

(** A piece without separator in front of a text joins the text's
    first piece. *)
Lemma split_on_app (sep : Ascii.ascii) (s t : string) :
  free_of sep s = true ->
  split_on sep (s +:+ t)
  = match split_on sep t with
    | first :: others => (s +:+ first) :: others
    | [] => [s]
    end.
Proof.
  induction s as [|a s IH].
  - intros _. change ("" +:+ t) with t.
    pose proof (split_on_nonempty sep t) as Hne.
    destruct (split_on sep t); [contradiction|reflexivity].
  - simpl. destruct (Ascii.eqb a sep); simpl; [discriminate|].
    intros Hs. rewrite (IH Hs).
    destruct (split_on sep t); reflexivity.
Qed.

Lemma split_on_single (sep : Ascii.ascii) (s : string) :
  free_of sep s = true -> split_on sep s = [s].
Proof.
  induction s as [|a s IH]; simpl; [reflexivity|].
  destruct (Ascii.eqb a sep); simpl; [discriminate|].
  intros Hs. rewrite (IH Hs). reflexivity.
Qed.

Lemma split_on_sep (sep : Ascii.ascii) (t : string) :
  split_on sep (String sep t) = EmptyString :: split_on sep t.
Proof. simpl. rewrite Ascii.eqb_refl. reflexivity. Qed.

Lemma string_app_empty_r (s : string) : s +:+ "" = s.
Proof.
  induction s as [|a s IH]; [reflexivity|].
  change (String a (s +:+ "") = String a s). rewrite IH. reflexivity.
Qed.

(** A text is cut at its first separator, if it has one. *)
Lemma cut_at (sep : Ascii.ascii) (s : string) :
  exists head tail,
    s = head +:+ tail /\ free_of sep head = true
    /\ (tail = EmptyString \/ exists t, tail = String sep t).
Proof.
  induction s as [|a s (head & tail & -> & Hfree & Htail)].
  - exists EmptyString, EmptyString.
    split; [reflexivity|]. split; [reflexivity|]. left. reflexivity.
  - destruct (Ascii.eqb_spec a sep) as [->|Hne].
    + exists EmptyString, (String sep (head +:+ tail)).
      split; [reflexivity|]. split; [reflexivity|]. right. eauto.
    + exists (String a head), tail. split; [reflexivity|].
      split; [|exact Htail]. simpl. rewrite Hfree.
      destruct (Ascii.eqb_spec a sep); [contradiction|reflexivity].
Qed.

Lemma free_of_sep (sep : Ascii.ascii) (t : string) :
  free_of sep (String sep t) = false.
Proof. simpl. rewrite Ascii.eqb_refl. reflexivity. Qed.

Lemma string_app_assoc (s1 s2 s3 : string) :
  (s1 +:+ s2) +:+ s3 = s1 +:+ (s2 +:+ s3).
Proof.
  induction s1 as [|a s1 IH]; [reflexivity|].
  change (String a ((s1 +:+ s2) +:+ s3) = String a (s1 +:+ (s2 +:+ s3))).
  rewrite IH. reflexivity.
Qed.

End PyStrFacts.

Module PyPathFacts.
Import PyStr PyStrFacts.
Local Open Scope string_scope.

Example path_of_dot_directory :
  PyPath.to_str <$> PyPath.with_suffix
                      (PyPath.joinpath (PyPath.of_str ".") "peer-10_0_0_2")
                      ".state"
  = Ok "peer-10_0_0_2.state".
Proof. vm_compute. reflexivity. Qed.

Example path_of_root_directory :
  PyPath.to_str <$> PyPath.with_suffix
                      (PyPath.joinpath (PyPath.of_str "/") "peer-10_0_0_2")
                      ".state"
  = Ok "/peer-10_0_0_2.state".
Proof. vm_compute. reflexivity. Qed.

Example path_normalised :
  PyPath.to_str (PyPath.of_str "//tmp//./ckpt/") = "//tmp/ckpt"
  /\ PyPath.to_str (PyPath.of_str "///tmp/../ckpt") = "/tmp/../ckpt"
  /\ PyPath.to_str (PyPath.of_str "") = "."
  /\ PyPath.to_str <$> PyPath.with_suffix (PyPath.of_str "a/b.tar.gz") ".log"
     = Ok "a/b.tar.log"
  /\ PyPath.with_suffix (PyPath.of_str "/") ".log" = Raise ValueError.
Proof. repeat split; vm_compute; reflexivity. Qed.

Lemma rfind_free (a : Ascii.ascii) (s : string) :
  free_of a s = true -> PyPath.rfind a s = None.
Proof.
  induction s as [|b s IH]; simpl; [reflexivity|].
  destruct (Ascii.eqb b a); simpl; [discriminate|].
  intros Hfree. rewrite (IH Hfree). reflexivity.
Qed.

Lemma splitroot_relative (s : string) :
  free_of "/" s = true -> PyPath.splitroot s = (EmptyString, s).
Proof.
  destruct s as [|a s]; [reflexivity|].
  unfold PyPath.splitroot. cbn [free_of].
  destruct (Ascii.eqb a "/"); [discriminate|reflexivity].
Qed.

(** A text without slash that is neither empty nor a dot is one
    component. *)
Lemma of_str_component (x : string) :
  free_of "/" x = true -> PyPath.kept x = true ->
  PyPath.of_str x = {| PyPath.root := ""; PyPath.parts := [x] |}.
Proof.
  intros Hfree Hkept. unfold PyPath.of_str.
  rewrite (splitroot_relative x Hfree), (split_on_single _ _ Hfree).
  cbn [List.filter]. rewrite Hkept. reflexivity.
Qed.

Lemma joinpath_component (p : PyPath.t) (x : string) :
  free_of "/" x = true -> PyPath.kept x = true ->
  PyPath.joinpath p x
  = {| PyPath.root := PyPath.root p; PyPath.parts := (PyPath.parts p ++ [x])%list |}.
Proof.
  intros Hfree Hkept. unfold PyPath.joinpath.
  rewrite (of_str_component x Hfree Hkept). reflexivity.
Qed.

(** A last component without dot gets the suffix appended. *)
Lemma with_suffix_component (r : string) (ps : list string) (x new : string) :
  free_of "." x = true -> x <> "" ->
  free_of "/" new = true ->
  negb (String.eqb new "") && negb (String.prefix "." new)
    || String.eqb new "." = false ->
  PyPath.with_suffix {| PyPath.root := r; PyPath.parts := (ps ++ [x])%list |} new
  = Ok {| PyPath.root := r; PyPath.parts := (ps ++ [x +:+ new])%list |}.
Proof.
  intros Hdot Hne Hsep Hvalid.
  unfold PyPath.with_suffix, PyPath.suffix, PyPath.name.
  cbn [PyPath.root PyPath.parts].
  rewrite Hsep, Hvalid. cbn [negb]. rewrite last_last.
  destruct (String.eqb_spec x "") as [|_]; [contradiction|].
  rewrite (rfind_free _ _ Hdot). cbn [String.eqb].
  rewrite removelast_last. reflexivity.
Qed.

Lemma concat_snoc (ps : list string) :
  exists pre, forall x, String.concat "/" (ps ++ [x])%list = pre +:+ x.
Proof.
  induction ps as [|a ps (pre & IH)].
  - exists "". intros x. reflexivity.
  - exists (a +:+ "/" +:+ pre). intros x.
    change ((a :: ps) ++ [x])%list with (a :: (ps ++ [x]))%list.
    specialize (IH x).
    destruct (ps ++ [x])%list as [|b l] eqn:Heq; [destruct ps; discriminate|].
    change (String.concat "/" (a :: b :: l))
      with (a +:+ "/" +:+ String.concat "/" (b :: l)).
    rewrite IH, !string_app_assoc. reflexivity.
Qed.

(** The text of a path ends with its last component; what is in front
    of it depends on the root and the other components only. *)
Lemma to_str_snoc (r : string) (ps : list string) :
  exists pre,
    forall x,
      PyPath.to_str {| PyPath.root := r; PyPath.parts := (ps ++ [x])%list |}
      = pre +:+ x.
Proof.
  destruct (concat_snoc ps) as [pre Hpre]. exists (r +:+ pre). intros x.
  unfold PyPath.to_str. cbn [PyPath.root PyPath.parts].
  specialize (Hpre x).
  destruct (ps ++ [x])%list as [|b l] eqn:Heq; [destruct ps; discriminate|].
  rewrite Hpre, string_app_assoc. destruct r; reflexivity.
Qed.

End PyPathFacts.

(** * Proofs *)

Module PyNumFacts.
Import PyNum.

Example true_divide_cross_check :
  forallb (fun '(a, b) => agrees_with_SFdiv a b)
    [(5, 4); (1, 3); (110, 4); (2 ^ 53 + 1, 1); (2 ^ 53 + 3, 1);
     (2 ^ 54 - 1, 7); (1, 2 ^ 1075); (1, 2 ^ 1075 - 1); (3, 2 ^ 1074);
     (10 ^ 300, 3); (7, 10 ^ 320)]%positive = true.
Proof. vm_compute. reflexivity. Qed.

Lemma round_nearest_even_bounds (p q : Z) :
  0 <= p -> 0 < q ->
  2 * p - q <= 2 * round_nearest_even p q * q <= 2 * p + q.
Proof.
  intros Hp Hq. unfold round_nearest_even.
  pose proof (Z.div_mod p q ltac:(lia)) as Hdm.
  pose proof (Z.mod_pos_bound p q Hq) as Hr.
  set (k := p / q) in *. set (r := p mod q) in *. clearbody k r.
  destruct (Z.ltb_spec (2 * r) q); [nia|].
  destruct (Z.ltb_spec q (2 * r)); [nia|].
  destruct (Z.even k); nia.
Qed.

Lemma binade_le_log2 (a b : Z) : binade a b <= Z.log2 a - Z.log2 b.
Proof. unfold binade. repeat case_match; lia. Qed.

(** The binade is a lower bound for the quotient. *)
Lemma binade_lower (a b : Z) :
  0 < a -> 0 < b ->
  (0 <= binade a b -> b * 2 ^ binade a b <= a) /\
  (binade a b < 0 -> b <= a * 2 ^ (- binade a b)).
Proof.
  intros Ha Hb.
  destruct (Z.log2_spec a Ha) as [Hla Hua].
  destruct (Z.log2_spec b Hb) as [Hlb Hub].
  pose proof (Z.log2_nonneg a) as Hna. pose proof (Z.log2_nonneg b) as Hnb.
  unfold binade. set (la := Z.log2 a) in *. set (lb := Z.log2 b) in *.
  destruct (Z.leb_spec 0 (la - lb)) as [Hd|Hd].
  - destruct (Z.ltb_spec a (b * 2 ^ (la - lb))) as [Hlt|Hge]; [|lia].
    split; intros Hd1.
    + replace la with ((la - lb - 1) + Z.succ lb) in Hla by lia.
      rewrite Z.pow_add_r in Hla by lia.
      assert (0 < 2 ^ (la - lb - 1)) by (apply Z.pow_pos_nonneg; lia).
      nia.
    + assert (la = lb) as Heq by lia. rewrite Heq in *.
      replace (- (lb - lb - 1)) with 1 by lia.
      rewrite Z.pow_succ_r in Hub by lia. lia.
  - destruct (Z.ltb_spec (a * 2 ^ (- (la - lb))) b) as [Hlt|Hge]; [|lia].
    split; [lia|intros _].
    replace (- (la - lb - 1)) with (Z.succ lb - la) by lia.
    assert (2 ^ Z.succ lb = 2 ^ (Z.succ lb - la) * 2 ^ la) as Hsplit.
    { rewrite <- Z.pow_add_r by lia. f_equal; lia. }
    assert (0 < 2 ^ (Z.succ lb - la)) by (apply Z.pow_pos_nonneg; lia).
    nia.
Qed.

(** Rounding to a grid of step [2 ^ - k] that is finer than [2 / b]
    cannot move the quotient [a / b] across an integer. *)
Lemma ceil_of_rounded (a b k : Z) :
  0 < a -> 0 < b -> 0 <= k -> b < 2 ^ (k + 1) ->
  - ((- round_nearest_even (a * 2 ^ k) b) / 2 ^ k) = exact_ceil a b.
Proof.
  intros Ha Hb Hk Hfine. unfold exact_ceil.
  assert (0 < 2 ^ k) as Hpk by (apply Z.pow_pos_nonneg; lia).
  rewrite Z.pow_add_r, Z.pow_1_r in Hfine by lia.
  pose proof (round_nearest_even_bounds (a * 2 ^ k) b ltac:(nia) Hb) as Hm.
  set (m := round_nearest_even (a * 2 ^ k) b) in *.
  set (c := - (- a / b)).
  assert ((c - 1) * b < a <= c * b) as Hc.
  { subst c. pose proof (Z.div_mod (- a) b ltac:(lia)).
    pose proof (Z.mod_pos_bound (- a) b Hb). nia. }
  assert ((c - 1) * 2 ^ k < m <= c * 2 ^ k) as Hmc by nia.
  f_equal. symmetry. apply Z.div_unique with (r := c * 2 ^ k - m); lia.
Qed.

Lemma math_ceil_neg_expo (m k : Z) :
  0 <= k -> math_ceil (PyFloat m (- k)) = - ((- m) / 2 ^ k).
Proof.
  intros Hk. unfold math_ceil. simpl.
  destruct (Z.leb_spec 0 (- k)).
  - assert (k = 0) as -> by lia. simpl. rewrite Z.div_1_r. lia.
  - rewrite Z.opp_involutive. reflexivity.
Qed.

(** Below [2 ^ 53] the float detour is harmless: the result is the
    exact ceiling.  The bound on the divisor keeps the quotient out of
    the range that underflows to zero. *)
Lemma ceil_truediv_exact (a b : Z) :
  0 < a < 2 ^ 53 -> 0 < b < 2 ^ 1075 ->
  ceil_truediv a b = Ok (exact_ceil a b).
Proof.
  intros [Ha Ha53] [Hb Hbmax].
  unfold ceil_truediv, int_true_divide.
  destruct (Z.eqb_spec b 0); [lia|]. destruct (Z.eqb_spec a 0); [lia|].
  rewrite (Z.abs_eq a), (Z.abs_eq b) by lia.
  rewrite (Z.sgn_pos a), (Z.sgn_pos b) by lia.
  pose proof (binade_le_log2 a b) as Hdle.
  pose proof (binade_lower a b Ha Hb) as [Hlo1 Hlo2].
  assert (Z.log2 a < 53) as Hla by (apply Z.log2_lt_pow2; lia).
  pose proof (Z.log2_nonneg b) as Hlb.
  set (d := binade a b) in *.
  set (e := Z.max (d - 52) (-1074)).
  assert (e <= 0) as He by lia.
  assert (exists k, 0 <= k /\ e = - k /\ b < 2 ^ (k + 1)) as (k & Hk & -> & Hfine).
  { exists (- e). split; [lia|]. split; [lia|].
    destruct (Z.max_spec (d - 52) (-1074)) as [[_ Hmax]|[_ Hmax]];
      fold e in Hmax; rewrite Hmax.
    - exact Hbmax.
    - replace (- (d - 52) + 1) with (53 - d) by lia.
      destruct (Z.le_gt_cases 0 d) as [Hd|Hd].
      + specialize (Hlo1 Hd).
        assert (2 ^ 53 = 2 ^ (53 - d) * 2 ^ d) as Hsplit.
        { rewrite <- Z.pow_add_r by lia. f_equal; lia. }
        assert (0 < 2 ^ d) by (apply Z.pow_pos_nonneg; lia). nia.
      + specialize (Hlo2 Hd).
        assert (2 ^ (53 - d) = 2 ^ 53 * 2 ^ (- d)) as Hsplit.
        { rewrite <- Z.pow_add_r by lia. f_equal; lia. }
        assert (0 < 2 ^ (- d)) by (apply Z.pow_pos_nonneg; lia). nia. }
  assert (0 < 2 ^ k) as Hpk by (apply Z.pow_pos_nonneg; lia).
  pose proof (ceil_of_rounded a b k Ha Hb Hk Hfine) as Hceil.
  pose proof (round_nearest_even_bounds (a * 2 ^ k) b ltac:(nia) Hb) as Hm.
  assert (0 < exact_ceil a b) as Hpos.
  { unfold exact_ceil. pose proof (Z.div_mod (- a) b ltac:(lia)).
    pose proof (Z.mod_pos_bound (- a) b Hb). nia. }
  set (m := round_nearest_even (a * 2 ^ k) b) in *.
  assert ((if 0 <=? - k then round_nearest_even a (b * 2 ^ (- k))
           else round_nearest_even (a * 2 ^ (- - k)) b) = m) as ->.
  { destruct (Z.leb_spec 0 (- k)).
    - assert (k = 0) as Hk0 by lia. subst m. rewrite Hk0. simpl.
      rewrite !Z.mul_1_r. reflexivity.
    - rewrite Z.opp_involutive. reflexivity. }
  clearbody m.
  assert (0 < m) as Hmpos.
  { destruct (Z.le_gt_cases m 0) as [Hm0|]; [|lia].
    assert (- m / 2 ^ k >= 0) by (apply Z_div_ge0; lia). lia. }
  destruct (Z.eqb_spec m 0); [lia|].
  assert (m <= a * 2 ^ k) as Hma by nia.
  assert (Z.log2 m < 53 + k).
  { apply Z.log2_lt_pow2; [lia|]. rewrite Z.pow_add_r by lia. nia. }
  destruct (Z.leb_spec 1024 (Z.log2 m + - k)); [lia|].
  simpl. rewrite math_ceil_neg_expo by lia.
  rewrite Z.mul_1_l. f_equal. exact Hceil.
Qed.

Lemma exact_ceil_pos (a b : Z) : 0 < a -> 0 < b -> 0 < exact_ceil a b.
Proof.
  intros Ha Hb. unfold exact_ceil.
  pose proof (Z.div_mod (- a) b ltac:(lia)).
  pose proof (Z.mod_pos_bound (- a) b Hb). nia.
Qed.

End PyNumFacts.

Module PlannerFacts.
Import PyNum PyNumFacts Planner.

Example test_batch :
  batch test_counters 1 = Ok {[ "Q043" := 40; "Q046" := 40; "tcp" := 110 ]} /\
  batch test_counters 2 = Ok {[ "Q043" := 20; "Q046" := 20; "tcp" := 55 ]} /\
  batch test_counters 4 = Ok {[ "Q043" := 10; "Q046" := 10; "tcp" := 28 ]}.
Proof. repeat split; vm_compute; reflexivity. Qed.

Example test_batch_min_count :
  batch {[ "a.com" := {[ "Q043" := 5; "Q046" := 3; "tcp" := 1 ]} ]} 4
  = Ok {[ "Q043" := 2; "Q046" := 1; "tcp" := 1 ]}.
Proof. vm_compute. reflexivity. Qed.

Example test_batch_empty :
  batch {[ "a.com" := {[ "Q043" := 0; "Q046" := 0; "tcp" := 0 ]};
           "b.com" := {[ "Q043" := 0; "Q046" := 0; "tcp" := 0 ]} ]} 4
  = Ok ∅.
Proof. vm_compute. reflexivity. Qed.

Example batch_negative_dropped :
  batch {[ "a.com" := {[ "Q043" := -3; "tcp" := 7 ]} ]} 2
  = Ok {[ "tcp" := 4 ]}.
Proof. vm_compute. reflexivity. Qed.

(** A quotient below half the smallest float rounds to zero. *)
Example batch_underflow :
  batch {[ "a.com" := {[ "tcp" := 1 ]} ]} (2 ^ 1075) = Ok {[ "tcp" := 0 ]}.
Proof. vm_compute. reflexivity. Qed.

Example batch_overflow :
  batch {[ "a.com" := {[ "tcp" := 10 ^ 400 ]} ]} 1 = Raise OverflowError.
Proof. vm_compute. reflexivity. Qed.

Example batch_zero_batches :
  batch {[ "a.com" := {[ "tcp" := 7 ]} ]} 0 = Raise ZeroDivisionError.
Proof. vm_compute. reflexivity. Qed.

(** *** Lookup equations of the counter operations *)

Lemma counter_ior_lookup (self other : gmap string Z) (k : string) :
  counter_ior self other !! k =
    match other !! k with
    | Some w => if count self k <? w then Some w else self !! k
    | None => self !! k
    end.
Proof.
  revert k. unfold counter_ior.
  apply (map_fold_weak_ind (fun acc o => forall k,
    acc !! k = match o !! k with
               | Some w => if count self k <? w then Some w else self !! k
               | None => self !! k
               end)).
  - intros k. rewrite lookup_empty. reflexivity.
  - intros i x o acc Hfresh IH k.
    assert (count acc i = count self i) as Hcount.
    { unfold count. rewrite IH, Hfresh. reflexivity. }
    rewrite Hcount. destruct (decide (k = i)) as [->|Hne].
    + rewrite lookup_insert_eq.
      destruct (count self i <? x) eqn:Hlt.
      * apply lookup_insert_eq.
      * rewrite IH, Hfresh. reflexivity.
    + rewrite (lookup_insert_ne o) by congruence.
      destruct (count self i <? x); [rewrite lookup_insert_ne by congruence|];
        apply IH.
Qed.

Lemma count_counter_ior (self other : gmap string Z) (k : string) :
  count (counter_ior self other) k =
    match other !! k with
    | Some w => Z.max (count self k) w
    | None => count self k
    end.
Proof.
  unfold count at 1. rewrite counter_ior_lookup.
  destruct (other !! k) as [w|]; [|reflexivity].
  destruct (Z.ltb_spec (count self k) w); simpl; [lia|].
  fold (count self k). lia.
Qed.

Lemma counter_pos_lookup (c : gmap string Z) (k : string) (v : Z) :
  counter_pos c !! k = Some v <-> c !! k = Some v /\ 0 < v.
Proof. unfold counter_pos. rewrite map_lookup_filter_Some. reflexivity. Qed.

Lemma merge_remaining_inv (remaining : gmap string (gmap string Z)) :
  merged_inv (merge_remaining remaining) remaining.
Proof.
  unfold merge_remaining. apply (map_fold_weak_ind merged_inv).
  - intros k. split.
    + intros peer ctr u H. rewrite lookup_empty in H. discriminate.
    + intros v H. rewrite lookup_empty in H. discriminate.
  - intros i x m r Hfresh IH k. destruct (IH k) as [Hub Hatt].
    assert (0 <= count r k) as Hnonneg.
    { unfold count. destruct (r !! k) as [v|] eqn:Hr; simpl; [|lia].
      destruct (Hatt v eq_refl). lia. }
    assert (count r k <= count (counter_ior r x) k
            /\ forall w, x !! k = Some w -> w <= count (counter_ior r x) k)
      as [Hmono Hnew].
    { rewrite count_counter_ior.
      destruct (x !! k) as [w|]; [|split; [reflexivity|discriminate]].
      split; [lia|]. intros ? [= <-]. lia. }
    split.
    + intros peer ctr u Hpeer Hu.
      destruct (decide (peer = i)) as [->|Hne].
      * rewrite lookup_insert_eq in Hpeer. injection Hpeer as <-. auto.
      * rewrite lookup_insert_ne in Hpeer by congruence.
        specialize (Hub peer ctr u Hpeer Hu). lia.
    + intros v. rewrite counter_ior_lookup.
      destruct (x !! k) as [w|] eqn:Hx.
      * destruct (Z.ltb_spec (count r k) w).
        -- intros [= <-]. split; [lia|]. exists i, x.
           rewrite lookup_insert_eq. auto.
        -- intros Hr. destruct (Hatt v Hr) as (Hv & peer & ctr & Hp & Hc).
           split; [exact Hv|]. exists peer, ctr. split; [|exact Hc].
           rewrite lookup_insert_ne; [exact Hp|]. congruence.
      * intros Hr. destruct (Hatt v Hr) as (Hv & peer & ctr & Hp & Hc).
        split; [exact Hv|]. exists peer, ctr. split; [|exact Hc].
        rewrite lookup_insert_ne; [exact Hp|]. congruence.
Qed.

Lemma merged_max (remaining : gmap string (gmap string Z)) (k : string) (M : Z) :
  is_max_count remaining k M -> 0 < M ->
  merge_remaining remaining !! k = Some M.
Proof.
  intros [(peer & ctr & Hp & Hc) Hmax] Hpos.
  destruct (merge_remaining_inv remaining k) as [Hub Hatt].
  specialize (Hub peer ctr M Hp Hc). unfold count in Hub.
  destruct (merge_remaining remaining !! k) as [v|]; simpl in Hub; [|lia].
  destruct (Hatt v eq_refl) as (_ & peer' & ctr' & Hp' & Hc').
  specialize (Hmax peer' ctr' v Hp' Hc'). f_equal. lia.
Qed.

Lemma merged_seen (remaining : gmap string (gmap string Z)) (k : string) (v : Z) :
  merge_remaining remaining !! k = Some v ->
  0 < v /\ is_max_count remaining k v.
Proof.
  intros Hv. destruct (merge_remaining_inv remaining k) as [Hub Hatt].
  destruct (Hatt v Hv) as [Hpos Hex]. split; [exact Hpos|].
  split; [exact Hex|]. intros peer ctr u Hp Hc.
  specialize (Hub peer ctr u Hp Hc). unfold count in Hub.
  rewrite Hv in Hub. exact Hub.
Qed.

(** When no division raises, the comprehension maps over the counter. *)
Lemma ceil_items_fmap (n : Z) (g : Z -> Z) (counter : gmap string Z) :
  (forall k v, counter !! k = Some v -> ceil_truediv v n = Ok (g v)) ->
  ceil_items n counter = Ok (g <$> counter).
Proof.
  unfold ceil_items.
  apply (map_fold_weak_ind (fun res m =>
    (forall k v, m !! k = Some v -> ceil_truediv v n = Ok (g v)) ->
    res = Ok (g <$> m))).
  - intros _. rewrite fmap_empty. reflexivity.
  - intros i x m res Hfresh IH Hall.
    rewrite IH.
    + rewrite (Hall i x) by apply lookup_insert_eq.
      simpl. rewrite fmap_insert. reflexivity.
    + intros k v Hk. apply (Hall k v).
      rewrite lookup_insert_ne; [exact Hk|]. congruence.
Qed.

End PlannerFacts.

Module WireguardFacts.
Import Wireguard.
Local Open Scope string_scope.

Example test_gateway_config_no_peers :
  gateway_config_lines
    (new_gateway 0%nat "localhost" "privkey" "pubkey" empty_store) 0%nat
  = Ok [ "[Interface]"; "PrivateKey = privkey"; "Address = 10.0.0.1/24";
         "ListenPort = 51888";
         "PostUp = iptables -t nat -A POSTROUTING -o eth0 -j MASQUERADE";
         "PostDown = iptables -t nat -D POSTROUTING -o eth0 -j MASQUERADE";
         "" ].
Proof. vm_compute. reflexivity. Qed.

Example test_gateway_config_peers :
  gateway_config_lines test_store 0%nat
  = Ok [ "[Interface]"; "PrivateKey = privkey"; "Address = 10.0.0.1/24";
         "ListenPort = 51888";
         "PostUp = iptables -t nat -A POSTROUTING -o eth0 -j MASQUERADE";
         "PostDown = iptables -t nat -D POSTROUTING -o eth0 -j MASQUERADE";
         "";
         "[Peer]"; "PublicKey = client1_pubkey"; "AllowedIPs = 10.0.0.2/32";
         "";
         "[Peer]"; "PublicKey = client2_pubkey"; "AllowedIPs = 10.0.0.3/32";
         "" ].
Proof. vm_compute. reflexivity. Qed.

Example test_client_config :
  client_config_lines test_store 2%nat
  = Ok [ "[Interface]"; "PrivateKey = client2_privkey";
         "Address = 10.0.0.3/32"; "";
         "[Peer]"; "PublicKey = pubkey"; "Endpoint = localhost:51888";
         "AllowedIPs = 0.0.0.0/0"; "" ].
Proof. vm_compute. reflexivity. Qed.

Example client_without_gateway :
  client_to_string
    (new_client 1%nat "10.0.0.2" "client1_privkey" "client1_pubkey"
       empty_store) 1%nat
  = Raise AssertionError.
Proof. vm_compute. reflexivity. Qed.

(** *** Attaching clients *)

Lemma fold_attach_gateway (g : ref) (cs : list ref) :
  forall (st : Store) (gw : GatewayConfig),
    gateway_objs st !! g = Some gw ->
    gateway_objs (fold_left (attach g) cs st) !! g
    = Some {| gateway_basic := gateway_basic gw;
              clients := (clients gw ++ cs)%list |}.
Proof.
  induction cs as [|c cs IH]; intros st gw Hg; simpl.
  - rewrite app_nil_r. rewrite Hg. destruct gw; reflexivity.
  - rewrite (IH _ {| gateway_basic := gateway_basic gw;
                     clients := (clients gw ++ [c])%list |}).
    + simpl. rewrite <- app_assoc. reflexivity.
    + simpl. rewrite lookup_alter_eq, Hg. reflexivity.
Qed.

Lemma fold_attach_client (g : ref) (cs : list ref) (c : ref) :
  forall (st : Store) (cl : ClientConfig),
    client_objs st !! c = Some cl ->
    client_objs (fold_left (attach g) cs st) !! c
    = Some {| client_basic := client_basic cl;
              gateway := if decide (c ∈ cs) then Some g else gateway cl |}.
Proof.
  induction cs as [|c' cs IH]; intros st cl Hc; simpl.
  - rewrite Hc. destruct cl; reflexivity.
  - destruct (decide (c = c')) as [<-|Hne].
    + rewrite (IH _ {| client_basic := client_basic cl;
                       gateway := Some g |}).
      * simpl. rewrite (decide_True (P := c ∈ c :: cs)) by left.
        destruct (decide (c ∈ cs)); reflexivity.
      * simpl. rewrite lookup_alter_eq, Hc. reflexivity.
    + rewrite (IH _ cl).
      * destruct (decide (c ∈ cs)) as [Hin|Hnin].
        -- rewrite (decide_True (P := c ∈ c' :: cs)) by (right; exact Hin).
           reflexivity.
        -- rewrite (decide_False (P := c ∈ c' :: cs)); [reflexivity|].
           intros Hin. apply elem_of_cons in Hin as [?|?]; congruence.
      * simpl. rewrite lookup_alter_ne by congruence. exact Hc.
Qed.

Lemma set_clients_gateway (st : Store) (g : ref) (gw : GatewayConfig)
    (cs : list ref) :
  gateway_objs st !! g = Some gw ->
  gateway_objs (set_clients g cs st) !! g
  = Some {| gateway_basic := gateway_basic gw; clients := cs |}.
Proof.
  intros Hg. unfold set_clients.
  rewrite (fold_attach_gateway g cs _
             {| gateway_basic := gateway_basic gw; clients := [] |}).
  - reflexivity.
  - simpl. rewrite lookup_alter_eq, Hg. reflexivity.
Qed.

Lemma set_clients_client (st : Store) (g : ref) (cs : list ref) (c : ref)
    (cl : ClientConfig) :
  client_objs st !! c = Some cl ->
  client_objs (set_clients g cs st) !! c
  = Some {| client_basic := client_basic cl;
            gateway := if decide (c ∈ cs) then Some g else gateway cl |}.
Proof. intros Hc. unfold set_clients. apply fold_attach_client. exact Hc. Qed.

(** *** Rendering *)

Lemma fold_peer_lines (st : Store) (cs : list ref) :
  forall (ccs : list ClientConfig) (acc : list string),
    Forall2 (fun c cl => exists cl', client_objs st !! c = Some cl'
                          /\ client_basic cl' = client_basic cl) cs ccs ->
    fold_left
      (fun (config_lines : pyresult (list string)) (client : ref) =>
         lines ← config_lines;
         cl ← get_client st client;
         Ok (lines ++ peer_lines cl)%list)
      cs (Ok acc)
    = Ok (acc ++ concat (peer_lines <$> ccs))%list.
Proof.
  induction cs as [|c cs IH]; intros ccs acc Hall.
  - apply Forall2_nil_inv_l in Hall as ->. simpl.
    rewrite app_nil_r. reflexivity.
  - apply Forall2_cons_inv_l in Hall
      as (cl & ccs' & (cl' & Hc & Hbasic) & Hall & ->).
    simpl. unfold get_client at 2. rewrite Hc. simpl.
    assert (peer_lines cl' = peer_lines cl) as ->.
    { unfold peer_lines. rewrite Hbasic. reflexivity. }
    rewrite (IH ccs' _ Hall). rewrite <- app_assoc. reflexivity.
Qed.

Lemma count_header_app (h : string) (l1 l2 : list string) :
  count_header h (l1 ++ l2) = (count_header h l1 + count_header h l2)%nat.
Proof.
  induction l1 as [|l l1 IH]; simpl; [reflexivity|]. rewrite IH. lia.
Qed.

Lemma count_header_peer_lines (cl : ClientConfig) :
  count_header "[Peer]" (peer_lines cl) = 1%nat /\
  count_header "[Interface]" (peer_lines cl) = 0%nat.
Proof. split; reflexivity. Qed.

Lemma count_header_peer_blocks (ccs : list ClientConfig) :
  count_header "[Peer]" (concat (peer_lines <$> ccs)) = length ccs /\
  count_header "[Interface]" (concat (peer_lines <$> ccs)) = 0%nat.
Proof.
  induction ccs as [|cl ccs [IHp IHi]]; [split; reflexivity|].
  rewrite fmap_cons.
  change (concat (peer_lines cl :: (peer_lines <$> ccs)))
    with (peer_lines cl ++ concat (peer_lines <$> ccs))%list.
  destruct (count_header_peer_lines cl) as [Hp Hi].
  rewrite !count_header_app, IHp, IHi, Hp, Hi.
  split; reflexivity.
Qed.

Lemma count_header_interface (gw : GatewayConfig) :
  count_header "[Interface]" (interface_lines gw) = 1%nat /\
  count_header "[Peer]" (interface_lines gw) = 0%nat.
Proof. split; reflexivity. Qed.

End WireguardFacts.

Module FetchFacts.
Import Planner FetchWithVpn.

(** *** The statement monad *)

Lemma bind_ok {A B} (c : Cmd A) (k : A -> Cmd B) (st st' : State) (a : A) :
  c st = (st', Ok a) -> (c ≫= k) st = k a st'.
Proof. intros H. unfold mbind, cmd_bind. rewrite H. reflexivity. Qed.

Lemma bind_raise {A B} (c : Cmd A) (k : A -> Cmd B) (st st' : State)
    (e : pyexc) :
  c st = (st', Raise e) -> (c ≫= k) st = (st', Raise e).
Proof. intros H. unfold mbind, cmd_bind. rewrite H. reflexivity. Qed.

Lemma bind_lift {A B} (r : pyresult A) (k : A -> Cmd B) (st : State) :
  (lift r ≫= k) st = match r with
                     | Ok a => k a st
                     | Raise e => (st, Raise e)
                     end.
Proof. unfold mbind, cmd_bind, lift. destruct r; reflexivity. Qed.

Lemma bind_get_state {B} (k : State -> Cmd B) (st : State) :
  (get_state ≫= k) st = k st st.
Proof. reflexivity. Qed.

(** Run the sequencing of statements symbolically. *)
Ltac run_cmd :=
  unfold mbind, cmd_bind, mret, cmd_ret, get_state, lift, modify; simpl.

(** *** Collector invocations *)

Lemma fetch_requests_app (l1 l2 : list command) :
  fetch_requests (l1 ++ l2) = fetch_requests l1 ++ fetch_requests l2.
Proof. unfold fetch_requests. apply omap_app. Qed.

Lemma fetch_requests_replicate (k : nat) (r : FetchRequest) :
  fetch_requests (replicate k (DockerFetchWebsites r)) = replicate k r.
Proof. induction k as [|k IH]; simpl; [reflexivity|]. f_equal. exact IH. Qed.

(** [put_text]: the copy is issued, and on the localhost the file is
    there when the copy has succeeded. *)
Lemma put_text_unfold (env : Env) (node : SSHNode.t) (text filename : string)
    (st : State) :
  let put := PutText node text filename in
  SSHNode.put_text env node text filename st =
    match shell env (history st) put with
    | Raise e => (record_command put st, Raise e)
    | Ok _ =>
        (if SSHNode.is_localhost node
         then set_files <[filename := Wireguard.split_lines text]>
                (record_command put st)
         else record_command put st,
         Ok filename)
    end.
Proof.
  intros put. unfold SSHNode.put_text, exec. run_cmd. fold put.
  destruct (shell env (history st) put); [|reflexivity].
  destruct (SSHNode.is_localhost node); reflexivity.
Qed.

Lemma put_text_objects (env : Env) (node : SSHNode.t) (text filename : string)
    (st : State) :
  let pushed := (SSHNode.put_text env node text filename st).1 in
  same_objects st pushed
  /\ history pushed = history st ++ [PutText node text filename]
  /\ forall p,
       (SSHNode.is_localhost node = true -> p <> filename) ->
       files pushed !! p = files st !! p.
Proof.
  intros pushed. subst pushed. rewrite put_text_unfold.
  destruct (shell env (history st) _); simpl.
  - destruct (SSHNode.is_localhost node); simpl.
    + split; [repeat split|]. split; [reflexivity|].
      intros p Hp. specialize (Hp eq_refl).
      rewrite lookup_insert_ne by congruence. reflexivity.
    + split; [repeat split|]. split; reflexivity.
  - split; [repeat split|]. split; reflexivity.
Qed.

(** One round: the collector is launched with the request, the bulk log
    is replaced by its errors, its output is behind what the checkpoint
    held, and the round ends with [CancelledError] when the agent is
    cancelled, with the collector's failure or normally otherwise. *)
Lemma collect_batch_spec (env : Env) (self : BrowserPeer.t)
    (batch_urls : list string) (batch_ctr : gmap string Z) (st : State) :
  let request := BrowserPeer.fetch_request self batch_urls batch_ctr in
  let current := default [] (files st !! BrowserPeer.checkpoint_path self) in
  let output := fetch_output env (history st) request current in
  let round := BrowserPeer.collect_batch env self batch_urls batch_ctr st in
  fetch_requests (history round.1) = fetch_requests (history st) ++ [request]
  /\ same_objects st round.1
  /\ files round.1
     = <[BrowserPeer.checkpoint_path self := current ++ output]>
         (<[BrowserPeer.bulk_log self := fetch_errors env (history st) request]>
            (files st))
  /\ round.2
     = if cancelled env (history st) request then Raise CancelledError
       else _ ← shell env (history st) (DockerFetchWebsites request); Ok tt.
Proof.
  intros request current output round. subst round.
  unfold BrowserPeer.collect_batch. fold request current output.
  destruct (cancelled env (history st) request).
  - destruct (still_alive env (history st) request); simpl;
      rewrite !fetch_requests_app; simpl; rewrite ?app_nil_r;
      repeat split; reflexivity.
  - simpl. rewrite fetch_requests_app. repeat split; reflexivity.
Qed.

(** [n] rounds of one and the same request: the rounds run until one
    fails or is cancelled, and each of them puts what its collector
    wrote behind what the checkpoint held. *)
Lemma repeat_collect_batch (env : Env) (self : BrowserPeer.t)
    (batch_urls : list string) (batch_ctr : gmap string Z) (n : nat) :
  forall st : State,
    let request := BrowserPeer.fetch_request self batch_urls batch_ctr in
    let path := BrowserPeer.checkpoint_path self in
    let done :=
      repeat_cmd n (BrowserPeer.collect_batch env self batch_urls batch_ctr)
        st in
    exists (k : nat) (outputs : list (list string)),
      (k <= n)%nat /\ length outputs = k
      /\ fetch_requests (history done.1)
         = fetch_requests (history st) ++ replicate k request
      /\ same_objects st done.1
      /\ (k = 0%nat -> done.1 = st)
      /\ default [] (files done.1 !! path)
         = default [] (files st !! path) ++ concat outputs
      /\ (forall p, p <> path -> p <> BrowserPeer.bulk_log self ->
          files done.1 !! p = files st !! p)
      /\ Forall (fun out => exists h current,
                   out = fetch_output env h request current) outputs
      /\ (done.2 = Ok tt /\ k = n
          \/ (1 <= k)%nat
             /\ (exists e h,
                   done.2 = Raise e
                   /\ shell env h (DockerFetchWebsites request) = Raise e)
          \/ (1 <= k)%nat
             /\ done.2 = Raise CancelledError
             /\ exists h, cancelled env h request = true).
Proof.
  induction n as [|n IH]; intros st request path; simpl.
  - exists 0%nat, []. simpl. rewrite !app_nil_r.
    split; [lia|]. split; [reflexivity|]. split; [reflexivity|].
    split; [repeat split|]. split; [reflexivity|]. split; [reflexivity|].
    split; [reflexivity|]. split; [constructor|]. left. split; reflexivity.
  - unfold mbind, cmd_bind.
    destruct (collect_batch_spec env self batch_urls batch_ctr st)
      as (Hreq & Hsame & Hfiles & Hres).
    fold request path in Hreq, Hfiles, Hres.
    set (output := fetch_output env (history st) request
                     (default [] (files st !! path))) in *.
    destruct (BrowserPeer.collect_batch env self batch_urls batch_ctr st)
      as [st1 r1]. simpl in Hreq, Hsame, Hfiles, Hres.
    assert (default [] (files st1 !! path)
            = default [] (files st !! path) ++ output) as Hpath.
    { rewrite Hfiles, lookup_insert_eq. reflexivity. }
    assert (forall p, p <> path -> p <> BrowserPeer.bulk_log self ->
              files st1 !! p = files st !! p) as Hother.
    { intros p Hp Hlog. rewrite Hfiles.
      rewrite !lookup_insert_ne by congruence. reflexivity. }
    assert (exists h current, output = fetch_output env h request current)
      as Hout by (subst output; eauto).
    destruct (cancelled env (history st) request) eqn:Hcancel.
    + subst r1. exists 1%nat, [output]. simpl. rewrite app_nil_r.
      split; [lia|]. split; [reflexivity|]. split; [exact Hreq|].
      split; [exact Hsame|]. split; [lia|]. split; [exact Hpath|].
      split; [exact Hother|]. split; [constructor; [exact Hout|constructor]|].
      right. right. split; [lia|]. split; [reflexivity|]. eauto.
    + destruct (shell env (history st) (DockerFetchWebsites request))
        as [out|e] eqn:Hshell; simpl in Hres; subst r1.
      * destruct (IH st1)
          as (k & outputs & Hk & Hlen & Hreqs & Hsame' & _ & Hpath' & Hother'
              & Houts & Hend).
        fold request path in Hreqs, Hpath', Houts, Hend.
        exists (S k), (output :: outputs). split; [lia|].
        split; [simpl; lia|]. split.
        { rewrite Hreqs, Hreq, <- app_assoc. reflexivity. }
        split.
        { destruct Hsame as (? & ? & ?), Hsame' as (? & ? & ?).
          repeat split; congruence. }
        split; [lia|]. split.
        { rewrite Hpath', Hpath. simpl. rewrite app_assoc. reflexivity. }
        split.
        { intros p Hp Hlog. rewrite (Hother' p Hp Hlog). apply Hother; assumption. }
        split; [constructor; assumption|].
        destruct Hend as [[Hok ->]|[(Hk1 & Hfail)|(Hk1 & Hcan)]].
        -- left. split; [exact Hok|reflexivity].
        -- right. left. split; [lia|exact Hfail].
        -- right. right. split; [lia|exact Hcan].
      * exists 1%nat, [output]. simpl. rewrite app_nil_r.
        split; [lia|]. split; [reflexivity|]. split; [exact Hreq|].
        split; [exact Hsame|]. split; [lia|]. split; [exact Hpath|].
        split; [exact Hother|]. split; [constructor; [exact Hout|constructor]|].
        right. left. split; [lia|]. exists e, (history st).
        split; [reflexivity|exact Hshell].
Qed.

(** [run] with something left to fetch: the config is pushed and the
    rounds run, all with the request planned before the first one. *)
Lemma run_unfold (env : Env) (self : BrowserPeer.t) (st : State)
    (batch_ctr : gmap string Z) (text : string) :
  let remaining :=
    filter_by_checkpoint env (BrowserPeer.urls self)
      (BrowserPeer.load_checkpoint env self st)
      (version_ctr (BrowserPeer.fetch_options self))
      (max_attempts (BrowserPeer.fetch_options self)) in
  let push :=
    SSHNode.put_text env (BrowserPeer.node self) text
      (BrowserPeer.remote_config self) st in
  batch remaining (BrowserPeer.n_batches self) = Ok batch_ctr ->
  batch_ctr <> ∅ ->
  Wireguard.client_to_string (wg st) (BrowserPeer.wg_conf self) = Ok text ->
  BrowserPeer.run env self st =
    match push.2 with
    | Raise e => (push.1, Raise e)
    | Ok _ =>
        let done :=
          repeat_cmd (Z.to_nat (BrowserPeer.n_batches self))
            (BrowserPeer.collect_batch env self
               (BrowserPeer.remaining_urls env self st) batch_ctr)
            push.1 in
        (done.1, match done.2 with
                 | Ok _ => Ok (BrowserPeer.checkpoint_path self)
                 | Raise e => Raise e
                 end)
    end.
Proof.
  intros remaining push Hbatch Hnonempty Htext.
  unfold BrowserPeer.run, BrowserPeer.recover_from_checkpoint.
  run_cmd. fold remaining. rewrite Hbatch.
  destruct (decide (batch_ctr = ∅)) as [Hempty|_]; [contradiction|].
  rewrite Htext. fold push.
  destruct push as [st1 [out|e]]; [|reflexivity]. simpl.
  destruct (repeat_cmd _ _ _) as [st' [[]|e]]; reflexivity.
Qed.

(** [run] that cannot render the client's config raises at once. *)
Lemma run_unrendered (env : Env) (self : BrowserPeer.t) (st : State)
    (batch_ctr : gmap string Z) (e : pyexc) :
  batch
    (filter_by_checkpoint env (BrowserPeer.urls self)
       (BrowserPeer.load_checkpoint env self st)
       (version_ctr (BrowserPeer.fetch_options self))
       (max_attempts (BrowserPeer.fetch_options self)))
    (BrowserPeer.n_batches self) = Ok batch_ctr ->
  batch_ctr <> ∅ ->
  Wireguard.client_to_string (wg st) (BrowserPeer.wg_conf self) = Raise e ->
  BrowserPeer.run env self st = (st, Raise e).
Proof.
  intros Hbatch Hnonempty Htext.
  unfold BrowserPeer.run, BrowserPeer.recover_from_checkpoint.
  run_cmd. rewrite Hbatch.
  destruct (decide (batch_ctr = ∅)) as [Hempty|_]; [contradiction|].
  rewrite Htext. reflexivity.
Qed.

(** [run] with nothing left: the state is not touched. *)
Lemma run_empty (env : Env) (self : BrowserPeer.t) (st : State) :
  batch
    (filter_by_checkpoint env (BrowserPeer.urls self)
       (BrowserPeer.load_checkpoint env self st)
       (version_ctr (BrowserPeer.fetch_options self))
       (max_attempts (BrowserPeer.fetch_options self)))
    (BrowserPeer.n_batches self) = Ok ∅ ->
  BrowserPeer.run env self st = (st, Ok (BrowserPeer.checkpoint_path self)).
Proof.
  intros Hbatch.
  unfold BrowserPeer.run, BrowserPeer.recover_from_checkpoint.
  run_cmd. rewrite Hbatch.
  destruct (decide (∅ = ∅)) as [_|Hne]; [reflexivity|contradiction].
Qed.

(** *** The gateway *)

Lemma stop_not_running (env : Env) (self : WireguardGateway.t) (st : State) :
  container_id st = None -> WireguardGateway.stop env self st = (st, Ok tt).
Proof.
  intros Hnone. unfold WireguardGateway.stop. run_cmd.
  rewrite Hnone. reflexivity.
Qed.

Lemma stop_running (env : Env) (self : WireguardGateway.t) (st : State)
    (c : string) :
  let stop_c := Docker (WireguardGateway.node self) ["stop"; c] in
  let rm_c := Docker (WireguardGateway.node self) ["rm"; c] in
  container_id st = Some c ->
  WireguardGateway.stop env self st =
    match shell env (history st) stop_c with
    | Raise e => (record_command stop_c st, Raise e)
    | Ok _ =>
        match shell env (history st ++ [stop_c]) rm_c with
        | Raise e => (record_command rm_c (record_command stop_c st), Raise e)
        | Ok _ =>
            (set_container_id None
               (record_command rm_c (record_command stop_c st)), Ok tt)
        end
    end.
Proof.
  intros stop_c rm_c Hsome.
  unfold WireguardGateway.stop, SSHNode.docker, exec. run_cmd.
  rewrite Hsome. fold stop_c rm_c.
  destruct (shell env (history st) stop_c); [|reflexivity].
  destruct (shell env (history st ++ [stop_c]) rm_c); reflexivity.
Qed.


(** *** The event loop *)

Lemma finish_step (t : task) : asyncio.finish (asyncio.step t) = asyncio.finish t.
Proof. destruct t as [[|n] r| |r]; reflexivity. Qed.

Lemma patience_cons (t : task) (ts : list task) :
  asyncio.patience (t :: ts)
  = Nat.max (asyncio.passes_needed t) (asyncio.patience ts).
Proof. reflexivity. Qed.

Lemma patience_step (ts : list task) :
  (asyncio.patience (asyncio.step <$> ts) <= pred (asyncio.patience ts))%nat.
Proof.
  induction ts as [|t ts IH]; [reflexivity|].
  rewrite fmap_cons, !patience_cons.
  assert (asyncio.passes_needed (asyncio.step t)
          <= pred (asyncio.passes_needed t))%nat.
  { destruct t as [[|n] r| |r]; simpl; lia. }
  lia.
Qed.

(** The tasks that are all done are the ones [mapM result_of] accepts. *)
Lemma results_finished (ts : list task) (rs : list (pyresult string)) :
  mapM asyncio.result_of ts = Some rs -> asyncio.finish <$> ts = ts.
Proof.
  revert rs. induction ts as [|t ts IH]; intros rs; [reflexivity|].
  destruct t as [n r| |r]; simpl; try discriminate.
  destruct (mapM asyncio.result_of ts) as [rs'|] eqn:Hrest; [|discriminate].
  intros _. f_equal. apply (IH rs'). reflexivity.
Qed.

Lemma results_pending (ts : list task) :
  mapM asyncio.result_of ts = None -> (0 < asyncio.patience ts)%nat.
Proof.
  induction ts as [|t ts IH]; [discriminate|].
  rewrite patience_cons.
  destruct t as [n r| |r]; simpl; try lia.
  destruct (mapM asyncio.result_of ts); [discriminate|]. intros _.
  specialize (IH eq_refl). lia.
Qed.

(** Awaiting [gather(..., return_exceptions=True)] returns when every
    task has finished, each with what it was heading for. *)
Lemma await_gather_all (passes : nat) :
  forall ts : list task,
    (asyncio.patience ts <= passes)%nat ->
    exists rs,
      asyncio.await_gather passes true ts = (asyncio.finish <$> ts, Some (Ok rs)).
Proof.
  induction passes as [|passes IH]; intros ts Hpatience.
  - simpl. unfold asyncio.gather_result.
    destruct (mapM asyncio.result_of ts) as [rs|] eqn:Hrs; simpl.
    + exists rs. rewrite (results_finished ts rs Hrs). reflexivity.
    + apply results_pending in Hrs. lia.
  - simpl. unfold asyncio.gather_result.
    destruct (mapM asyncio.result_of ts) as [rs|] eqn:Hrs; simpl.
    + exists rs. rewrite (results_finished ts rs Hrs). reflexivity.
    + destruct (IH (asyncio.step <$> ts)) as [rs Hawait].
      { pose proof (patience_step ts). lia. }
      exists rs. rewrite Hawait. f_equal.
      rewrite <- list_fmap_compose. apply list_fmap_ext.
      intros i t _. apply finish_step.
Qed.

(** Awaiting the first [gather] returns too: the future is done at the
    latest when every task is. *)
Lemma await_gather_done (passes : nat) :
  forall ts : list task,
    (asyncio.patience ts <= passes)%nat ->
    exists ts' r, asyncio.await_gather passes false ts = (ts', Some r).
Proof.
  induction passes as [|passes IH]; intros ts Hpatience; simpl;
    unfold asyncio.gather_result;
    destruct (asyncio.first_exception ts) as [e|]; eauto;
    destruct (mapM asyncio.result_of ts) as [rs|] eqn:Hrs; simpl; eauto.
  - apply results_pending in Hrs. lia.
  - apply IH. pose proof (patience_step ts). lia.
Qed.


Lemma await_gather_progress (passes : nat) (return_exceptions : bool) :
  forall ts : list task,
    asyncio.finish <$> (asyncio.await_gather passes return_exceptions ts).1
    = asyncio.finish <$> ts.
Proof.
  induction passes as [|passes IH]; intros ts; simpl;
    destruct (asyncio.gather_result return_exceptions ts); try reflexivity.
  rewrite IH, <- list_fmap_compose. apply list_fmap_ext.
  intros i t _. apply finish_step.
Qed.

(** After a failure nobody is cancelled: [gathered_tasks] is done, its
    [cancel()] does nothing, and the second [gather] waits until every
    task has finished with its own result. *)
Lemma supervise_failure (ts : list task) (e : pyexc) :
  (TraceCollectionExperiment.supervise ts).2 = Raise e ->
  asyncio.is_Exception e = true ->
  (TraceCollectionExperiment.supervise ts).1 = asyncio.finish <$> ts.
Proof.
  unfold TraceCollectionExperiment.supervise.
  pose proof (await_gather_progress (asyncio.patience ts) false ts) as Hprog.
  destruct (await_gather_done (asyncio.patience ts) ts (le_n _))
    as (ts1 & r & Hfirst).
  rewrite Hfirst in Hprog |- *. simpl in Hprog.
  destruct r as [rs|e']; simpl; [discriminate|].
  destruct (asyncio.is_Exception e') eqn:Hexc.
  - destruct (await_gather_all (asyncio.patience ts1) ts1 (le_n _))
      as [rs Hsecond].
    rewrite Hsecond. simpl. intros _ _. exact Hprog.
  - simpl. intros [= ->] He. congruence.
Qed.

(** *** Constructing an agent *)

Lemma filter_urls_ok (env : Env) (all_urls kept : list string) :
  filter_urls env all_urls = Ok kept ->
  kept = filter (fun u => has_no_port env u) all_urls.
Proof.
  revert kept. induction all_urls as [|url rest IH]; intros kept; simpl.
  - intros [= <-]. reflexivity.
  - destruct (urlparse_port env url) as [port|e] eqn:Hport; simpl;
      [|discriminate].
    destruct (filter_urls env rest) as [kept'|e]; simpl; [|discriminate].
    intros [= <-]. specialize (IH kept' eq_refl). subst kept'.
    destruct port as [p|].
    + rewrite filter_cons_False; [reflexivity|].
      unfold has_no_port. rewrite Hport. simpl. tauto.
    + rewrite filter_cons_True; [reflexivity|].
      unfold has_no_port. rewrite Hport. exact I.
Qed.

Lemma init_ok (env : Env) (conf : Wireguard.ref) (all_urls : list string)
    (dir : string) (node_arg : option SSHNode.t) (batches : Z)
    (options : FetchOptions) (st : State) (peer : BrowserPeer.t) :
  (BrowserPeer.init env conf all_urls dir node_arg batches options st).2
    = Ok peer ->
  wg (BrowserPeer.init env conf all_urls dir node_arg batches options st).1
    = wg st
  /\ BrowserPeer.wg_conf peer = conf
  /\ BrowserPeer.node peer = default None node_arg
  /\ BrowserPeer.urls peer
     = filter (fun u => has_no_port env u) all_urls.
Proof.
  unfold BrowserPeer.init, exec. run_cmd.
  destruct (shell env (history st) Uuid4) as [hex|e]; [|discriminate].
  destruct (Wireguard.get_client (wg st) conf) as [cl|e]; [|discriminate].
  destruct (PyPath.with_suffix _ ".state") as [state_file|e]; [|discriminate].
  destruct (PyPath.with_suffix _ ".log") as [log_file|e]; [|discriminate].
  destruct (filter_urls env all_urls) as [kept|e] eqn:Hkept;
    [|discriminate].
  simpl. intros [= <-]. simpl.
  repeat split. apply filter_urls_ok. exact Hkept.
Qed.

(** Every collector invocation of a run carries the keys of the
    remaining work as its URLs. *)
Lemma run_requests (env : Env) (self : BrowserPeer.t) (st : State) :
  exists (k : nat) (batch_ctr : gmap string Z),
    fetch_requests (history (BrowserPeer.run env self st).1)
    = fetch_requests (history st)
      ++ replicate k
           (BrowserPeer.fetch_request self
              (BrowserPeer.remaining_urls env self st) batch_ctr).
Proof.
  set (remaining :=
         filter_by_checkpoint env (BrowserPeer.urls self)
           (BrowserPeer.load_checkpoint env self st)
           (version_ctr (BrowserPeer.fetch_options self))
           (max_attempts (BrowserPeer.fetch_options self))).
  destruct (batch remaining (BrowserPeer.n_batches self))
    as [batch_ctr|e] eqn:Hbatch.
  - destruct (decide (batch_ctr = ∅)) as [->|Hnonempty].
    + exists 0%nat, ∅. rewrite (run_empty env self st Hbatch).
      simpl. rewrite app_nil_r. reflexivity.
    + destruct (Wireguard.client_to_string (wg st) (BrowserPeer.wg_conf self))
        as [text|e] eqn:Htext.
      * rewrite (run_unfold env self st batch_ctr text Hbatch Hnonempty Htext).
        destruct (put_text_objects env (BrowserPeer.node self) text
                    (BrowserPeer.remote_config self) st) as (_ & Hput & _).
        destruct (SSHNode.put_text env (BrowserPeer.node self) text
                    (BrowserPeer.remote_config self) st) as [st1 [out|e]];
          simpl in Hput |- *.
        -- destruct (repeat_collect_batch env self
                       (BrowserPeer.remaining_urls env self st) batch_ctr
                       (Z.to_nat (BrowserPeer.n_batches self)) st1)
             as (k & outputs & _ & _ & Hreqs & _).
           exists k, batch_ctr. rewrite Hreqs, Hput.
           rewrite fetch_requests_app. simpl. rewrite app_nil_r.
           reflexivity.
        -- exists 0%nat, batch_ctr. rewrite Hput.
           rewrite fetch_requests_app. reflexivity.
      * exists 0%nat, batch_ctr.
        rewrite (run_unrendered env self st batch_ctr e Hbatch Hnonempty Htext).
        simpl. rewrite app_nil_r. reflexivity.
  - exists 0%nat, ∅.
    unfold BrowserPeer.run, BrowserPeer.recover_from_checkpoint.
    run_cmd. fold remaining. rewrite Hbatch. simpl.
    rewrite app_nil_r. reflexivity.
Qed.

(** *** The stand-in collaborators *)

Lemma remaining_of_dom (all_urls : list string) (checkpoint : list Outcome)
    (requested : gmap string Z) (attempts : Z) (u : string) :
  u ∈ dom (Scenario.remaining_of all_urls checkpoint requested attempts) ->
  u ∈ all_urls.
Proof.
  unfold Scenario.remaining_of. rewrite dom_list_to_map_L.
  rewrite elem_of_list_to_set, list_elem_of_fmap.
  intros ([u' plan] & -> & Hin). simpl.
  apply list_elem_of_omap in Hin as (url & Hurl & Hsome).
  destruct (decide (_ = ∅)); [discriminate|].
  injection Hsome as <- _. exact Hurl.
Qed.

Lemma remaining_order_in (all_urls : list string) (checkpoint : list Outcome)
    (requested : gmap string Z) (attempts : Z) (u : string) :
  u ∈ Scenario.remaining_order all_urls checkpoint requested attempts ->
  u ∈ all_urls.
Proof.
  unfold Scenario.remaining_order. intros Hin.
  apply list_elem_of_omap in Hin as (url & Hurl & Hsome).
  destruct (decide (_ = ∅)); [discriminate|].
  injection Hsome as <-. apply elem_of_remove_dups. exact Hurl.
Qed.

(** *** Sharing the work *)

Lemma omap_lookup_total {A} (f : nat -> option A) (idxs : list nat) :
  (forall i, i ∈ idxs -> is_Some (f i)) ->
  forall t, omap f idxs !! t = idxs !! t ≫= f.
Proof.
  induction idxs as [|i idxs IH]; intros Hsome t; [reflexivity|].
  simpl. destruct (Hsome i) as [v Hv]; [left|]. rewrite Hv.
  destruct t as [|t]; simpl; [symmetry; exact Hv|].
  apply IH. intros j Hj. apply Hsome. right. exact Hj.
Qed.

Lemma slice_count (len start step t : nat) :
  (0 < step)%nat ->
  (t < (len - start + step - 1) / step)%nat <-> (start + t * step < len)%nat.
Proof.
  intros Hstep.
  pose proof (Nat.div_mod (len - start + step - 1) step ltac:(lia)) as Hdm.
  pose proof (Nat.mod_upper_bound (len - start + step - 1) step ltac:(lia))
    as Hr.
  set (q := ((len - start + step - 1) / step)%nat) in *.
  set (r := ((len - start + step - 1) mod step)%nat) in *.
  clearbody q r. split; intros H; nia.
Qed.

(** The slice holds, at position [t], the item at index
    [start + t * step]. *)
Lemma slice_step_lookup {A} (start step : nat) (l : list A) (t : nat) :
  (0 < step)%nat ->
  slice_step start step l !! t = l !! (start + t * step)%nat.
Proof.
  intros Hstep. unfold slice_step.
  set (cnt := ((length l - start + step - 1) / step)%nat).
  rewrite omap_lookup_total.
  - rewrite list_lookup_fmap.
    destruct (decide (t < cnt)%nat) as [Hlt|Hge].
    + rewrite lookup_seq_lt by exact Hlt. reflexivity.
    + rewrite lookup_seq_ge by lia. simpl. symmetry.
      apply lookup_ge_None.
      pose proof (slice_count (length l) start step t Hstep) as Hcount.
      fold cnt in Hcount. lia.
  - intros i Hi. apply list_elem_of_fmap in Hi as (t' & -> & Ht').
    apply elem_of_seq in Ht'. apply lookup_lt_is_Some.
    apply (slice_count (length l) start step t' Hstep). fold cnt. lia.
Qed.

(** *** Constructing the experiment *)

Lemma bind_inv {A B} (c : Cmd A) (k : A -> Cmd B) (st : State) (b : B) :
  ((c ≫= k) st).2 = Ok b ->
  exists a, (c st).2 = Ok a /\ (c ≫= k) st = k a (c st).1.
Proof.
  unfold mbind, cmd_bind. destruct (c st) as [st' [a|e]]; simpl;
    [eauto|discriminate].
Qed.

Lemma generate_keys_wg (env : Env) (st : State) :
  wg (generate_keys env st).1 = wg st.
Proof.
  unfold generate_keys, exec. run_cmd.
  repeat case_match; reflexivity.
Qed.

Lemma new_client_config_ok (env : Env) (address : string) (st : State)
    (c : Wireguard.ref) :
  (new_client_config env address st).2 = Ok c ->
  c = fresh (dom (Wireguard.client_objs (wg st)))
  /\ Wireguard.gateway_objs (wg (new_client_config env address st).1)
     = Wireguard.gateway_objs (wg st)
  /\ exists private public,
       Wireguard.client_objs (wg (new_client_config env address st).1)
       = <[c := {| Wireguard.client_basic :=
                     Wireguard.basic_config address private public None;
                   Wireguard.gateway := None |}]>
           (Wireguard.client_objs (wg st)).
Proof.
  unfold new_client_config, generate_keys, exec. run_cmd.
  destruct (shell env (history st) _) as [private|e]; [|discriminate].
  destruct (shell env (history st ++ _) _) as [public|e]; [|discriminate].
  simpl. intros [= <-]. split; [reflexivity|]. split; [reflexivity|].
  eauto.
Qed.

Lemma make_clients_ok (env : Env) (all_urls : list string) (k : nat)
    (dir : string) (batches : Z) (options : FetchOptions)
    (nodes : list SSHNode.t) :
  forall (i : nat) (st : State) (peers : list BrowserPeer.t),
    (TraceCollectionExperiment.make_clients env all_urls k dir batches
       options i nodes st).2 = Ok peers ->
    let st' :=
      (TraceCollectionExperiment.make_clients env all_urls k dir batches
         options i nodes st).1 in
    length peers = length nodes
    /\ Wireguard.gateway_objs (wg st') = Wireguard.gateway_objs (wg st)
    /\ (forall c cl,
          Wireguard.client_objs (wg st) !! c = Some cl ->
          Wireguard.client_objs (wg st') !! c = Some cl)
    /\ forall j peer,
         peers !! j = Some peer ->
         nodes !! j = Some (BrowserPeer.node peer)
         /\ BrowserPeer.urls peer
            = filter (fun u => has_no_port env u)
                (slice_step (i + j) k all_urls)
         /\ Wireguard.client_objs (wg st) !! BrowserPeer.wg_conf peer = None
         /\ exists cl,
              Wireguard.client_objs (wg st') !! BrowserPeer.wg_conf peer
                = Some cl
              /\ Wireguard.address (Wireguard.client_basic cl)
                 = "10.0.0." +:+ pretty (i + j + 2)%nat.
Proof.
  induction nodes as [|node rest IH]; intros i st peers Hok st'.
  - subst st'. simpl in *. injection Hok as <-.
    split; [reflexivity|]. split; [reflexivity|]. split; [auto|].
    intros j peer Hj. discriminate.
  - subst st'. simpl in Hok |- *.
    apply bind_inv in Hok as Hconf. destruct Hconf as (conf & Hconf & Hrun1).
    rewrite Hrun1 in Hok |- *.
    destruct (new_client_config_ok env _ st conf Hconf)
      as (Hfresh & Hgw1 & private & public & Hclients1).
    set (st1 := (new_client_config env
                   ("10.0.0." +:+ pretty (i + 2)%nat) st).1) in *.
    apply bind_inv in Hok as Hpeer. destruct Hpeer as (peer & Hpeer & Hrun2).
    rewrite Hrun2 in Hok |- *.
    destruct (init_ok env conf _ dir (Some node) batches options st1 peer
                Hpeer) as (Hwg2 & Hpconf & Hpnode & Hpurls).
    set (st2 := (BrowserPeer.init env conf (slice_step i k all_urls) dir
                   (Some node) batches options st1).1) in *.
    apply bind_inv in Hok as Hrest. destruct Hrest as (peers' & Hrest & Hrun3).
    rewrite Hrun3 in Hok |- *.
    destruct (IH (S i) st2 peers' Hrest) as (Hlen & Hgw3 & Hkeep & Hpeers).
    set (st3 := (TraceCollectionExperiment.make_clients env all_urls k dir
                   batches options (S i) rest st2).1) in *.
    simpl in Hok. injection Hok as <-. simpl fst.
    assert (Wireguard.client_objs (wg st) !! conf = None) as Hnew.
    { apply not_elem_of_dom. rewrite Hfresh. apply is_fresh. }
    assert (forall c cl,
              Wireguard.client_objs (wg st) !! c = Some cl ->
              Wireguard.client_objs (wg st2) !! c = Some cl) as Hkeep1.
    { intros c cl Hc. rewrite Hwg2, Hclients1.
      rewrite lookup_insert_ne; [exact Hc|]. congruence. }
    split; [simpl; lia|]. split; [rewrite Hgw3, Hwg2; exact Hgw1|].
    split; [intros c cl Hc; apply Hkeep, Hkeep1, Hc|].
    intros [|j] p Hj; simpl in Hj.
    + injection Hj as <-. rewrite Hpconf, Hpnode, Hpurls, Nat.add_0_r.
      split; [reflexivity|]. split; [reflexivity|]. split; [exact Hnew|].
      eexists. split.
      * apply Hkeep. rewrite Hwg2, Hclients1. apply lookup_insert_eq.
      * reflexivity.
    + destruct (Hpeers j p Hj) as (Hnode & Hurls & Hnone & cl & Hcl & Haddr).
      split; [exact Hnode|].
      replace (i + S j)%nat with (S i + j)%nat by lia.
      split; [exact Hurls|]. split.
      * destruct (Wireguard.client_objs (wg st) !! BrowserPeer.wg_conf p)
          as [cl0|] eqn:Hold; [|reflexivity].
        rewrite (Hkeep1 _ _ Hold) in Hnone. discriminate.
      * exists cl. split; [exact Hcl|exact Haddr].
Qed.

End FetchFacts.

(** ** Further facts about the script *)

Module MoreFacts.
Import PyNum PyNumFacts PyStr PyStrFacts PyPathFacts Planner PlannerFacts.
Import FetchWithVpn FetchFacts.

(** *** [_make_counter] *)

Lemma occurrences_absent (v : string) (versions : list string) :
  v ∉ versions -> occurrences v versions = 0.
Proof.
  induction versions as [|w versions IH]; intros Hnin; [reflexivity|].
  apply not_elem_of_cons in Hnin as [Hne Hnin]. unfold occurrences.
  rewrite filter_cons_False by congruence. apply IH. exact Hnin.
Qed.

Lemma occurrences_cons (v w : string) (versions : list string) :
  occurrences v (w :: versions)
  = (if decide (w = v) then 1 else 0) + occurrences v versions.
Proof.
  unfold occurrences. rewrite filter_cons.
  destruct (decide (w = v)); simpl length; lia.
Qed.

Lemma make_counter_fold (versions : list string) (repetitions : Z) :
  forall (counter : gmap string Z) (v : string),
    fold_left
      (fun counter version =>
         <[version := count counter version + repetitions]> counter)
      versions counter !! v
    = if decide (v ∈ versions)
      then Some (count counter v + repetitions * occurrences v versions)
      else counter !! v.
Proof.
  induction versions as [|w versions IH]; intros counter v.
  - simpl. destruct (decide (v ∈ [])) as [Hin|_]; [|reflexivity].
    apply not_elem_of_nil in Hin. contradiction.
  - simpl. rewrite IH, occurrences_cons.
    destruct (decide (w = v)) as [->|Hne].
    + rewrite (decide_True (P := v ∈ v :: versions)) by left.
      assert (count (<[v := count counter v + repetitions]> counter) v
              = count counter v + repetitions) as Hcount.
      { unfold count at 1. rewrite lookup_insert_eq. reflexivity. }
      destruct (decide (v ∈ versions)) as [Hin|Hnin].
      * rewrite Hcount. f_equal; lia.
      * rewrite lookup_insert_eq, (occurrences_absent v versions Hnin).
        f_equal; lia.
    + assert (count (<[w := count counter w + repetitions]> counter) v
              = count counter v) as ->.
      { unfold count at 1. rewrite lookup_insert_ne by exact Hne.
        reflexivity. }
      destruct (decide (v ∈ versions)) as [Hin|Hnin].
      * rewrite (decide_True (P := v ∈ w :: versions)) by (right; exact Hin).
        f_equal; lia.
      * rewrite (decide_False (P := v ∈ w :: versions)).
        -- rewrite lookup_insert_ne by exact Hne. reflexivity.
        -- intros Hin. apply elem_of_cons in Hin as [?|?]; congruence.
Qed.

(** *** More about [batch] *)

(** Below the bounds of C1 the plan is the exact ceiling of every
    positive merged count. *)
Lemma batch_bounded (remaining : gmap string (gmap string Z)) (n : Z) :
  1 <= n -> n < 2 ^ 1075 -> counts_below (2 ^ 53) remaining ->
  batch remaining n
  = Ok ((fun v => exact_ceil v n) <$> counter_pos (merge_remaining remaining)).
Proof.
  intros Hn Hnmax Hbound. unfold batch. apply ceil_items_fmap.
  intros k v Hk. apply counter_pos_lookup in Hk as [Hk Hpos].
  destruct (merged_seen remaining k v Hk) as (_ & (peer & ctr & Hp & Hc) & _).
  apply ceil_truediv_exact; [|lia].
  split; [exact Hpos|]. exact (Hbound peer ctr Hp k v Hc).
Qed.

Lemma exact_ceil_bounds (a b : Z) :
  0 < b -> a <= b * exact_ceil a b /\ b * (exact_ceil a b - 1) < a.
Proof.
  intros Hb. unfold exact_ceil.
  pose proof (Z.div_mod (- a) b ltac:(lia)).
  pose proof (Z.mod_pos_bound (- a) b Hb). nia.
Qed.

Lemma merged_positive (remaining : gmap string (gmap string Z))
    (peer k : string) (ctr : gmap string Z) (v : Z) :
  remaining !! peer = Some ctr -> ctr !! k = Some v -> 0 < v ->
  exists w, counter_pos (merge_remaining remaining) !! k = Some w /\ v <= w.
Proof.
  intros Hp Hc Hpos.
  destruct (merge_remaining_inv remaining k) as [Hub Hatt].
  specialize (Hub peer ctr v Hp Hc). unfold count in Hub.
  destruct (merge_remaining remaining !! k) as [w|] eqn:Hw; simpl in Hub;
    [|lia].
  exists w. split; [|exact Hub]. apply counter_pos_lookup.
  split; [exact Hw|lia].
Qed.

Lemma merged_nowhere (remaining : gmap string (gmap string Z)) :
  (forall k, nowhere_positive remaining k) ->
  counter_pos (merge_remaining remaining) = ∅.
Proof.
  intros Hnowhere. apply map_empty. intros k.
  destruct (counter_pos (merge_remaining remaining) !! k) as [v|] eqn:Hk;
    [|reflexivity].
  apply counter_pos_lookup in Hk as [Hk Hpos].
  destruct (merged_seen remaining k v Hk) as (_ & (peer & ctr & Hp & Hc) & _).
  specialize (Hnowhere k peer ctr v Hp Hc). lia.
Qed.

(** With zero batches the first division raises. *)
Lemma ceil_items_zero (counter : gmap string Z) :
  counter <> ∅ -> ceil_items 0 counter = Raise ZeroDivisionError.
Proof.
  unfold ceil_items.
  apply (map_fold_weak_ind (fun res m =>
    (m = ∅ -> res = Ok ∅) /\ (m <> ∅ -> res = Raise ZeroDivisionError))).
  - split; [reflexivity|contradiction].
  - intros i x m res Hfresh [Hempty Hfull]. split.
    + intros Hins. apply insert_non_empty in Hins. contradiction.
    + intros _. destruct (decide (m = ∅)) as [Hm|Hm].
      * rewrite (Hempty Hm). reflexivity.
      * rewrite (Hfull Hm). reflexivity.
Qed.

(** *** More about the event loop *)

Lemma first_exception_found (ts : list task) (e : pyexc) :
  asyncio.first_exception ts = Some e ->
  exists i, ts !! i = Some (Finished (Raise e)).
Proof.
  induction ts as [|t ts IH]; [discriminate|].
  destruct t as [n r| |[p|e']]; simpl.
  - intros H. destruct (IH H) as [i Hi]. exists (S i). exact Hi.
  - intros H. destruct (IH H) as [i Hi]. exists (S i). exact Hi.
  - intros H. destruct (IH H) as [i Hi]. exists (S i). exact Hi.
  - intros [= ->]. exists 0%nat. reflexivity.
Qed.

(** The exception that ends the first [gather] is one a task raised. *)
Lemma await_gather_raises (passes : nat) :
  forall (ts ts1 : list task) (e : pyexc),
    asyncio.await_gather passes false ts = (ts1, Some (Raise e)) ->
    exists i, ts1 !! i = Some (Finished (Raise e)).
Proof.
  induction passes as [|passes IH]; intros ts ts1 e; simpl;
    unfold asyncio.gather_result;
    destruct (asyncio.first_exception ts) as [e'|] eqn:Hfirst.
  - intros [= <- <-]. apply first_exception_found. exact Hfirst.
  - destruct (mapM asyncio.result_of ts); simpl; discriminate.
  - intros [= <- <-]. apply first_exception_found. exact Hfirst.
  - destruct (mapM asyncio.result_of ts); simpl; [discriminate|].
    apply IH.
Qed.

Lemma first_exception_none (ts : list task) (ps : list string) :
  Forall2 (fun t p => asyncio.heads_for p t) ts ps ->
  asyncio.first_exception ts = None.
Proof.
  induction 1 as [|t p ts ps Ht _ IH]; [reflexivity|].
  destruct t as [n r| |[q|e]]; simpl; try exact IH.
  unfold asyncio.heads_for in Ht. simpl in Ht. discriminate.
Qed.

Lemma heads_for_step (ts : list task) (ps : list string) :
  Forall2 (fun t p => asyncio.heads_for p t) ts ps ->
  Forall2 (fun t p => asyncio.heads_for p t) (asyncio.step <$> ts) ps.
Proof.
  induction 1 as [|t p ts ps Ht _ IH]; [constructor|].
  rewrite fmap_cons. constructor; [|exact IH].
  unfold asyncio.heads_for. rewrite finish_step. exact Ht.
Qed.

Lemma heads_for_finish (ts : list task) (ps : list string) :
  Forall2 (fun t p => asyncio.heads_for p t) ts ps ->
  asyncio.finish <$> ts = (fun p => Finished (Ok p)) <$> ps.
Proof.
  induction 1 as [|t p ts ps Ht _ IH]; [reflexivity|].
  rewrite !fmap_cons, IH. f_equal. exact Ht.
Qed.

Lemma results_of_finished (ps : list string) :
  mapM asyncio.result_of ((fun p => Finished (Ok p)) <$> ps)
  = Some (Ok <$> ps).
Proof.
  induction ps as [|p ps IH]; [reflexivity|].
  rewrite fmap_cons. simpl. rewrite IH. reflexivity.
Qed.

(** When every task succeeds, the first [gather] returns the results in
    the order of the tasks. *)
Lemma await_gather_success (passes : nat) :
  forall (ts : list task) (ps : list string),
    Forall2 (fun t p => asyncio.heads_for p t) ts ps ->
    (asyncio.patience ts <= passes)%nat ->
    asyncio.await_gather passes false ts
    = ((fun p => Finished (Ok p)) <$> ps, Some (Ok (Ok <$> ps))).
Proof.
  induction passes as [|passes IH]; intros ts ps Hheads Hpatience; simpl;
    unfold asyncio.gather_result;
    rewrite (first_exception_none ts ps Hheads);
    destruct (mapM asyncio.result_of ts) as [rs|] eqn:Hrs; simpl.
  - pose proof (results_finished ts rs Hrs) as Hdone.
    rewrite (heads_for_finish ts ps Hheads) in Hdone.
    rewrite <- Hdone in Hrs |- *. rewrite results_of_finished in Hrs.
    injection Hrs as <-. reflexivity.
  - apply results_pending in Hrs. lia.
  - pose proof (results_finished ts rs Hrs) as Hdone.
    rewrite (heads_for_finish ts ps Hheads) in Hdone.
    rewrite <- Hdone in Hrs |- *. rewrite results_of_finished in Hrs.
    injection Hrs as <-. reflexivity.
  - apply IH; [apply heads_for_step; exact Hheads|].
    pose proof (patience_step ts). lia.
Qed.

Lemma omap_all_ok (ps : list string) :
  omap (fun r : pyresult string =>
          match r with Ok c => Some c | Raise _ => None end) (Ok <$> ps)
  = ps.
Proof. induction ps as [|p ps IH]; simpl; [reflexivity|]. f_equal. exact IH. Qed.

Lemma supervise_raises_original (ts : list task) (e : pyexc) :
  (TraceCollectionExperiment.supervise ts).2 = Raise e ->
  exists i t, ts !! i = Some t /\ asyncio.finish t = Finished (Raise e).
Proof.
  unfold TraceCollectionExperiment.supervise.
  pose proof (await_gather_progress (asyncio.patience ts) false ts) as Hprog.
  destruct (await_gather_done (asyncio.patience ts) ts (le_n _))
    as (ts1 & r & Hfirst).
  rewrite Hfirst in Hprog |- *. simpl in Hprog.
  destruct r as [rs|e']; simpl; [discriminate|].
  assert ((Raise e' : pyresult (list string)) = Raise e ->
          exists i t, ts !! i = Some t
                      /\ asyncio.finish t = Finished (Raise e)) as Hfound.
  { intros [= ->].
    destruct (await_gather_raises _ ts ts1 e Hfirst) as [i Hi].
    assert ((asyncio.finish <$> ts) !! i = Some (Finished (Raise e))) as Hfin.
    { rewrite <- Hprog, list_lookup_fmap, Hi. reflexivity. }
    rewrite list_lookup_fmap in Hfin.
    destruct (ts !! i) as [t|] eqn:Ht; [|discriminate].
    exists i, t. split; [exact Ht|]. simpl in Hfin. congruence. }
  destruct (asyncio.is_Exception e').
  - destruct (asyncio.await_gather _ true _). simpl. exact Hfound.
  - simpl. exact Hfound.
Qed.

(** *** Strings *)

Lemma replace_char_free (old new : Ascii.ascii) (s : string) :
  free_of old s = true -> replace_char old new s = s.
Proof.
  induction s as [|b s IH]; simpl; [reflexivity|].
  destruct (Ascii.eqb b old); simpl; [discriminate|].
  intros Hfree. rewrite (IH Hfree). reflexivity.
Qed.

Lemma replace_char_app (old new : Ascii.ascii) (s1 s2 : string) :
  replace_char old new (s1 +:+ s2)
  = replace_char old new s1 +:+ replace_char old new s2.
Proof. induction s1 as [|b s1 IH]; simpl; [reflexivity|]. rewrite IH. reflexivity. Qed.

Lemma pretty_N_char_free (a : Ascii.ascii) (d : N) :
  free_of a "0123456789" = true ->
  Ascii.eqb (pretty_N_char d) a = false.
Proof.
  simpl. rewrite !andb_true_iff, !negb_true_iff.
  intros (?&?&?&?&?&?&?&?&?&?&_).
  unfold pretty_N_char. destruct d as [|p]; [assumption|].
  do 4 (try destruct p as [p|p|]); assumption.
Qed.

Lemma pretty_N_go_free (a : Ascii.ascii) (x : N) :
  free_of a "0123456789" = true ->
  forall s, free_of a s = true -> free_of a (pretty_N_go x s) = true.
Proof.
  intros Hdigits. induction (N.lt_wf_0 x) as [x _ IH]; intros s Hs.
  assert (x = 0 \/ 0 < x)%N as [->|Hpos] by lia.
  - rewrite pretty_N_go_0. exact Hs.
  - rewrite pretty_N_go_step by exact Hpos. apply IH.
    + apply N.div_lt; [exact Hpos|reflexivity].
    + simpl. rewrite (pretty_N_char_free a _ Hdigits). exact Hs.
Qed.

(** A printed number has digits only. *)
Lemma pretty_nat_free (a : Ascii.ascii) (n : nat) :
  free_of a "0123456789" = true -> free_of a (pretty n) = true.
Proof.
  intros Hdigits. unfold pretty, pretty_nat, pretty, pretty_N.
  destruct (decide (N.of_nat n = 0%N)).
  - simpl in Hdigits |- *. apply andb_true_iff in Hdigits as [-> _].
    reflexivity.
  - apply pretty_N_go_free; [exact Hdigits|reflexivity].
Qed.

(** *** More about constructing the experiment *)

(** The slug is one path component, without a dot. *)
Lemma free_of_replace_char (c old new : Ascii.ascii) (s : string) :
  Ascii.eqb new c = false -> free_of c s = true ->
  free_of c (replace_char old new s) = true.
Proof.
  intros Hnew. induction s as [|b s IH]; simpl; [reflexivity|].
  destruct (Ascii.eqb b c) eqn:Hb; simpl; [discriminate|].
  intros Hfree. destruct (Ascii.eqb b old); rewrite ?Hnew, ?Hb, (IH Hfree);
    reflexivity.
Qed.

Lemma replace_char_gone (old new : Ascii.ascii) (s : string) :
  Ascii.eqb new old = false -> free_of old (replace_char old new s) = true.
Proof.
  intros Hnew. induction s as [|b s IH]; simpl; [reflexivity|].
  destruct (Ascii.eqb b old) eqn:Hb; rewrite ?Hnew, ?Hb, IH; reflexivity.
Qed.

Lemma kept_app (x y : string) :
  free_of "." x = true -> x <> ""%string -> PyPath.kept (x +:+ y) = true.
Proof.
  intros Hdot Hne. destruct x as [|a x]; [contradiction|].
  simpl in Hdot. apply andb_true_iff in Hdot as [Ha _].
  change (String a x +:+ y) with (String a (x +:+ y)).
  unfold PyPath.kept. cbn [String.eqb].
  destruct (Ascii.eqb a "."); [discriminate|reflexivity].
Qed.

(** The path of a file in a directory, named by a text without slash
    or dot and a suffix. *)
Lemma file_in_directory (d : PyPath.t) (stem new : string) :
  free_of "/" stem = true -> free_of "." stem = true -> stem <> ""%string ->
  free_of "/" new = true ->
  negb (String.eqb new "") && negb (String.prefix "." new)
    || String.eqb new "." = false ->
  PyPath.with_suffix (PyPath.joinpath d stem) new
  = Ok (PyPath.joinpath d (stem +:+ new)).
Proof.
  intros Hsep Hdot Hne Hnewsep Hvalid.
  rewrite (joinpath_component d stem Hsep).
  2:{ rewrite <- (string_app_empty_r stem). apply kept_app; assumption. }
  rewrite (joinpath_component d (stem +:+ new)).
  - apply with_suffix_component; assumption.
  - rewrite free_of_app, Hsep, Hnewsep. reflexivity.
  - apply kept_app; assumption.
Qed.

Lemma slug_of_number (n : nat) :
  BrowserPeer.slug_of ("10.0.0." +:+ pretty n)
  = ("peer-10_0_0_" +:+ pretty n)%string.
Proof.
  unfold BrowserPeer.slug_of. rewrite replace_char_app.
  rewrite (replace_char_free "." "_" (pretty n))
    by (apply pretty_nat_free; reflexivity).
  reflexivity.
Qed.

Lemma init_paths (env : Env) (conf : Wireguard.ref) (all_urls : list string)
    (dir : string) (node_arg : option SSHNode.t) (batches : Z)
    (options : FetchOptions) (st : State) (peer : BrowserPeer.t) :
  (BrowserPeer.init env conf all_urls dir node_arg batches options st).2
    = Ok peer ->
  exists cl,
    Wireguard.client_objs (wg st) !! conf = Some cl
    /\ let base :=
         PyPath.joinpath (PyPath.of_str dir)
           (BrowserPeer.slug_of
              (Wireguard.address (Wireguard.client_basic cl))) in
       PyPath.to_str <$> PyPath.with_suffix base ".state"
       = Ok (BrowserPeer.checkpoint_path peer)
       /\ PyPath.to_str <$> PyPath.with_suffix base ".log"
          = Ok (BrowserPeer.bulk_log peer).
Proof.
  unfold BrowserPeer.init, exec, Wireguard.get_client. run_cmd.
  destruct (shell env (history st) Uuid4) as [hex|e]; [|discriminate].
  destruct (Wireguard.client_objs (wg st) !! conf) as [cl|]; [|discriminate].
  simpl.
  destruct (PyPath.with_suffix _ ".state") as [state_file|e] eqn:Hstate;
    [|discriminate].
  destruct (PyPath.with_suffix _ ".log") as [log_file|e] eqn:Hlog;
    [|discriminate].
  destruct (filter_urls env all_urls) as [kept|e]; [|discriminate].
  simpl. intros [= <-]. exists cl. split; [reflexivity|].
  cbv zeta. rewrite Hstate, Hlog. split; reflexivity.
Qed.

Lemma make_clients_paths (env : Env) (all_urls : list string) (k : nat)
    (dir : string) (batches : Z) (options : FetchOptions)
    (nodes : list SSHNode.t) :
  forall (i : nat) (st : State) (peers : list BrowserPeer.t),
    (TraceCollectionExperiment.make_clients env all_urls k dir batches
       options i nodes st).2 = Ok peers ->
    forall j peer,
      peers !! j = Some peer ->
      BrowserPeer.checkpoint_path peer
      = PyPath.to_str
          (PyPath.joinpath (PyPath.of_str dir)
             ("peer-10_0_0_" +:+ pretty (i + j + 2)%nat +:+ ".state")).
Proof.
  induction nodes as [|node rest IH]; intros i st peers Hok.
  - simpl in Hok. injection Hok as <-. intros j peer Hj. discriminate.
  - simpl in Hok.
    apply bind_inv in Hok as Hconf. destruct Hconf as (conf & Hconf & Hrun1).
    rewrite Hrun1 in Hok.
    destruct (new_client_config_ok env _ st conf Hconf)
      as (_ & _ & private & public & Hclients1).
    set (st1 := (new_client_config env
                   ("10.0.0." +:+ pretty (i + 2)%nat) st).1) in *.
    apply bind_inv in Hok as Hpeer. destruct Hpeer as (peer & Hpeer & Hrun2).
    rewrite Hrun2 in Hok.
    destruct (init_paths env conf _ dir (Some node) batches options st1 peer
                Hpeer) as (cl & Hcl & Hpath & _).
    rewrite Hclients1, lookup_insert_eq in Hcl. injection Hcl as <-.
    cbn [Wireguard.client_basic Wireguard.address Wireguard.basic_config]
      in Hpath.
    rewrite slug_of_number in Hpath.
    rewrite (file_in_directory (PyPath.of_str dir)
               ("peer-10_0_0_" +:+ pretty (i + 2)%nat) ".state") in Hpath.
    2:{ rewrite free_of_app, pretty_nat_free by reflexivity. reflexivity. }
    2:{ rewrite free_of_app, pretty_nat_free by reflexivity. reflexivity. }
    2:{ discriminate. }
    2:{ reflexivity. }
    2:{ reflexivity. }
    injection Hpath as Hpath.
    set (st2 := (BrowserPeer.init env conf (slice_step i k all_urls) dir
                   (Some node) batches options st1).1) in *.
    apply bind_inv in Hok as Hrest. destruct Hrest as (peers' & Hrest & Hrun3).
    rewrite Hrun3 in Hok. simpl in Hok. injection Hok as <-.
    intros [|j] p Hj; simpl in Hj.
    + injection Hj as <-. rewrite Nat.add_0_r, <- Hpath.
      rewrite string_app_assoc. reflexivity.
    + replace (i + S j)%nat with (S i + j)%nat by lia.
      apply (IH (S i) st2 peers' Hrest j p Hj).
Qed.

Lemma new_gateway_config_ok (env : Env) (endpoint : string) (st : State)
    (g : Wireguard.ref) :
  (new_gateway_config env endpoint st).2 = Ok g ->
  Wireguard.client_objs (wg (new_gateway_config env endpoint st).1)
  = Wireguard.client_objs (wg st)
  /\ exists private public,
       Wireguard.gateway_objs (wg (new_gateway_config env endpoint st).1) !! g
       = Some {| Wireguard.gateway_basic :=
                   Wireguard.basic_config "10.0.0.1" private public
                     (Some endpoint);
                 Wireguard.clients := [] |}.
Proof.
  unfold new_gateway_config, generate_keys, exec. run_cmd.
  destruct (shell env (history st) _) as [private|e]; [|discriminate].
  destruct (shell env (history st ++ _) _) as [public|e]; [|discriminate].
  simpl. intros [= <-]. split; [reflexivity|].
  exists (strip private), (strip public).
  rewrite lookup_alter_eq, lookup_insert_eq. reflexivity.
Qed.

(** The config objects of a constructed experiment: the gateway lists
    the agents' configs in order, and every agent's config has its
    address and refers to the gateway. *)
Lemma experiment_store (env : Env) (gateway_node : SSHNode.t)
    (client_nodes : list SSHNode.t) (all_urls : list string)
    (checkpoint_dir : option string) (batches : Z) (endpoint : string)
    (options : FetchOptions) (st : State)
    (experiment : TraceCollectionExperiment.t) :
  let built :=
    TraceCollectionExperiment.init env gateway_node client_nodes all_urls
      checkpoint_dir batches endpoint options st in
  let agents := TraceCollectionExperiment.clients experiment in
  let g := WireguardGateway.wg_conf
             (TraceCollectionExperiment.gateway experiment) in
  built.2 = Ok experiment ->
  (exists private public,
     Wireguard.gateway_objs (wg built.1) !! g
     = Some {| Wireguard.gateway_basic :=
                 Wireguard.basic_config "10.0.0.1" private public
                   (Some endpoint);
               Wireguard.clients := BrowserPeer.wg_conf <$> agents |})
  /\ (forall i peer,
        agents !! i = Some peer ->
        exists cl : Wireguard.ClientConfig,
          Wireguard.client_objs (wg built.1) !! BrowserPeer.wg_conf peer
            = Some cl
          /\ Wireguard.address (Wireguard.client_basic cl)
             = "10.0.0." +:+ pretty (i + 2)%nat
          /\ Wireguard.gateway cl = Some g)
  /\ exists dir,
       match checkpoint_dir with
       | Some given => dir = given
       | None => exists ns, dir = ("/tmp/checkpoints-" +:+ ns)%string
       end
       /\ forall i peer,
            agents !! i = Some peer ->
            BrowserPeer.checkpoint_path peer
            = PyPath.to_str
                (PyPath.joinpath (PyPath.of_str dir)
                   ("peer-10_0_0_" +:+ pretty (i + 2)%nat +:+ ".state")).
Proof.
  intros built agents g Hok.
  subst built. unfold TraceCollectionExperiment.init in Hok |- *.
  apply bind_inv in Hok as Hdir. destruct Hdir as (dir & Hdir & Hrun1).
  assert (match checkpoint_dir with
          | Some given => dir = given
          | None => exists ns, dir = ("/tmp/checkpoints-" +:+ ns)%string
          end) as Hgiven.
  { destruct checkpoint_dir as [given|].
    - simpl in Hdir. injection Hdir as <-. reflexivity.
    - revert Hdir. unfold exec. run_cmd.
      destruct (shell env (history st) PerfCounterNs) as [ns|e];
        [|discriminate].
      simpl. intros [= <-]. eauto. }
  rewrite Hrun1 in Hok |- *.
  match type of Hrun1 with _ = _ ?s => set (st1 := s) in * end.
  apply bind_inv in Hok as Hmk. destruct Hmk as (out & _ & Hrun2).
  rewrite Hrun2 in Hok |- *.
  match type of Hrun2 with _ = _ ?s => set (st2 := s) in * end.
  apply bind_inv in Hok as Hgw. destruct Hgw as (gconf & Hgconf & Hrun3).
  rewrite Hrun3 in Hok |- *.
  destruct (new_gateway_config_ok env endpoint st2 gconf Hgconf)
    as (_ & private & public & Hgobj).
  match type of Hrun3 with _ = _ ?s => set (st3 := s) in * end.
  apply bind_inv in Hok as Hpeers. destruct Hpeers as (peers & Hpeers & Hrun4).
  rewrite Hrun4 in Hok |- *.
  destruct (make_clients_ok env all_urls (length client_nodes) dir batches
              options client_nodes 0%nat st3 peers Hpeers)
    as (_ & Hgsame & _ & Hagents).
  pose proof (make_clients_paths env all_urls (length client_nodes) dir
                batches options client_nodes 0%nat st3 peers Hpeers)
    as Hpaths.
  match type of Hrun4 with _ = _ ?s => set (st4 := s) in * end.
  revert Hok. run_cmd. intros [= <-].
  subst agents g. cbn [TraceCollectionExperiment.clients
    TraceCollectionExperiment.gateway WireguardGateway.wg_conf].
  split; [|split].
  - exists private, public.
    rewrite (WireguardFacts.set_clients_gateway (wg st4) gconf
               {| Wireguard.gateway_basic :=
                    Wireguard.basic_config "10.0.0.1" private public
                      (Some endpoint);
                  Wireguard.clients := [] |}).
    + reflexivity.
    + rewrite Hgsame. exact Hgobj.
  - intros i peer Hi.
    destruct (Hagents i peer Hi) as (_ & _ & _ & cl & Hcl & Ha).
    eexists. split; [apply WireguardFacts.set_clients_client; exact Hcl|].
    split; [exact Ha|]. simpl.
    rewrite decide_True; [reflexivity|].
    apply list_elem_of_fmap. exists peer. split; [reflexivity|].
    eapply list_elem_of_lookup_2. exact Hi.
  - exists dir. split; [exact Hgiven|].
    intros i peer Hi. apply (Hpaths i peer Hi).
Qed.

Lemma exists_indexed {A B} (P : nat -> A -> B -> Prop) (l : list A) :
  forall off : nat,
    (forall i x, l !! i = Some x -> exists y, P (off + i)%nat x y) ->
    exists ys,
      length l = length ys
      /\ forall i x y,
           l !! i = Some x -> ys !! i = Some y -> P (off + i)%nat x y.
Proof.
  induction l as [|x l IH]; intros off Hall.
  - exists []. split; [reflexivity|]. intros i x y Hx. discriminate.
  - destruct (Hall 0%nat x eq_refl) as [y Hy].
    destruct (IH (S off)) as (ys & Hlen & Hys).
    { intros i x' Hx'. destruct (Hall (S i) x' Hx') as [y' Hy'].
      exists y'. replace (S off + i)%nat with (off + S i)%nat by lia.
      exact Hy'. }
    exists (y :: ys). split; [simpl; lia|].
    intros [|i] x' y' Hx' Hy'; simpl in Hx', Hy'.
    + injection Hx' as <-. injection Hy' as <-. exact Hy.
    + replace (off + S i)%nat with (S off + i)%nat by lia.
      apply (Hys i x' y' Hx' Hy').
Qed.

(** The [r]-th line of the [i]-th peer block. *)
Lemma peer_block_lookup (ccs : list Wireguard.ClientConfig) :
  forall (i r : nat) (cl : Wireguard.ClientConfig),
    ccs !! i = Some cl -> (r < 4)%nat ->
    concat (Wireguard.peer_lines <$> ccs) !! (4 * i + r)%nat
    = Wireguard.peer_lines cl !! r.
Proof.
  induction ccs as [|c ccs IH]; intros i r cl Hi Hr; [discriminate|].
  rewrite fmap_cons.
  change (concat (Wireguard.peer_lines c :: (Wireguard.peer_lines <$> ccs)))
    with (Wireguard.peer_lines c ++ concat (Wireguard.peer_lines <$> ccs)).
  destruct i as [|i]; simpl in Hi.
  - injection Hi as <-. rewrite lookup_app_l by (simpl; lia).
    f_equal; lia.
  - rewrite lookup_app_r by (simpl; lia).
    replace (4 * S i + r - length (Wireguard.peer_lines c))%nat
      with (4 * i + r)%nat by (simpl; lia).
    apply IH; assumption.
Qed.

(** *** The checkpoint file *)

(** What a run does to the local files: the checkpoint grows at its
    end, and apart from it only the bulk log and, on the localhost, the
    pushed config are written. *)
Lemma run_files (env : Env) (self : BrowserPeer.t) (st : State) :
  let path := BrowserPeer.checkpoint_path self in
  let final := (BrowserPeer.run env self st).1 in
  (forall p,
     p <> path -> p <> BrowserPeer.bulk_log self ->
     (SSHNode.is_localhost (BrowserPeer.node self) = true ->
      p <> BrowserPeer.remote_config self) ->
     files final !! p = files st !! p)
  /\ ((SSHNode.is_localhost (BrowserPeer.node self) = true ->
       BrowserPeer.remote_config self <> path) ->
      exists added,
        default [] (files final !! path)
        = default [] (files st !! path) ++ added).
Proof.
  intros path final. subst final.
  set (remaining :=
         filter_by_checkpoint env (BrowserPeer.urls self)
           (BrowserPeer.load_checkpoint env self st)
           (version_ctr (BrowserPeer.fetch_options self))
           (max_attempts (BrowserPeer.fetch_options self))).
  assert (forall st0 : State,
            (forall p,
               p <> path -> p <> BrowserPeer.bulk_log self ->
               (SSHNode.is_localhost (BrowserPeer.node self) = true ->
                p <> BrowserPeer.remote_config self) ->
               files st0 !! p = files st0 !! p)
            /\ exists added,
                 default [] (files st0 !! path)
                 = default [] (files st0 !! path) ++ added) as Hsame.
  { intros st0. split; [reflexivity|]. exists []. rewrite app_nil_r.
    reflexivity. }
  destruct (batch remaining (BrowserPeer.n_batches self))
    as [batch_ctr|e] eqn:Hbatch.
  - destruct (decide (batch_ctr = ∅)) as [->|Hnonempty].
    + rewrite (run_empty env self st Hbatch).
      destruct (Hsame st) as [Hp Ha]. split; [exact Hp|intros _; exact Ha].
    + destruct (Wireguard.client_to_string (wg st) (BrowserPeer.wg_conf self))
        as [text|e] eqn:Htext.
      * rewrite (run_unfold env self st batch_ctr text Hbatch Hnonempty Htext).
        destruct (put_text_objects env (BrowserPeer.node self) text
                    (BrowserPeer.remote_config self) st) as (_ & _ & Hput).
        destruct (SSHNode.put_text env (BrowserPeer.node self) text
                    (BrowserPeer.remote_config self) st) as [st1 [out|e]];
          simpl in Hput |- *.
        -- destruct (repeat_collect_batch env self
                       (BrowserPeer.remaining_urls env self st) batch_ctr
                       (Z.to_nat (BrowserPeer.n_batches self)) st1)
             as (k & outputs & _ & _ & _ & _ & _ & Hpath & Hother & _).
           fold path in Hpath. split.
           ++ intros p Hp Hlog Hconf.
              rewrite (Hother p Hp Hlog). apply Hput. exact Hconf.
           ++ intros Hconf. exists (concat outputs).
              rewrite Hpath, (Hput path); [reflexivity|].
              intros Hlocal. specialize (Hconf Hlocal). congruence.
        -- split.
           ++ intros p _ _ Hconf. apply Hput. exact Hconf.
           ++ intros Hconf. exists []. rewrite app_nil_r.
              rewrite (Hput path); [reflexivity|].
              intros Hlocal. specialize (Hconf Hlocal). congruence.
      * rewrite (run_unrendered env self st batch_ctr e Hbatch Hnonempty Htext).
        destruct (Hsame st) as [Hp Ha]. split; [exact Hp|intros _; exact Ha].
  - assert (BrowserPeer.run env self st = (st, Raise e)) as ->.
    { unfold BrowserPeer.run, BrowserPeer.recover_from_checkpoint.
      run_cmd. fold remaining. rewrite Hbatch. reflexivity. }
    destruct (Hsame st) as [Hp Ha]. split; [exact Hp|intros _; exact Ha].
Qed.

(** *** Rendered text *)

Lemma single_line_app (s t : string) :
  Wireguard.single_line (s +:+ t)
  = Wireguard.single_line s && Wireguard.single_line t.
Proof. apply free_of_app. Qed.

(** Splitting the joined lines gives the lines back, when none of them
    holds a newline. *)
Lemma split_join_lines (lines : list string) :
  lines <> [] ->
  Forall (fun l => Wireguard.single_line l = true) lines ->
  Wireguard.split_lines (Wireguard.join_lines lines) = lines.
Proof.
  unfold Wireguard.split_lines, Wireguard.single_line.
  induction lines as [|l lines IH]; [contradiction|].
  intros _ Hall. apply Forall_cons in Hall as [Hl Hall].
  destruct lines as [|l' lines].
  - simpl. apply split_on_single. exact Hl.
  - change (Wireguard.join_lines (l :: l' :: lines))
      with (l +:+ (String (Ascii.ascii_of_nat 10)
                     (Wireguard.join_lines (l' :: lines)))).
    rewrite split_on_app by exact Hl.
    rewrite split_on_sep.
    rewrite IH by (try discriminate; exact Hall).
    rewrite string_app_empty_r. reflexivity.
Qed.

(** The lines of a gateway config hold no newline when the keys and the
    addresses hold none. *)
Lemma interface_lines_single (gw : Wireguard.GatewayConfig) :
  Wireguard.single_line (Wireguard.private_key (Wireguard.gateway_basic gw)) = true ->
  Wireguard.single_line (Wireguard.address (Wireguard.gateway_basic gw)) = true ->
  Forall (fun l => Wireguard.single_line l = true)
    (Wireguard.interface_lines gw).
Proof.
  intros Hkey Haddr. unfold Wireguard.interface_lines.
  repeat apply Forall_cons_2; try apply Forall_nil_2; try reflexivity.
  - rewrite single_line_app, Hkey. reflexivity.
  - rewrite !single_line_app, Haddr. reflexivity.
Qed.

Lemma peer_lines_single (cl : Wireguard.ClientConfig) :
  Wireguard.single_line (Wireguard.public_key (Wireguard.client_basic cl)) = true ->
  Wireguard.single_line (Wireguard.address (Wireguard.client_basic cl)) = true ->
  Forall (fun l => Wireguard.single_line l = true) (Wireguard.peer_lines cl).
Proof.
  intros Hkey Haddr. unfold Wireguard.peer_lines.
  repeat apply Forall_cons_2; try apply Forall_nil_2; try reflexivity.
  - rewrite single_line_app, Hkey. reflexivity.
  - rewrite !single_line_app, Haddr. reflexivity.
Qed.

Lemma peer_blocks_single (ccs : list Wireguard.ClientConfig) :
  Forall (fun cl : Wireguard.ClientConfig =>
            Wireguard.single_line (Wireguard.public_key (Wireguard.client_basic cl)) = true /\
            Wireguard.single_line (Wireguard.address (Wireguard.client_basic cl)) = true) ccs ->
  Forall (fun l => Wireguard.single_line l = true)
    (concat (Wireguard.peer_lines <$> ccs)).
Proof.
  induction 1 as [|cl ccs [Hkey Haddr] _ IH]; [apply Forall_nil_2|].
  rewrite fmap_cons.
  change (concat (Wireguard.peer_lines cl :: (Wireguard.peer_lines <$> ccs)))
    with (Wireguard.peer_lines cl
            ++ concat (Wireguard.peer_lines <$> ccs))%list.
  apply Forall_app_2; [apply peer_lines_single; assumption | exact IH].
Qed.

(** The objects behind a list of allocated references. *)
Lemma clients_allocated (st : Wireguard.Store)
    (P : Wireguard.ClientConfig -> Prop) (cs : list Wireguard.ref) :
  Forall (fun c => exists cl, Wireguard.client_objs st !! c = Some cl /\ P cl)
    cs ->
  exists ccs : list Wireguard.ClientConfig,
    Forall2 (fun c cl => Wireguard.client_objs st !! c = Some cl) cs ccs /\
    Forall P ccs.
Proof.
  induction 1 as [|c cs (cl & Hc & HP) _ (ccs & Hall & HPs)].
  - exists []. split; constructor.
  - exists (cl :: ccs). split; constructor; assumption.
Qed.

(** *** The planner with a negative number of batches *)

(** What the comprehension of [batch] returns has the keys of the
    counter, each with the rounded-up quotient of its count. *)
Lemma ceil_items_ok (n : Z) (counter : gmap string Z) :
  forall plan : gmap string Z,
    ceil_items n counter = Ok plan ->
    forall k,
      match counter !! k with
      | Some v => exists q, ceil_truediv v n = Ok q /\ plan !! k = Some q
      | None => plan !! k = None
      end.
Proof.
  unfold ceil_items.
  apply (map_fold_weak_ind (fun res m =>
    forall plan : gmap string Z,
      res = Ok plan ->
      forall k,
        match m !! k with
        | Some v => exists q, ceil_truediv v n = Ok q /\ plan !! k = Some q
        | None => plan !! k = None
        end)).
  - intros plan [= <-] k. rewrite !lookup_empty. reflexivity.
  - intros i x m res Hfresh IH plan Hres k.
    destruct res as [done|e]; [|discriminate].
    destruct (ceil_truediv x n) as [q|e] eqn:Hq; [|discriminate].
    injection Hres as <-.
    destruct (decide (k = i)) as [->|Hne].
    + rewrite !lookup_insert_eq. exists q. split; [exact Hq|reflexivity].
    + rewrite !lookup_insert_ne by congruence. exact (IH done eq_refl k).
Qed.

(** A positive count divided by a negative number rounds up to zero or
    below. *)
Lemma ceil_truediv_negative (v n q : Z) :
  0 < v -> n < 0 -> ceil_truediv v n = Ok q -> q <= 0.
Proof.
  intros Hv Hn. unfold ceil_truediv, int_true_divide.
  destruct (Z.eqb_spec n 0); [lia|].
  destruct (Z.eqb_spec v 0); [lia|].
  replace (Z.sgn v * Z.sgn n) with (-1)
    by (rewrite (Z.sgn_pos v), (Z.sgn_neg n); lia).
  set (e := Z.max (binade (Z.abs v) (Z.abs n) - 52) (-1074)).
  set (m := if 0 <=? e then round_nearest_even (Z.abs v) (Z.abs n * 2 ^ e)
            else round_nearest_even (Z.abs v * 2 ^ (- e)) (Z.abs n)).
  assert (0 <= m) as Hm.
  { subst m. destruct (Z.leb_spec 0 e) as [He|He].
    - assert (0 < 2 ^ e) by (apply Z.pow_pos_nonneg; lia).
      pose proof (round_nearest_even_bounds (Z.abs v) (Z.abs n * 2 ^ e)
                    ltac:(lia) ltac:(nia)).
      nia.
    - assert (0 < 2 ^ (- e)) by (apply Z.pow_pos_nonneg; lia).
      pose proof (round_nearest_even_bounds (Z.abs v * 2 ^ (- e)) (Z.abs n)
                    ltac:(nia) ltac:(lia)).
      nia. }
  clearbody m e.
  destruct (Z.eqb_spec m 0); [intros [= <-]; reflexivity|].
  destruct (Z.leb_spec 1024 (Z.log2 m + e)); [discriminate|].
  intros [= <-]. unfold math_ceil. simpl.
  destruct (Z.leb_spec 0 e) as [He|He].
  - assert (0 < 2 ^ e) by (apply Z.pow_pos_nonneg; lia). nia.
  - assert (0 < 2 ^ (- e)) by (apply Z.pow_pos_nonneg; lia).
    replace (- (-1 * m)) with m by lia.
    pose proof (Z.div_pos m (2 ^ (- e)) ltac:(lia) ltac:(lia)). lia.
Qed.

(** *** The entry point *)

(** The address user@host, possibly followed by more ["@"] parts. *)
Lemma public_ip_of (user host tail : string) :
  free_of "@" user = true -> free_of "@" host = true ->
  (tail = EmptyString \/ exists t, tail = String "@" t) ->
  SSHNode.public_ip (Some (user +:+ String "@" (host +:+ tail))) = Ok host.
Proof.
  intros Hu Hh Ht. unfold SSHNode.public_ip.
  rewrite free_of_app, Hu, free_of_sep. cbn [andb].
  rewrite (split_on_app _ _ _ Hu), split_on_sep, (split_on_app _ _ _ Hh).
  destruct Ht as [->|(t & ->)].
  - simpl. rewrite string_app_empty_r. reflexivity.
  - rewrite split_on_sep. simpl. rewrite string_app_empty_r. reflexivity.
Qed.

Lemma unpack_rows_inv (urlfile : list (list string)) :
  match unpack_rows urlfile with
  | Ok urls => urlfile = (fun url => [url]) <$> urls
  | Raise e => e = ValueError
  end.
Proof.
  induction urlfile as [|row rest IH]; simpl; [reflexivity|].
  destruct row as [|url [|more row]]; [reflexivity| |reflexivity].
  destruct (unpack_rows rest) as [urls|e]; simpl; [|exact IH].
  rewrite IH. reflexivity.
Qed.

(** The nodes that [main] hands to the experiment. *)
Lemma client_nodes_of_inv (client_node : list SSHNode.t) (n_clients : Z) :
  match client_nodes_of client_node n_clients with
  | Ok nodes =>
      nodes <> []
      /\ (1 < n_clients ->
          exists node,
            nodes = replicate (Z.to_nat n_clients) node
            /\ (client_node = [node] \/ client_node = [] /\ node = None))
      /\ (n_clients <= 1 ->
          nodes = match client_node with [] => [None] | _ => client_node end)
  | Raise e =>
      e = AssertionError /\ n_clients <> 1 /\ (2 <= length client_node)%nat
  end.
Proof.
  assert (forall node : SSHNode.t,
            1 < n_clients ->
            ([node] ++ replicate (Z.to_nat (n_clients - 1)) node)%list
            = replicate (Z.to_nat n_clients) node) as Hrep.
  { intros node Hn.
    replace (Z.to_nat n_clients) with (S (Z.to_nat (n_clients - 1))) by lia.
    reflexivity. }
  unfold client_nodes_of.
  destruct client_node as [|a [|b l]]; cbn [length Nat.eqb orb].
  - rewrite orb_true_r.
    destruct (Z.ltb_spec 1 n_clients) as [Hn|Hn].
    + split; [discriminate|]. split; [|lia].
      intros _. exists None. split; [apply Hrep, Hn|]. right. auto.
    + split; [discriminate|]. split; [lia|]. reflexivity.
  - rewrite orb_true_r.
    destruct (Z.ltb_spec 1 n_clients) as [Hn|Hn].
    + split; [discriminate|]. split; [|lia].
      intros _. exists a. split; [apply Hrep, Hn|]. left. reflexivity.
    + split; [discriminate|]. split; [lia|]. reflexivity.
  - rewrite orb_false_r.
    destruct (Z.eqb_spec n_clients 1) as [Hn|Hn].
    + split; [discriminate|]. split; [lia|]. reflexivity.
    + split; [reflexivity|]. split; [exact Hn|]. simpl. lia.
Qed.

(** The agents of a constructed experiment are those that the list
    comprehension of [__init__] made. *)
Lemma init_inv (env : Env) (gateway_node : SSHNode.t)
    (client_nodes : list SSHNode.t) (all_urls : list string)
    (checkpoint_dir : option string) (batches : Z) (endpoint : string)
    (options : FetchOptions) (st : State)
    (experiment : TraceCollectionExperiment.t) :
  (TraceCollectionExperiment.init env gateway_node client_nodes all_urls
     checkpoint_dir batches endpoint options st).2 = Ok experiment ->
  exists dir st3,
    (TraceCollectionExperiment.make_clients env all_urls
       (length client_nodes) dir batches options 0 client_nodes st3).2
    = Ok (TraceCollectionExperiment.clients experiment).
Proof.
  intros Hok. unfold TraceCollectionExperiment.init in Hok.
  apply bind_inv in Hok as Hdir. destruct Hdir as (dir & _ & Hrun1).
  rewrite Hrun1 in Hok.
  apply bind_inv in Hok as Hmk. destruct Hmk as (out & _ & Hrun2).
  rewrite Hrun2 in Hok.
  apply bind_inv in Hok as Hgw. destruct Hgw as (gconf & _ & Hrun3).
  rewrite Hrun3 in Hok.
  apply bind_inv in Hok as Hpeers. destruct Hpeers as (peers & Hpeers & Hrun4).
  rewrite Hrun4 in Hok.
  revert Hok. run_cmd. intros [= <-]. simpl. eauto.
Qed.

(** Every URL of a list that [_filter_urls] got through was parsed. *)
Lemma filter_urls_parsed (env : Env) (all_urls kept : list string) :
  filter_urls env all_urls = Ok kept ->
  forall url, url ∈ all_urls -> exists port, urlparse_port env url = Ok port.
Proof.
  revert kept. induction all_urls as [|u rest IH]; intros kept Hok url Hin.
  - apply elem_of_nil in Hin. contradiction.
  - simpl in Hok.
    destruct (urlparse_port env u) as [port|e] eqn:Hport; [|discriminate].
    destruct (filter_urls env rest) as [kept'|e]; [|discriminate].
    apply elem_of_cons in Hin as [->|Hin]; [eauto|].
    exact (IH kept' eq_refl url Hin).
Qed.

Lemma init_parsed (env : Env) (conf : Wireguard.ref) (all_urls : list string)
    (dir : string) (node_arg : option SSHNode.t) (batches : Z)
    (options : FetchOptions) (st : State) (peer : BrowserPeer.t) :
  (BrowserPeer.init env conf all_urls dir node_arg batches options st).2
    = Ok peer ->
  forall url, url ∈ all_urls -> exists port, urlparse_port env url = Ok port.
Proof.
  unfold BrowserPeer.init, exec. run_cmd.
  destruct (shell env (history st) Uuid4) as [hex|e]; [|discriminate].
  destruct (Wireguard.get_client (wg st) conf) as [cl|e]; [|discriminate].
  destruct (PyPath.with_suffix _ ".state") as [state_file|e]; [|discriminate].
  destruct (PyPath.with_suffix _ ".log") as [log_file|e]; [|discriminate].
  destruct (filter_urls env all_urls) as [kept|e] eqn:Hkept;
    [|discriminate].
  intros _. exact (filter_urls_parsed env all_urls kept Hkept).
Qed.

Lemma make_clients_parsed (env : Env) (all_urls : list string) (k : nat)
    (dir : string) (batches : Z) (options : FetchOptions)
    (nodes : list SSHNode.t) :
  forall (i : nat) (st : State) (peers : list BrowserPeer.t),
    (TraceCollectionExperiment.make_clients env all_urls k dir batches
       options i nodes st).2 = Ok peers ->
    forall j url,
      (j < length nodes)%nat -> url ∈ slice_step (i + j) k all_urls ->
      exists port, urlparse_port env url = Ok port.
Proof.
  induction nodes as [|node rest IH]; intros i st peers Hok j url Hj Hin.
  - simpl in Hj. lia.
  - simpl in Hok.
    apply bind_inv in Hok as Hconf. destruct Hconf as (conf & _ & Hrun1).
    rewrite Hrun1 in Hok.
    apply bind_inv in Hok as Hpeer. destruct Hpeer as (peer & Hpeer & Hrun2).
    rewrite Hrun2 in Hok.
    apply bind_inv in Hok as Hrest. destruct Hrest as (peers' & Hrest & _).
    destruct j as [|j].
    + rewrite Nat.add_0_r in Hin.
      exact (init_parsed _ _ _ _ _ _ _ _ _ Hpeer url Hin).
    + apply (IH (S i) _ peers' Hrest j url); [simpl in Hj; lia|].
      replace (S i + j)%nat with (i + S j)%nat by lia. exact Hin.
Qed.

(** *** Removing the checkpoints *)

(** The files after the checkpoints at [paths] were removed. *)
Lemma clear_checkpoints_ok (agents : list BrowserPeer.t) :
  forall st : State,
    NoDup (BrowserPeer.checkpoint_path <$> agents) ->
    (forall peer, peer ∈ agents ->
       is_Some (files st !! BrowserPeer.checkpoint_path peer)) ->
    TraceCollectionExperiment.clear_checkpoints agents st
    = (set_files
         (fun fs => foldl (fun fs peer =>
                             delete (BrowserPeer.checkpoint_path peer) fs)
                      fs agents) st,
       inr tt).
Proof.
  induction agents as [|peer rest IH]; intros st Hdup Hall.
  - destruct st; reflexivity.
  - rewrite fmap_cons in Hdup. apply NoDup_cons in Hdup as [Hnotin Hdup].
    simpl. unfold BrowserPeer.clear_checkpoint.
    destruct (Hall peer ltac:(left)) as [lines Hlines]. rewrite Hlines.
    rewrite IH.
    + destruct st; reflexivity.
    + exact Hdup.
    + intros q Hq. simpl. rewrite lookup_delete_ne.
      * apply Hall. right. exact Hq.
      * intros Heq. apply Hnotin. rewrite Heq.
        apply list_elem_of_fmap. exists q. split; [reflexivity|exact Hq].
Qed.

Lemma lookup_cleared (agents : list BrowserPeer.t) :
  forall (fs : gmap string (list string)) (path : string),
    foldl (fun fs peer => delete (BrowserPeer.checkpoint_path peer) fs)
      fs agents !! path
    = if decide (path ∈ BrowserPeer.checkpoint_path <$> agents) then None
      else fs !! path.
Proof.
  induction agents as [|peer rest IH]; intros fs path.
  - destruct (decide (path ∈ BrowserPeer.checkpoint_path <$> []))
      as [Hin|_]; [|reflexivity].
    apply elem_of_nil in Hin. contradiction.
  - rewrite fmap_cons. cbn [foldl]. rewrite IH.
    destruct (decide (path ∈ BrowserPeer.checkpoint_path <$> rest))
      as [Hin|Hnotin].
    + rewrite decide_True; [reflexivity|]. right. exact Hin.
    + destruct (decide (path = BrowserPeer.checkpoint_path peer))
        as [->|Hne].
      * rewrite lookup_delete_eq. rewrite decide_True; [reflexivity|]. left.
      * rewrite lookup_delete_ne by congruence.
        rewrite decide_False; [reflexivity|].
        intros Hin. apply elem_of_cons in Hin as [?|?]; contradiction.
Qed.

Lemma clear_checkpoints_app (before rest : list BrowserPeer.t) :
  forall st : State,
    TraceCollectionExperiment.clear_checkpoints (before ++ rest) st
    = match TraceCollectionExperiment.clear_checkpoints before st with
      | (st', inr _) => TraceCollectionExperiment.clear_checkpoints rest st'
      | (st', inl e) => (st', inl e)
      end.
Proof.
  induction before as [|peer before IH]; intros st; simpl; [reflexivity|].
  destruct (BrowserPeer.clear_checkpoint peer st) as [st' [e|[]]];
    [reflexivity|]. apply IH.
Qed.

(** The agents of a constructed experiment sit on the client nodes, in
    order. *)
Lemma experiment_nodes (env : Env) (gateway_node : SSHNode.t)
    (client_nodes : list SSHNode.t) (all_urls : list string)
    (checkpoint_dir : option string) (batches : Z) (endpoint : string)
    (options : FetchOptions) (st : State)
    (experiment : TraceCollectionExperiment.t) :
  (TraceCollectionExperiment.init env gateway_node client_nodes all_urls
     checkpoint_dir batches endpoint options st).2 = Ok experiment ->
  BrowserPeer.node <$> TraceCollectionExperiment.clients experiment
  = client_nodes.
Proof.
  intros Hok. destruct (init_inv _ _ _ _ _ _ _ _ _ _ Hok) as (dir & st3 & Hmk).
  destruct (make_clients_ok _ _ _ _ _ _ _ _ _ _ Hmk) as (Hlen & _ & _ & Hagents).
  apply list_eq. intros j. rewrite list_lookup_fmap.
  destruct (TraceCollectionExperiment.clients experiment !! j) as [peer|]
    eqn:Hj; simpl.
  - destruct (Hagents j peer Hj) as (Hnode & _). symmetry. exact Hnode.
  - symmetry. apply lookup_ge_None. apply lookup_ge_None in Hj. lia.
Qed.

End MoreFacts.
(** * The claims *)

Section Claims.
Import PyNum PyNumFacts Planner PlannerFacts.
Import Wireguard WireguardFacts.
Import FetchWithVpn FetchFacts AsSpecified.

(** C1 (evaluation at the failing inputs).  [batch] takes the ceiling
    of [value / n_batches], a quotient that Python has first rounded to
    a float.  One URL that still needs 2^53 + 1 fetches of "tcp", one
    batch: the quotient is rounded to 2^53, so the plan asks for one
    fetch too few and is not the exact plan.  One fetch left and
    2^1075 batches: the quotient is rounded to zero, so the plan holds
    the count 0 for a category that is still needed.  10^400 fetches
    left: the division raises [OverflowError]. *)
Theorem batch_rounds_through_float :
  batch {[ "a.com" := {[ "tcp" := 2 ^ 53 + 1 ]} ]} 1
    = Ok {[ "tcp" := 2 ^ 53 ]}
  /\ ~ batch_is_exact {[ "a.com" := {[ "tcp" := 2 ^ 53 + 1 ]} ]} 1
  /\ batch {[ "a.com" := {[ "tcp" := 1 ]} ]} (2 ^ 1075) = Ok {[ "tcp" := 0 ]}
  /\ batch {[ "a.com" := {[ "tcp" := 10 ^ 400 ]} ]} 1 = Raise OverflowError.
Proof.
  assert (batch {[ "a.com" := {[ "tcp" := 2 ^ 53 + 1 ]} ]} 1
          = Ok {[ "tcp" := 2 ^ 53 ]}) as Hrun by (vm_compute; reflexivity).
  split; [exact Hrun|]. split.
  - intros (plan & Hplan & Hexact). rewrite Hrun in Hplan.
    injection Hplan as <-.
    assert (is_max_count {[ "a.com" := {[ "tcp" := 2 ^ 53 + 1 ]} ]}
              "tcp" (2 ^ 53 + 1)) as Hmax.
    { split.
      - exists "a.com", {[ "tcp" := 2 ^ 53 + 1 ]}.
        rewrite !lookup_singleton_eq. auto.
      - intros peer ctr v Hp Hc.
        apply lookup_singleton_Some in Hp as [_ <-].
        apply lookup_singleton_Some in Hc as [_ <-]. reflexivity. }
    pose proof (plan_ceil _ _ _ Hexact "tcp" (2 ^ 53 + 1) Hmax eq_refl) as Hk.
    rewrite lookup_singleton_eq in Hk. vm_compute in Hk. discriminate.
  - split; vm_compute; reflexivity.
Qed.





(** C2, the same agent cancelled during its second round: the round has
    asked for the same request, its collector is terminated, and what
    it had written is in the checkpoint. *)
Example run_cancelled_in_second_round :
  let final :=
    BrowserPeer.run Scenario.interrupted (Scenario.agent 4 2)
      Scenario.configured in
  final.2 = Raise CancelledError
  /\ fr_version_ctr <$> fetch_requests (history final.1)
     = [ {[ "tcp" := 2 ]}; {[ "tcp" := 2 ]} ]
  /\ (exists request, last (history final.1) = Some (Terminate request))
  /\ files final.1 !! "/ckpt/peer-10_0_0_2.state"
     = Some (replicate 3 "https://a.com tcp")
  /\ files final.1 !! "/ckpt/peer-10_0_0_2.log" = Some ["starting"].
Proof.
  vm_compute. split; [reflexivity|]. split; [reflexivity|].
  split; [eexists; reflexivity|]. split; reflexivity.
Qed.


(** C6.  An agent whose request planned at the start of [run] is empty
    returns its checkpoint path at once: the state is unchanged, so no
    config was pushed and the collector was not invoked. *)
Theorem run_nothing_left (env : Env) (self : BrowserPeer.t) (st : State) :
  batch
    (filter_by_checkpoint env (BrowserPeer.urls self)
       (BrowserPeer.load_checkpoint env self st)
       (version_ctr (BrowserPeer.fetch_options self))
       (max_attempts (BrowserPeer.fetch_options self)))
    (BrowserPeer.n_batches self) = Ok ∅ ->
  BrowserPeer.run env self st = (st, Ok (BrowserPeer.checkpoint_path self))
  /\ history (BrowserPeer.run env self st).1 = history st
  /\ fetch_requests (history (BrowserPeer.run env self st).1)
     = fetch_requests (history st).
Proof.
  intros Hbatch. rewrite (run_empty env self st Hbatch).
  repeat split; reflexivity.
Qed.

Lemma run_nothing_left_witness :
  BrowserPeer.run Scenario.obliging (Scenario.agent 4 2)
    (Scenario.checkpointed 4)
  = (Scenario.checkpointed 4, Ok "/ckpt/peer-10_0_0_2.state").
Proof.
  apply (run_nothing_left Scenario.obliging (Scenario.agent 4 2)
           (Scenario.checkpointed 4)).
  vm_compute. reflexivity.
Defined.

(** C9.  Loading the checkpoint gives the decoded lines of the
    checkpoint file when there is one, and the empty list when there is
    none; [_recover_from_checkpoint] returns in both cases.  What a
    round has appended is loaded afterwards, behind what was there. *)
Theorem load_checkpoint_total (env : Env) (self : BrowserPeer.t) (st : State) :
  (forall lines,
     files st !! BrowserPeer.checkpoint_path self = Some lines ->
     BrowserPeer.load_checkpoint env self st = decode_result env <$> lines)
  /\ (files st !! BrowserPeer.checkpoint_path self = None ->
      BrowserPeer.load_checkpoint env self st = [])
  /\ BrowserPeer.recover_from_checkpoint env self st
     = (st, Ok (filter_by_checkpoint env (BrowserPeer.urls self)
                  (BrowserPeer.load_checkpoint env self st)
                  (version_ctr (BrowserPeer.fetch_options self))
                  (max_attempts (BrowserPeer.fetch_options self))))
  /\ (forall batch_urls batch_ctr,
      BrowserPeer.load_checkpoint env self
        (BrowserPeer.collect_batch env self batch_urls batch_ctr st).1
      = BrowserPeer.load_checkpoint env self st
        ++ (decode_result env
              <$> fetch_output env (history st)
                    (BrowserPeer.fetch_request self batch_urls batch_ctr)
                    (default [] (files st !! BrowserPeer.checkpoint_path self)))).
Proof.
  split; [|split; [|split]].
  - intros lines Hfile. unfold BrowserPeer.load_checkpoint.
    rewrite Hfile. reflexivity.
  - intros Hfile. unfold BrowserPeer.load_checkpoint.
    rewrite Hfile. reflexivity.
  - reflexivity.
  - intros batch_urls batch_ctr.
    destruct (collect_batch_spec env self batch_urls batch_ctr st)
      as (_ & _ & Hfiles & _).
    unfold BrowserPeer.load_checkpoint.
    rewrite Hfiles, lookup_insert_eq, fmap_app.
    destruct (files st !! BrowserPeer.checkpoint_path self); reflexivity.
Qed.

Lemma load_checkpoint_total_witness :
  BrowserPeer.load_checkpoint Scenario.obliging (Scenario.agent 4 2)
    Scenario.configured = []
  /\ BrowserPeer.load_checkpoint Scenario.obliging (Scenario.agent 4 2)
       (Scenario.checkpointed 2)
     = Scenario.decode_line <$> replicate 2 "https://a.com tcp".
Proof.
  split.
  - destruct (load_checkpoint_total Scenario.obliging (Scenario.agent 4 2)
                Scenario.configured) as (_ & Hnone & _).
    apply Hnone. vm_compute. reflexivity.
  - destruct (load_checkpoint_total Scenario.obliging (Scenario.agent 4 2)
                (Scenario.checkpointed 2)) as (Hsome & _).
    apply (Hsome (replicate 2 "https://a.com tcp")).
    vm_compute. reflexivity.
Defined.

(** C3 (evaluation at the failing input).  Two agents under a started
    gateway: the first fails at its first resumption while the second
    has five more suspensions to go.  The coordinator raises the first
    agent's exception again and the gateway is stopped and removed, but
    only after the second agent has run to its normal end: it was not
    cancelled, because [gathered_tasks] is done by the time its
    [cancel()] is called. *)
Theorem failing_agent_leaves_sibling_running :
  let final :=
    TraceCollectionExperiment.run Scenario.obliging Scenario.first_fails
      Scenario.two_agents Scenario.configured in
  final.2 = Raise (ErrorReturnCode 1)
  /\ tasks final.1
     = [ Finished (Raise (ErrorReturnCode 1));
         Finished (Ok "/ckpt/peer-10_0_0_3.state") ]
  /\ drop 3 (history final.1)
     = [ Docker (Some "root@gateway") ["stop"; "c0ffee"];
         Docker (Some "root@gateway") ["rm"; "c0ffee"] ].
Proof. vm_compute. repeat split; reflexivity. Qed.



(** C5.  [stop] without a running gateway (no container id, as before
    any [start]) changes nothing and raises nothing.  With a running
    gateway it issues [docker stop]; when the two docker commands
    succeed it has issued [docker stop] and [docker rm], the handle is
    cleared, and a second [stop] right after changes nothing. *)
Theorem stop_idempotent (env : Env) (self : WireguardGateway.t) (st : State) :
  (container_id st = None ->
   WireguardGateway.stop env self st = (st, Ok tt))
  /\ forall c : string,
       container_id st = Some c ->
       let stop_c := Docker (WireguardGateway.node self) ["stop"; c] in
       let rm_c := Docker (WireguardGateway.node self) ["rm"; c] in
       let stopped := WireguardGateway.stop env self st in
       (exists rest, history stopped.1 = history st ++ stop_c :: rest)
       /\ forall o1 o2,
            shell env (history st) stop_c = Ok o1 ->
            shell env (history st ++ [stop_c]) rm_c = Ok o2 ->
            stopped.2 = Ok tt
            /\ history stopped.1 = history st ++ [stop_c; rm_c]
            /\ container_id stopped.1 = None
            /\ WireguardGateway.stop env self stopped.1 = (stopped.1, Ok tt).
Proof.
  split; [apply stop_not_running|].
  intros c Hc stop_c rm_c stopped. subst stopped.
  rewrite (stop_running env self st c Hc). fold stop_c rm_c. split.
  - destruct (shell env (history st) stop_c) as [o1|e1];
      [destruct (shell env (history st ++ [stop_c]) rm_c) as [o2|e2]|];
      simpl; eexists; try rewrite <- app_assoc; reflexivity.
  - intros o1 o2 -> ->. simpl. rewrite <- app_assoc.
    split; [reflexivity|]. split; [reflexivity|]. split; [reflexivity|].
    apply stop_not_running. reflexivity.
Qed.

Lemma stop_idempotent_witness :
  let gw := {| WireguardGateway.wg_conf := 0%nat;
               WireguardGateway.node := Some "root@gateway" |} in
  let running := set_container_id (Some "c0ffee") Scenario.configured in
  WireguardGateway.stop Scenario.obliging gw Scenario.configured
  = (Scenario.configured, Ok tt)
  /\ history (WireguardGateway.stop Scenario.obliging gw running).1
     = [ Docker (Some "root@gateway") ["stop"; "c0ffee"];
         Docker (Some "root@gateway") ["rm"; "c0ffee"] ].
Proof.
  intros gw running. split.
  - apply (stop_idempotent Scenario.obliging gw Scenario.configured).
    reflexivity.
  - destruct (stop_idempotent Scenario.obliging gw running) as [_ Hrunning].
    destruct (Hrunning "c0ffee" eq_refl) as [_ Hboth].
    destruct (Hboth ""%string ""%string eq_refl eq_refl) as (_ & Hhist & _).
    exact Hhist.
Defined.

(** C10.  A constructed agent stores exactly the input URLs whose parse
    has no port, in their order.  The collector is only ever given the
    keys of the remaining work; so, with a [filter_by_checkpoint] whose
    dict has keys among the URLs it is given, no URL with a port is
    handed to the collector by any of the agent's runs. *)
Theorem urls_with_port_dropped (env : Env) (conf : Wireguard.ref)
    (all_urls : list string) (dir : string) (node_arg : option SSHNode.t)
    (batches : Z) (options : FetchOptions) (st : State)
    (peer : BrowserPeer.t) :
  (BrowserPeer.init env conf all_urls dir node_arg batches options st).2
    = Ok peer ->
  (forall urls checkpoint requested attempts u,
     u ∈ remaining_keys env urls checkpoint requested attempts ->
     u ∈ urls) ->
  BrowserPeer.urls peer = filter (fun u => has_no_port env u) all_urls
  /\ forall (st2 : State) (request : FetchRequest) (u : string),
       request ∈ fetch_requests (history (BrowserPeer.run env peer st2).1) ->
       request ∉ fetch_requests (history st2) ->
       u ∈ fr_urls request ->
       has_no_port env u = true /\ u ∈ all_urls.
Proof.
  intros Hinit Hkeys.
  destruct (init_ok env conf all_urls dir node_arg batches options st peer
              Hinit) as (_ & _ & _ & Hurls).
  split; [exact Hurls|].
  intros st2 request u Hissued Hnew Hu.
  destruct (run_requests env peer st2) as (k & batch_ctr & Hrequests).
  rewrite Hrequests in Hissued.
  apply elem_of_app in Hissued as [Hold|Hround]; [contradiction|].
  apply elem_of_replicate in Hround as [-> _]. simpl in Hu.
  assert (u ∈ BrowserPeer.urls peer) as Hkept.
  { eapply Hkeys. exact Hu. }
  rewrite Hurls in Hkept. apply list_elem_of_filter in Hkept as [Hport Hall].
  split; [|exact Hall]. apply Is_true_true. exact Hport.
Qed.

Lemma urls_with_port_dropped_witness :
  exists peer,
    (BrowserPeer.init Scenario.obliging 1%nat
       ["https://a.com"; "https://b.com:8443/x"; "https://c.org"]
       "/ckpt" None 2 (Scenario.options {[ "tcp" := 4 ]})
       Scenario.configured).2 = Ok peer
    /\ BrowserPeer.urls peer = ["https://a.com"; "https://c.org"].
Proof.
  eexists. split; [vm_compute; reflexivity|].
  refine (proj1 (urls_with_port_dropped Scenario.obliging 1%nat
            ["https://a.com"; "https://b.com:8443/x"; "https://c.org"]
            "/ckpt" None 2 (Scenario.options {[ "tcp" := 4 ]})
            Scenario.configured _ _ _)).
  - vm_compute. reflexivity.
  - intros urls checkpoint requested attempts u.
    apply remaining_order_in.
Defined.

(** C8.  With [k >= 1] client hosts, a constructed experiment has one
    agent per host, in order.  Agent [i] is given the items at the
    indices [i], [i + k], [i + 2k], ... of the work list (and stores
    those of them that have no port), so item [j] goes to the agent on
    host [j mod k], and to no other.  The client config of agent [i] has
    the address 10.0.0.(i+2); the addresses of two agents differ. *)
Theorem clients_partition (env : Env) (gateway_node : SSHNode.t)
    (client_nodes : list SSHNode.t) (all_urls : list string)
    (checkpoint_dir : option string) (batches : Z) (endpoint : string)
    (options : FetchOptions) (st : State)
    (experiment : TraceCollectionExperiment.t) :
  let k := length client_nodes in
  let built :=
    TraceCollectionExperiment.init env gateway_node client_nodes all_urls
      checkpoint_dir batches endpoint options st in
  let agents := TraceCollectionExperiment.clients experiment in
  client_nodes <> [] ->
  built.2 = Ok experiment ->
  length agents = k
  /\ (forall i peer,
        agents !! i = Some peer ->
        client_nodes !! i = Some (BrowserPeer.node peer)
        /\ BrowserPeer.urls peer
           = filter (fun u => has_no_port env u) (slice_step i k all_urls)
        /\ exists cl : ClientConfig,
             client_objs (wg built.1) !! BrowserPeer.wg_conf peer = Some cl
             /\ address cl = "10.0.0." +:+ pretty (i + 2)%nat)
  /\ (forall j url,
        all_urls !! j = Some url ->
        slice_step (j mod k) k all_urls !! (j / k)%nat = Some url
        /\ exists peer,
             agents !! (j mod k)%nat = Some peer
             /\ (has_no_port env url = true -> url ∈ BrowserPeer.urls peer))
  /\ (forall i t url,
        slice_step i k all_urls !! t = Some url ->
        all_urls !! (i + t * k)%nat = Some url)
  /\ (forall i j p q (clp clq : ClientConfig),
        i <> j -> agents !! i = Some p -> agents !! j = Some q ->
        client_objs (wg built.1) !! BrowserPeer.wg_conf p = Some clp ->
        client_objs (wg built.1) !! BrowserPeer.wg_conf q = Some clq ->
        address clp <> address clq).
Proof.
  intros k built agents Hnonempty Hok.
  assert (0 < k)%nat as Hk.
  { subst k. destruct client_nodes; [contradiction|simpl; lia]. }
  subst built. unfold TraceCollectionExperiment.init in Hok |- *.
  apply bind_inv in Hok as Hdir. destruct Hdir as (dir & _ & Hrun1).
  rewrite Hrun1 in Hok |- *.
  match type of Hrun1 with _ = _ ?s => set (st1 := s) in * end.
  apply bind_inv in Hok as Hmk. destruct Hmk as (out & _ & Hrun2).
  rewrite Hrun2 in Hok |- *.
  match type of Hrun2 with _ = _ ?s => set (st2 := s) in * end.
  apply bind_inv in Hok as Hgw. destruct Hgw as (gconf & _ & Hrun3).
  rewrite Hrun3 in Hok |- *.
  match type of Hrun3 with _ = _ ?s => set (st3 := s) in * end.
  apply bind_inv in Hok as Hpeers. destruct Hpeers as (peers & Hpeers & Hrun4).
  rewrite Hrun4 in Hok |- *.
  destruct (make_clients_ok env all_urls k dir batches options client_nodes
              0%nat st3 peers Hpeers) as (Hlen & _ & _ & Hagents).
  match type of Hrun4 with _ = _ ?s => set (st4 := s) in * end.
  revert Hok. run_cmd. intros [= <-].
  subst agents. cbn [TraceCollectionExperiment.clients].
  assert (forall i peer,
            peers !! i = Some peer ->
            exists cl : ClientConfig,
              client_objs
                (set_clients gconf (BrowserPeer.wg_conf <$> peers) (wg st4))
                !! BrowserPeer.wg_conf peer = Some cl
              /\ address cl = "10.0.0." +:+ pretty (i + 2)%nat) as Haddr.
  { intros i peer Hi.
    destruct (Hagents i peer Hi) as (_ & _ & _ & cl & Hcl & Ha).
    eexists. split; [apply set_clients_client; exact Hcl|exact Ha]. }
  split; [exact Hlen|]. split; [|split; [|split]].
  - intros i peer Hi.
    destruct (Hagents i peer Hi) as (Hnode & Hurls & _).
    split; [exact Hnode|]. split; [exact Hurls|]. apply Haddr. exact Hi.
  - intros j url Hj.
    assert (slice_step (j mod k) k all_urls !! (j / k)%nat = Some url)
      as Hslice.
    { rewrite slice_step_lookup by exact Hk.
      replace (j mod k + j / k * k)%nat with j; [exact Hj|].
      pose proof (Nat.div_mod j k ltac:(lia)). lia. }
    split; [exact Hslice|].
    destruct (lookup_lt_is_Some_2 peers (j mod k)%nat) as [peer Hpeer].
    { rewrite Hlen. apply Nat.mod_upper_bound. lia. }
    exists peer. split; [exact Hpeer|]. intros Hport.
    destruct (Hagents _ peer Hpeer) as (_ & -> & _).
    apply list_elem_of_filter. split; [rewrite Hport; exact I|].
    eapply list_elem_of_lookup_2. exact Hslice.
  - intros i t url. rewrite slice_step_lookup by exact Hk. auto.
  - intros i j p q clp clq Hij Hp Hq Hclp Hclq Heq.
    destruct (Haddr i p Hp) as (cl1 & Hcl1 & Ha1).
    destruct (Haddr j q Hq) as (cl2 & Hcl2 & Ha2).
    cbn [fst wg set_wg] in Hclp, Hclq.
    rewrite Hcl1 in Hclp. rewrite Hcl2 in Hclq.
    injection Hclp as <-. injection Hclq as <-.
    rewrite Ha1, Ha2 in Heq.
    apply (inj (String.app "10.0.0.")) in Heq.
    apply (inj (pretty : nat -> string)) in Heq. lia.
Qed.

Lemma clients_partition_witness :
  exists experiment,
    (TraceCollectionExperiment.init Scenario.obliging (Some "root@gateway")
       [Some "root@client1"; Some "root@client2"]
       ["https://a.com"; "https://b.com:8443/x"; "https://c.org";
        "https://d.org"; "https://e.org"]
       (Some "/ckpt") 2 "192.0.2.1" (Scenario.options {[ "tcp" := 4 ]})
       Scenario.initial).2 = Ok experiment
    /\ length (TraceCollectionExperiment.clients experiment) = 2%nat
    /\ BrowserPeer.urls
         <$> TraceCollectionExperiment.clients experiment
       = [ ["https://a.com"; "https://c.org"; "https://e.org"];
           ["https://d.org"] ].
Proof.
  eexists. split; [vm_compute; reflexivity|]. split.
  - refine (proj1 (clients_partition Scenario.obliging (Some "root@gateway")
              [Some "root@client1"; Some "root@client2"]
              ["https://a.com"; "https://b.com:8443/x"; "https://c.org";
               "https://d.org"; "https://e.org"]
              (Some "/ckpt") 2 "192.0.2.1" (Scenario.options {[ "tcp" := 4 ]})
              Scenario.initial _ _ _)).
    + discriminate.
    + vm_compute. reflexivity.
  - vm_compute. reflexivity.
Defined.

End Claims.
(** * Further properties of the script *)

Section Extras.
Import PyNum PyNumFacts PyStr PyStrFacts PyPathFacts Planner PlannerFacts.
Import Wireguard WireguardFacts.
Import FetchWithVpn FetchFacts MoreFacts.

(** X1.  [_make_counter] gives every version that occurs in [versions]
    the count [repetitions] times its number of occurrences, and has no
    other key. *)
Theorem make_counter_counts (versions : list string) (repetitions : Z)
    (v : string) :
  make_counter versions repetitions !! v
  = if decide (v ∈ versions)
    then Some (repetitions * occurrences v versions)
    else None.
Proof.
  unfold make_counter. rewrite make_counter_fold.
  destruct (decide (v ∈ versions)); [|apply lookup_empty].
  unfold count. rewrite lookup_empty. simpl. f_equal; lia.
Qed.

(** X2.  Within the bounds where the division is exact, [n] rounds of
    the planned batch cover what every peer still needs of every
    category, and one fetch fewer per round would not cover the peer
    that needs most. *)
Theorem batch_covers_in_n_rounds
    (remaining : gmap string (gmap string Z)) (n : Z) :
  1 <= n -> n < 2 ^ 1075 -> counts_below (2 ^ 53) remaining ->
  exists plan,
    batch remaining n = Ok plan
    /\ (forall peer ctr k v,
          remaining !! peer = Some ctr -> ctr !! k = Some v -> 0 < v ->
          exists q, plan !! k = Some q /\ v <= n * q)
    /\ (forall k q,
          plan !! k = Some q ->
          exists peer ctr v,
            remaining !! peer = Some ctr /\ ctr !! k = Some v
            /\ n * (q - 1) < v).
Proof.
  intros Hn Hnmax Hbound. eexists. split; [apply batch_bounded; assumption|].
  split.
  - intros peer ctr k v Hp Hc Hpos.
    destruct (merged_positive remaining peer k ctr v Hp Hc Hpos)
      as (w & Hw & Hle).
    exists (exact_ceil w n). rewrite lookup_fmap, Hw. split; [reflexivity|].
    pose proof (exact_ceil_bounds w n ltac:(lia)). lia.
  - intros k q. rewrite lookup_fmap.
    destruct (counter_pos (merge_remaining remaining) !! k) as [w|] eqn:Hw;
      [|discriminate].
    intros [= <-]. apply counter_pos_lookup in Hw as [Hw _].
    destruct (merged_seen remaining k w Hw) as (_ & (peer & ctr & Hp & Hc) & _).
    exists peer, ctr, w. split; [exact Hp|]. split; [exact Hc|].
    pose proof (exact_ceil_bounds w n ltac:(lia)). lia.
Qed.

Lemma batch_covers_in_n_rounds_witness :
  exists plan,
    batch test_counters 4 = Ok plan
    /\ exists q, plan !! "tcp" = Some q /\ 110 <= 4 * q.
Proof.
  destruct (batch_covers_in_n_rounds test_counters 4)
    as (plan & Hplan & Hcover & _).
  - lia.
  - reflexivity.
  - unfold counts_below. apply (bool_decide_unpack _). vm_compute. exact I.
  - exists plan. split; [exact Hplan|].
    apply (Hcover "b.com" {[ "Q043" := 30; "Q046" := 40; "tcp" := 110 ]}
             "tcp" 110).
    + vm_compute. reflexivity.
    + vm_compute. reflexivity.
    + lia.
Defined.

(** X3.  When no peer has a positive count, [batch] returns the empty
    plan for every batch count, zero and negative ones included: no
    division takes place. *)
Theorem batch_nothing_positive
    (remaining : gmap string (gmap string Z)) (n : Z) :
  (forall k, nowhere_positive remaining k) -> batch remaining n = Ok ∅.
Proof.
  intros Hnowhere. unfold batch.
  rewrite (merged_nowhere remaining Hnowhere).
  unfold ceil_items. apply map_fold_empty.
Qed.

Lemma batch_nothing_positive_witness :
  batch {[ "a.com" := {[ "Q043" := 0; "tcp" := -2 ]} ]} 0 = Ok ∅.
Proof.
  apply batch_nothing_positive.
  intros k peer ctr v Hp Hc.
  apply lookup_singleton_Some in Hp as [_ <-].
  destruct (decide (k = "Q043")) as [->|Hq].
  - rewrite lookup_insert_eq in Hc. injection Hc as <-. lia.
  - rewrite lookup_insert_ne in Hc by congruence.
    apply lookup_singleton_Some in Hc as [_ <-]. lia.
Defined.

(** X4.  With [n_batches = 0] and a positive count somewhere, [batch]
    raises [ZeroDivisionError], and so does [BrowserPeer.run], before it
    has pushed a config or invoked the collector: the state is
    unchanged. *)
Theorem zero_batches_raise (env : Env) (self : BrowserPeer.t) (st : State)
    (url k : string) (ctr : gmap string Z) (v : Z) :
  let remaining :=
    filter_by_checkpoint env (BrowserPeer.urls self)
      (BrowserPeer.load_checkpoint env self st)
      (version_ctr (BrowserPeer.fetch_options self))
      (max_attempts (BrowserPeer.fetch_options self)) in
  BrowserPeer.n_batches self = 0 ->
  remaining !! url = Some ctr -> ctr !! k = Some v -> 0 < v ->
  batch remaining 0 = Raise ZeroDivisionError
  /\ BrowserPeer.run env self st = (st, Raise ZeroDivisionError).
Proof.
  intros remaining Hzero Hurl Hk Hpos.
  assert (batch remaining 0 = Raise ZeroDivisionError) as Hbatch.
  { unfold batch. apply ceil_items_zero. intros Hempty.
    destruct (merged_positive remaining url k ctr v Hurl Hk Hpos)
      as (w & Hw & _).
    rewrite Hempty, lookup_empty in Hw. discriminate. }
  split; [exact Hbatch|].
  unfold BrowserPeer.run, BrowserPeer.recover_from_checkpoint.
  run_cmd. fold remaining. rewrite Hzero, Hbatch. reflexivity.
Qed.

Lemma zero_batches_raise_witness :
  BrowserPeer.run Scenario.obliging (Scenario.agent 4 0) Scenario.configured
  = (Scenario.configured, Raise ZeroDivisionError).
Proof.
  refine (proj2 (zero_batches_raise Scenario.obliging (Scenario.agent 4 0)
                   Scenario.configured "https://a.com" "tcp"
                   {[ "tcp" := 4 ]} 4 _ _ _ _)).
  - reflexivity.
  - vm_compute. reflexivity.
  - vm_compute. reflexivity.
  - lia.
Defined.

(** X5.  When the coordinator's [try] ends with an [Exception], that
    exception is one that a client task raised, and no task has been
    cancelled: every task has finished with the result it was heading
    for. *)
Theorem failure_cancels_nobody (ts : list task) (e : pyexc) :
  (TraceCollectionExperiment.supervise ts).2 = Raise e ->
  asyncio.is_Exception e = true ->
  (TraceCollectionExperiment.supervise ts).1 = asyncio.finish <$> ts
  /\ exists i t, ts !! i = Some t /\ asyncio.finish t = Finished (Raise e).
Proof.
  intros Hraise Hexc. split.
  - apply (supervise_failure ts e Hraise Hexc).
  - apply (supervise_raises_original ts e Hraise).
Qed.

Lemma failure_cancels_nobody_witness :
  (TraceCollectionExperiment.supervise
     [ Pending 2 (Ok "/ckpt/peer-10_0_0_2.state");
       Pending 0 (Raise ValueError);
       Pending 7 (Ok "/ckpt/peer-10_0_0_4.state") ]).1
  = [ Finished (Ok "/ckpt/peer-10_0_0_2.state");
      Finished (Raise ValueError);
      Finished (Ok "/ckpt/peer-10_0_0_4.state") ].
Proof.
  refine (proj1 (failure_cancels_nobody
                   [ Pending 2 (Ok "/ckpt/peer-10_0_0_2.state");
                     Pending 0 (Raise ValueError);
                     Pending 7 (Ok "/ckpt/peer-10_0_0_4.state") ]
                   ValueError _ _)); reflexivity.
Defined.

(** X6.  When every client task succeeds, the coordinator returns their
    checkpoint paths in the order of the clients, whatever the order in
    which the tasks finish. *)
Theorem success_in_client_order (ts : list task) (ps : list string) :
  Forall2 (fun t p => asyncio.heads_for p t) ts ps ->
  TraceCollectionExperiment.supervise ts
  = ((fun p => Finished (Ok p)) <$> ps, Ok ps).
Proof.
  intros Hheads. unfold TraceCollectionExperiment.supervise.
  rewrite (await_gather_success _ ts ps Hheads (le_n _)).
  rewrite omap_all_ok. reflexivity.
Qed.

Lemma success_in_client_order_witness :
  (TraceCollectionExperiment.supervise
     [ Pending 3 (Ok "/ckpt/peer-10_0_0_2.state");
       Pending 1 (Ok "/ckpt/peer-10_0_0_3.state") ]).2
  = Ok [ "/ckpt/peer-10_0_0_2.state"; "/ckpt/peer-10_0_0_3.state" ].
Proof.
  rewrite (success_in_client_order _
             [ "/ckpt/peer-10_0_0_2.state"; "/ckpt/peer-10_0_0_3.state" ]).
  - reflexivity.
  - repeat constructor.
Defined.

(** X7.  When the health check of [start] fails after the container was
    launched, [run] raises that error without creating a task and
    without calling [stop]: the container id stays recorded and neither
    [docker stop] nor [docker rm] is issued. *)
Theorem failed_health_check_skips_stop (env : Env)
    (create_task : BrowserPeer.t -> task)
    (self : TraceCollectionExperiment.t) (st : State)
    (text pushed output : string) (e : pyexc) :
  let gw := TraceCollectionExperiment.gateway self in
  let put := PutText (WireguardGateway.node gw) text "/tmp/wg0.conf" in
  let launch :=
    DockerWgGateway (WireguardGateway.node gw) ["start"; "/tmp/wg0.conf"] in
  let inspect :=
    Docker (WireguardGateway.node gw)
      ["container"; "inspect"; "--format"; "{{ .State.Running }}";
       strip output] in
  let final := TraceCollectionExperiment.run env create_task self st in
  gateway_to_string (wg st) (WireguardGateway.wg_conf gw) = Ok text ->
  shell env (history st) put = Ok pushed ->
  shell env (history st ++ [put]) launch = Ok output ->
  shell env ((history st ++ [put]) ++ [launch]) inspect = Raise e ->
  final.2 = Raise e
  /\ container_id final.1 = Some (strip output)
  /\ tasks final.1 = tasks st
  /\ history final.1 = history st ++ [put; launch; inspect].
Proof.
  intros gw put launch inspect final Htext Hput Hlaunch Hinspect.
  subst final. unfold TraceCollectionExperiment.run, async_with,
    WireguardGateway.aenter, WireguardGateway.start, SSHNode.put_text,
    SSHNode.docker, exec.
  run_cmd. fold gw. rewrite Htext. fold put. rewrite Hput.
  destruct (SSHNode.is_localhost (WireguardGateway.node gw)); simpl;
    fold put launch; rewrite Hlaunch; simpl; fold inspect;
    rewrite Hinspect; simpl;
    rewrite <- !app_assoc; repeat split; reflexivity.
Qed.

Lemma failed_health_check_skips_stop_witness :
  let final :=
    TraceCollectionExperiment.run Scenario.unhealthy Scenario.first_fails
      Scenario.two_agents Scenario.configured in
  final.2 = Raise (ErrorReturnCode 1)
  /\ container_id final.1 = Some "c0ffee"
  /\ tasks final.1 = [].
Proof.
  intros final.
  destruct (failed_health_check_skips_stop Scenario.unhealthy
              Scenario.first_fails Scenario.two_agents Scenario.configured
              (join_lines
                 [ "[Interface]"; "PrivateKey = privkey";
                   "Address = 10.0.0.1/24"; "ListenPort = 51888";
                   "PostUp = iptables -t nat -A POSTROUTING -o eth0 -j MASQUERADE";
                   "PostDown = iptables -t nat -D POSTROUTING -o eth0 -j MASQUERADE";
                   "";
                   "[Peer]"; "PublicKey = client1_pubkey";
                   "AllowedIPs = 10.0.0.2/32"; "";
                   "[Peer]"; "PublicKey = client2_pubkey";
                   "AllowedIPs = 10.0.0.3/32"; "" ])
              "" ("c0ffee" +:+ newline) (ErrorReturnCode 1))
    as (Hraise & Hid & Htasks & _).
  - vm_compute. reflexivity.
  - reflexivity.
  - reflexivity.
  - reflexivity.
  - split; [exact Hraise|]. split; [exact Hid|exact Htasks].
Defined.

(** X8.  [set_clients] replaces the client list: afterwards the gateway
    lists exactly the new clients, whatever was attached before.  A
    client of the old list that is not in the new one is not told: it
    keeps its reference to the gateway. *)
Theorem set_clients_replaces (st : Store) (g c : ref) (gw : GatewayConfig)
    (cl : ClientConfig) (old new : list ref) :
  gateway_objs st !! g = Some gw ->
  client_objs st !! c = Some cl ->
  c ∈ old -> c ∉ new ->
  let st' := set_clients g new (set_clients g old st) in
  gateway_objs st' !! g
  = Some {| gateway_basic := gateway_basic gw; clients := new |}
  /\ client_objs st' !! c
     = Some {| client_basic := client_basic cl; gateway := Some g |}.
Proof.
  intros Hg Hc Hold Hnew st'. subst st'. split.
  - rewrite (set_clients_gateway _ g
               {| gateway_basic := gateway_basic gw; clients := old |} new).
    + reflexivity.
    + apply set_clients_gateway. exact Hg.
  - rewrite (set_clients_client _ g new c
               {| client_basic := client_basic cl; gateway := Some g |}).
    + rewrite decide_False by exact Hnew. reflexivity.
    + rewrite (set_clients_client st g old c cl Hc).
      rewrite decide_True by exact Hold. reflexivity.
Qed.

Lemma set_clients_replaces_witness :
  clients <$> gateway_objs (set_clients 0%nat [2%nat] test_store) !! 0%nat
  = Some [2%nat]
  /\ gateway <$> client_objs (set_clients 0%nat [2%nat] test_store) !! 1%nat
     = Some (Some 0%nat).
Proof.
  pose (st := new_client 2%nat "10.0.0.3" "client2_privkey" "client2_pubkey"
      (new_client 1%nat "10.0.0.2" "client1_privkey" "client1_pubkey"
        (new_gateway 0%nat "localhost" "privkey" "pubkey" empty_store))).
  destruct (set_clients_replaces st 0%nat 1%nat
              {| gateway_basic :=
                   basic_config "10.0.0.1" "privkey" "pubkey"
                     (Some "localhost"%string);
                 clients := [] |}
              {| client_basic :=
                   basic_config "10.0.0.2" "client1_privkey"
                     "client1_pubkey" None;
                 gateway := None |}
              [1%nat; 2%nat] [2%nat]) as [Hgw Hcl].
  - reflexivity.
  - reflexivity.
  - left.
  - intros Hin. apply list_elem_of_singleton in Hin. discriminate.
  - split.
    + exact (f_equal (fmap clients) Hgw).
    + exact (f_equal (fmap gateway) Hcl).
Defined.

(** X9.  In a constructed experiment agent [i] owns the checkpoint file
    peer-10_0_0_(i+2).state in the checkpoint directory (the one given,
    or /tmp/checkpoints-<ns>), with the path that [pathlib] makes of the
    two, and no two agents write to the same checkpoint file. *)
Theorem checkpoint_paths_distinct (env : Env) (gateway_node : SSHNode.t)
    (client_nodes : list SSHNode.t) (all_urls : list string)
    (checkpoint_dir : option string) (batches : Z) (endpoint : string)
    (options : FetchOptions) (st : State)
    (experiment : TraceCollectionExperiment.t) :
  let built :=
    TraceCollectionExperiment.init env gateway_node client_nodes all_urls
      checkpoint_dir batches endpoint options st in
  let agents := TraceCollectionExperiment.clients experiment in
  built.2 = Ok experiment ->
  (exists dir,
     match checkpoint_dir with
     | Some given => dir = given
     | None => exists ns, dir = ("/tmp/checkpoints-" +:+ ns)%string
     end
     /\ forall i peer,
          agents !! i = Some peer ->
          BrowserPeer.checkpoint_path peer
          = PyPath.to_str
              (PyPath.joinpath (PyPath.of_str dir)
                 ("peer-10_0_0_" +:+ pretty (i + 2)%nat +:+ ".state")))
  /\ forall i j p q,
       i <> j -> agents !! i = Some p -> agents !! j = Some q ->
       BrowserPeer.checkpoint_path p <> BrowserPeer.checkpoint_path q.
Proof.
  intros built agents Hok.
  destruct (experiment_store env gateway_node client_nodes all_urls
              checkpoint_dir batches endpoint options st experiment Hok)
    as (_ & _ & dir & Hdir & Hpaths).
  fold agents in Hpaths.
  split; [exists dir; split; [exact Hdir|exact Hpaths]|].
  intros i j p q Hij Hp Hq Heq.
  rewrite (Hpaths i p Hp), (Hpaths j q Hq) in Heq.
  assert (forall n : nat,
            PyPath.joinpath (PyPath.of_str dir)
              ("peer-10_0_0_" +:+ pretty n +:+ ".state")
            = {| PyPath.root := PyPath.root (PyPath.of_str dir);
                 PyPath.parts :=
                   PyPath.parts (PyPath.of_str dir)
                     ++ ["peer-10_0_0_" +:+ pretty n +:+ ".state"] |})
    as Hjoin.
  { intros n. apply joinpath_component.
    - rewrite !free_of_app, pretty_nat_free by reflexivity. reflexivity.
    - apply kept_app; [reflexivity|discriminate]. }
  rewrite !Hjoin in Heq.
  destruct (to_str_snoc (PyPath.root (PyPath.of_str dir))
              (PyPath.parts (PyPath.of_str dir))) as [pre Hpre].
  rewrite !Hpre in Heq.
  apply (inj (String.app pre)) in Heq.
  apply (inj (String.app "peer-10_0_0_")) in Heq.
  apply string_app_inj_r in Heq.
  apply (inj (pretty : nat -> string)) in Heq. lia.
Qed.

Example checkpoint_in_current_directory :
  BrowserPeer.checkpoint_path
    <$> (BrowserPeer.init Scenario.obliging 1%nat [] "." None 2
           (Scenario.options {[ "tcp" := 4 ]}) Scenario.configured).2
  = Ok "peer-10_0_0_2.state".
Proof. vm_compute. reflexivity. Qed.

Lemma checkpoint_paths_distinct_witness :
  exists experiment,
    (TraceCollectionExperiment.init Scenario.obliging (Some "root@gateway")
       [Some "root@client1"; Some "root@client2"]
       ["https://a.com"; "https://b.com:8443/x"; "https://c.org"]
       (Some "/ckpt") 2 "192.0.2.1" (Scenario.options {[ "tcp" := 4 ]})
       Scenario.initial).2 = Ok experiment
    /\ forall i j p q,
         i <> j ->
         TraceCollectionExperiment.clients experiment !! i = Some p ->
         TraceCollectionExperiment.clients experiment !! j = Some q ->
         BrowserPeer.checkpoint_path p <> BrowserPeer.checkpoint_path q.
Proof.
  eexists. split; [vm_compute; reflexivity|].
  refine (proj2 (checkpoint_paths_distinct Scenario.obliging
            (Some "root@gateway") [Some "root@client1"; Some "root@client2"]
            ["https://a.com"; "https://b.com:8443/x"; "https://c.org"]
            (Some "/ckpt") 2 "192.0.2.1" (Scenario.options {[ "tcp" := 4 ]})
            Scenario.initial _ _)).
  vm_compute. reflexivity.
Defined.

(** X10.  In a constructed experiment the gateway's config lists one
    peer per agent, in agent order, with the agent's address
    10.0.0.(i+2)/32.  Every agent's own config renders, with the
    gateway's key and [gateway_endpoint], exactly when
    [gateway_endpoint] is not the empty string; with the constructor's
    default [""] rendering raises [AssertionError] for every agent. *)
Theorem experiment_configs_render (env : Env) (gateway_node : SSHNode.t)
    (client_nodes : list SSHNode.t) (all_urls : list string)
    (checkpoint_dir : option string) (batches : Z) (endpoint : string)
    (options : FetchOptions) (st : State)
    (experiment : TraceCollectionExperiment.t) :
  let built :=
    TraceCollectionExperiment.init env gateway_node client_nodes all_urls
      checkpoint_dir batches endpoint options st in
  let agents := TraceCollectionExperiment.clients experiment in
  let g := WireguardGateway.wg_conf
             (TraceCollectionExperiment.gateway experiment) in
  built.2 = Ok experiment ->
  (exists lines,
     gateway_config_lines (wg built.1) g = Ok lines
     /\ count_header "[Interface]" lines = 1%nat
     /\ count_header "[Peer]" lines = length agents
     /\ forall i peer,
          agents !! i = Some peer ->
          lines !! (7 + 4 * i)%nat = Some "[Peer]"%string
          /\ lines !! (7 + 4 * i + 2)%nat
             = Some ("AllowedIPs = 10.0.0." +:+ pretty (i + 2)%nat +:+ "/32"))
  /\ exists gateway_key,
       forall i peer,
         agents !! i = Some peer ->
         (endpoint = ""%string ->
          client_to_string (wg built.1) (BrowserPeer.wg_conf peer)
          = Raise AssertionError)
         /\ (endpoint <> ""%string ->
             exists private,
               client_to_string (wg built.1) (BrowserPeer.wg_conf peer)
               = Ok (join_lines
                       [ "[Interface]";
                         "PrivateKey = " +:+ private;
                         "Address = 10.0.0." +:+ pretty (i + 2)%nat +:+ "/32";
                         "";
                         "[Peer]";
                         "PublicKey = " +:+ gateway_key;
                         "Endpoint = " +:+ endpoint +:+ ":51888";
                         "AllowedIPs = 0.0.0.0/0";
                         "" ]%string)).
Proof.
  intros built agents g Hok.
  destruct (experiment_store env gateway_node client_nodes all_urls
              checkpoint_dir batches endpoint options st experiment Hok)
    as ((private & public & Hgw) & Hclients & _).
  fold built agents g in Hgw, Hclients.
  split.
  - destruct (exists_indexed
                (fun i peer (cl : ClientConfig) =>
                   client_objs (wg built.1) !! BrowserPeer.wg_conf peer
                     = Some cl
                   /\ address cl = "10.0.0." +:+ pretty (i + 2)%nat)
                agents 0%nat) as (ccs & Hlen & Hccs).
    { intros i peer Hi. destruct (Hclients i peer Hi) as (cl & Hcl & Ha & _).
      exists cl. split; [exact Hcl|exact Ha]. }
    assert (gateway_config_lines (wg built.1) g
            = Ok (interface_lines
                    {| gateway_basic :=
                         basic_config "10.0.0.1" private public (Some endpoint);
                       clients := BrowserPeer.wg_conf <$> agents |}
                  ++ concat (peer_lines <$> ccs))%list) as Hlines.
    { unfold gateway_config_lines, get_gateway. rewrite Hgw. simpl.
      apply (fold_peer_lines _ (BrowserPeer.wg_conf <$> agents) ccs).
      apply Forall2_same_length_lookup. split.
      - rewrite length_fmap. exact Hlen.
      - intros i c cl Hc Hcl. rewrite list_lookup_fmap in Hc.
        destruct (agents !! i) as [peer|] eqn:Hi; [|discriminate].
        injection Hc as <-.
        destruct (Hccs i peer cl Hi Hcl) as [Hobj _].
        exists cl. split; [exact Hobj|reflexivity]. }
    eexists. split; [exact Hlines|].
    destruct (count_header_peer_blocks ccs) as [Hpk Hi0].
    split; [|split].
    + rewrite count_header_app, Hi0. reflexivity.
    + rewrite count_header_app, Hpk, Hlen. reflexivity.
    + intros i peer Hi.
      destruct (lookup_lt_is_Some_2 ccs i) as [cl Hcl].
      { rewrite <- Hlen. eapply lookup_lt_Some. exact Hi. }
      destruct (Hccs i peer cl Hi Hcl) as [_ Ha]. simpl in Ha.
      split.
      * rewrite lookup_app_r by (simpl; lia).
        replace (7 + 4 * i - length (interface_lines _))%nat
          with (4 * i + 0)%nat by (simpl; lia).
        rewrite (peer_block_lookup ccs i 0 cl Hcl) by lia. reflexivity.
      * rewrite lookup_app_r by (simpl; lia).
        replace (7 + 4 * i + 2 - length (interface_lines _))%nat
          with (4 * i + 2)%nat by (simpl; lia).
        rewrite (peer_block_lookup ccs i 2 cl Hcl) by lia.
        simpl. rewrite Ha. reflexivity.
  - exists public. intros i peer Hi.
    destruct (Hclients i peer Hi) as (cl & Hcl & Ha & Hg).
    unfold client_to_string, client_config_lines, get_client, get_gateway.
    rewrite Hcl. simpl. rewrite Hg, Hgw. simpl. rewrite Ha. simpl.
    split.
    + intros ->. reflexivity.
    + intros Hne. destruct endpoint as [|a ep]; [contradiction|].
      exists (private_key cl). reflexivity.
Qed.

Lemma experiment_configs_render_witness :
  exists experiment,
    (TraceCollectionExperiment.init Scenario.obliging (Some "root@gateway")
       [Some "root@client1"; Some "root@client2"]
       ["https://a.com"; "https://b.com:8443/x"; "https://c.org"]
       (Some "/ckpt") 2 "" (Scenario.options {[ "tcp" := 4 ]})
       Scenario.initial).2 = Ok experiment
    /\ forall i peer,
         TraceCollectionExperiment.clients experiment !! i = Some peer ->
         client_to_string
           (wg (TraceCollectionExperiment.init Scenario.obliging
                  (Some "root@gateway")
                  [Some "root@client1"; Some "root@client2"]
                  ["https://a.com"; "https://b.com:8443/x"; "https://c.org"]
                  (Some "/ckpt") 2 "" (Scenario.options {[ "tcp" := 4 ]})
                  Scenario.initial).1)
           (BrowserPeer.wg_conf peer)
         = Raise AssertionError.
Proof.
  eexists. split; [vm_compute; reflexivity|].
  destruct (experiment_configs_render Scenario.obliging
              (Some "root@gateway") [Some "root@client1"; Some "root@client2"]
              ["https://a.com"; "https://b.com:8443/x"; "https://c.org"]
              (Some "/ckpt") 2 "" (Scenario.options {[ "tcp" := 4 ]})
              Scenario.initial _ ltac:(vm_compute; reflexivity))
    as (_ & key & Hrender).
  intros i peer Hi. apply (Hrender i peer Hi). reflexivity.
Defined.

(** X11.  The checkpoint is append-only.  For an agent whose bulk log
    and pushed config are other files than its checkpoint (as the
    names that [__init__] gives them are), whatever a run does and
    however it ends, raised or cancelled: the lines that were in the
    checkpoint file are still there, in front of what the run has
    added, so the outcomes loaded afterwards begin with the outcomes
    loaded before.  Apart from the checkpoint the run writes only the
    bulk log and, on the localhost, the pushed config: every other file
    is unchanged. *)
Theorem checkpoint_append_only (env : Env) (self : BrowserPeer.t)
    (st : State) :
  let path := BrowserPeer.checkpoint_path self in
  let final := (BrowserPeer.run env self st).1 in
  BrowserPeer.bulk_log self <> path ->
  BrowserPeer.remote_config self <> path ->
  (forall p,
     p <> path -> p <> BrowserPeer.bulk_log self ->
     (SSHNode.is_localhost (BrowserPeer.node self) = true ->
      p <> BrowserPeer.remote_config self) ->
     files final !! p = files st !! p)
  /\ exists added,
       default [] (files final !! path)
       = default [] (files st !! path) ++ added
       /\ BrowserPeer.load_checkpoint env self final
          = BrowserPeer.load_checkpoint env self st
            ++ (decode_result env <$> added).
Proof.
  intros path final Hlog Hconf.
  destruct (run_files env self st) as [Hother Hgrown].
  fold path final in Hother, Hgrown.
  split; [exact Hother|].
  destruct (Hgrown (fun _ => Hconf)) as (added & Hadded).
  exists added. split; [exact Hadded|].
  assert (forall s : State,
            BrowserPeer.load_checkpoint env self s
            = decode_result env <$> default [] (files s !! path)) as Hload.
  { intros s. unfold BrowserPeer.load_checkpoint. fold path.
    destruct (files s !! path); reflexivity. }
  rewrite !Hload, Hadded, fmap_app. reflexivity.
Qed.

Lemma checkpoint_append_only_witness :
  let final :=
    (BrowserPeer.run Scenario.interrupted (Scenario.agent 4 2)
       (Scenario.checkpointed 1)).1 in
  (exists added,
     files final !! "/ckpt/peer-10_0_0_2.state"%string
     = Some ("https://a.com tcp"%string :: added))
  /\ files final !! "/ckpt/peer-10_0_0_3.state"%string = None.
Proof.
  intros final.
  destruct (checkpoint_append_only Scenario.interrupted (Scenario.agent 4 2)
              (Scenario.checkpointed 1))
    as (Hother & added & Hadded & _).
  - discriminate.
  - discriminate.
  - split.
    + exists added.
      assert (default [] (files final !! "/ckpt/peer-10_0_0_2.state"%string)
              = "https://a.com tcp"%string :: added) as Hlines
        by exact Hadded.
      destruct (files final !! "/ckpt/peer-10_0_0_2.state"%string)
        as [lines|]; simpl in Hlines; [|discriminate].
      rewrite Hlines. reflexivity.
    + fold final in Hother.
      rewrite (Hother "/ckpt/peer-10_0_0_3.state"%string);
        [reflexivity|discriminate|discriminate|discriminate].
Defined.

(** X12.  The text of a gateway config whose keys and addresses hold no
    newline has the config lines as its lines: splitting the text at the
    newlines gives back the list that [to_string] joined, so the text has
    one [[Interface]] line and one [[Peer]] line per client of the
    gateway. *)
Theorem gateway_text_lines (st : Store) (g : ref) (gw : GatewayConfig) :
  gateway_objs st !! g = Some gw ->
  single_line (private_key gw) = true ->
  single_line (address gw) = true ->
  Forall (fun c => exists cl : ClientConfig,
            client_objs st !! c = Some cl /\
            single_line (public_key cl) = true /\
            single_line (address cl) = true) (clients gw) ->
  exists lines text,
    gateway_config_lines st g = Ok lines /\
    gateway_to_string st g = Ok text /\
    split_lines text = lines /\
    count_header "[Interface]" (split_lines text) = 1%nat /\
    count_header "[Peer]" (split_lines text) = length (clients gw).
Proof.
  intros Hg Hkey Haddr Hcs.
  destruct (clients_allocated st _ _ Hcs) as (ccs & Hall & Hsingle).
  assert (gateway_config_lines st g
          = Ok (interface_lines gw ++ concat (peer_lines <$> ccs))%list)
    as Hlines.
  { unfold gateway_config_lines, get_gateway. rewrite Hg. simpl.
    apply (fold_peer_lines _ (clients gw) ccs).
    eapply Forall2_impl; [exact Hall|]. intros c cl Hc.
    exists cl. split; [exact Hc | reflexivity]. }
  exists (interface_lines gw ++ concat (peer_lines <$> ccs))%list.
  exists (join_lines (interface_lines gw ++ concat (peer_lines <$> ccs))%list).
  split; [exact Hlines|]. split.
  { unfold gateway_to_string. rewrite Hlines. reflexivity. }
  assert (split_lines
            (join_lines (interface_lines gw ++ concat (peer_lines <$> ccs))%list)
          = (interface_lines gw ++ concat (peer_lines <$> ccs))%list) as Hsplit.
  { apply split_join_lines; [discriminate|].
    apply Forall_app_2.
    - apply interface_lines_single; assumption.
    - apply peer_blocks_single. exact Hsingle. }
  split; [exact Hsplit|]. rewrite Hsplit.
  destruct (count_header_interface gw) as [Hi1 Hp0].
  destruct (count_header_peer_blocks ccs) as [Hp Hi].
  rewrite !count_header_app, Hi1, Hp0, Hp, Hi.
  rewrite (Forall2_length _ _ _ Hall). split; [lia | reflexivity].
Qed.

Lemma gateway_text_lines_witness :
  exists text,
    gateway_to_string test_store 0%nat = Ok text /\
    count_header "[Peer]" (split_lines text) = 2%nat.
Proof.
  pose (gw := {| gateway_basic :=
                   basic_config "10.0.0.1" "privkey" "pubkey"
                     (Some "localhost"%string);
                 clients := [1%nat; 2%nat] |}).
  assert (Forall (fun c => exists cl : ClientConfig,
            client_objs test_store !! c = Some cl /\
            single_line (public_key cl) = true /\
            single_line (address cl) = true) (clients gw)) as Hcs.
  { repeat constructor; eexists; (split; [vm_compute; reflexivity|]);
      split; reflexivity. }
  destruct (gateway_text_lines test_store 0%nat gw
              eq_refl eq_refl eq_refl Hcs)
    as (lines & text & _ & Htext & _ & _ & Hpeers).
  exists text. split; [exact Htext | exact Hpeers].
Defined.

(** X13.  With a negative [n_batches] and a positive count left, the plan
    that [batch] returns is not empty but asks for nothing: its keys are
    there with counts of zero or below.  [BrowserPeer.run] then takes
    the plan for work to do, pushes the client's config, runs no round
    at all ([range] of a negative number is empty) and returns the
    checkpoint path; the pushed config is the only file written, and
    only on the localhost. *)
Theorem negative_batches_collect_nothing (env : Env) (self : BrowserPeer.t)
    (st : State) (url k : string) (ctr batch_ctr : gmap string Z) (v : Z)
    (text : string) :
  let remaining :=
    filter_by_checkpoint env (BrowserPeer.urls self)
      (BrowserPeer.load_checkpoint env self st)
      (version_ctr (BrowserPeer.fetch_options self))
      (max_attempts (BrowserPeer.fetch_options self)) in
  let put := PutText (BrowserPeer.node self) text
               (BrowserPeer.remote_config self) in
  BrowserPeer.n_batches self < 0 ->
  remaining !! url = Some ctr -> ctr !! k = Some v -> 0 < v ->
  batch remaining (BrowserPeer.n_batches self) = Ok batch_ctr ->
  Wireguard.client_to_string (wg st) (BrowserPeer.wg_conf self) = Ok text ->
  (exists q, batch_ctr !! k = Some q)
  /\ (forall k' q, batch_ctr !! k' = Some q -> q <= 0)
  /\ BrowserPeer.run env self st
     = match shell env (history st) put with
       | Raise e => (record_command put st, Raise e)
       | Ok _ =>
           (if SSHNode.is_localhost (BrowserPeer.node self)
            then set_files
                   <[BrowserPeer.remote_config self := split_lines text]>
                   (record_command put st)
            else record_command put st,
            Ok (BrowserPeer.checkpoint_path self))
       end.
Proof.
  intros remaining put Hneg Hurl Hk Hpos Hbatch Htext.
  pose proof (ceil_items_ok _ _ _ Hbatch) as Hplan.
  assert (exists q, batch_ctr !! k = Some q) as Hkey.
  { destruct (merged_positive remaining url k ctr v Hurl Hk Hpos)
      as (w & Hw & _).
    specialize (Hplan k). rewrite Hw in Hplan.
    destruct Hplan as (q & _ & Hq). exists q. exact Hq. }
  split; [exact Hkey|]. split.
  - intros k' q Hq. specialize (Hplan k').
    destruct (counter_pos (merge_remaining remaining) !! k') as [w|] eqn:Hw.
    + destruct Hplan as (q' & Hceil & Hq'). rewrite Hq in Hq'.
      injection Hq' as <-.
      apply counter_pos_lookup in Hw as [_ Hwpos].
      exact (ceil_truediv_negative w _ q Hwpos Hneg Hceil).
    + rewrite Hq in Hplan. discriminate.
  - assert (batch_ctr <> ∅) as Hnonempty.
    { intros ->. destruct Hkey as (q & Hq).
      rewrite lookup_empty in Hq. discriminate. }
    rewrite (run_unfold env self st batch_ctr text Hbatch Hnonempty Htext).
    rewrite put_text_unfold. fold put.
    replace (Z.to_nat (BrowserPeer.n_batches self)) with 0%nat by lia.
    destruct (shell env (history st) put); reflexivity.
Qed.

Lemma negative_batches_collect_nothing_witness :
  exists put,
    history (BrowserPeer.run Scenario.obliging (Scenario.agent 4 (-3))
               Scenario.configured).1 = [put]
    /\ (BrowserPeer.run Scenario.obliging (Scenario.agent 4 (-3))
          Scenario.configured).2
       = Ok "/ckpt/peer-10_0_0_2.state"%string
    /\ batch {[ "https://a.com"%string := {[ "tcp"%string := 4 ]} ]} (-3)
       = Ok {[ "tcp"%string := -1 ]}.
Proof.
  destruct (Wireguard.client_to_string (wg Scenario.configured) 1%nat)
    as [text|e] eqn:Htext; [|vm_compute in Htext; discriminate].
  destruct (negative_batches_collect_nothing Scenario.obliging
              (Scenario.agent 4 (-3)) Scenario.configured
              "https://a.com" "tcp" {[ "tcp" := 4 ]} {[ "tcp" := -1 ]} 4 text)
    as (_ & _ & Hrun).
  - reflexivity.
  - vm_compute. reflexivity.
  - vm_compute. reflexivity.
  - lia.
  - vm_compute. reflexivity.
  - exact Htext.
  - rewrite Hrun. eexists. split; [reflexivity|].
    split; [reflexivity|]. vm_compute. reflexivity.
Defined.

(** X14.  [SSHNode.public_ip] returns the text between the first and the
    second ["@"] of the node address (up to the end when there is one
    ["@"] only), and raises [AssertionError], and nothing else, for the
    localhost and for an address without ["@"]: past the assertions the
    indexing of the split never fails. *)
Theorem public_ip_between_ats (node : SSHNode.t) :
  match SSHNode.public_ip node with
  | Ok ip =>
      exists user tail,
        node = Some (user +:+ "@" +:+ ip +:+ tail)
        /\ free_of "@" user = true /\ free_of "@" ip = true
        /\ (tail = ""%string \/ exists t, tail = ("@" +:+ t)%string)
  | Raise e =>
      e = AssertionError
      /\ (node = None \/ exists a, node = Some a /\ free_of "@" a = true)
  end.
Proof.
  destruct node as [a|]; [|simpl; split; [reflexivity|left; reflexivity]].
  destruct (free_of "@" a) eqn:Hfree.
  - unfold SSHNode.public_ip. rewrite Hfree.
    split; [reflexivity|]. right. eauto.
  - destruct (cut_at "@" a) as (user & tail1 & -> & Hu & Ht1).
    destruct Ht1 as [->|(t1 & ->)].
    + rewrite string_app_empty_r in Hfree. congruence.
    + destruct (cut_at "@" t1) as (ip & tail & -> & Hip & Ht).
      rewrite (public_ip_of user ip tail Hu Hip Ht).
      exists user, tail. split; [reflexivity|].
      split; [exact Hu|]. split; [exact Hip|exact Ht].
Qed.

(** X15.  [main] with a gateway node that has no public ip (the
    localhost, which is the default, or an address without ["@"]) and
    without [--gateway-endpoint] (or with an empty one) raises before it
    has created a directory, a key or a config: the state is unchanged.
    The exception is the [AssertionError] of [public_ip], of the
    assertion on [n_clients], or the [ValueError] of a row that does not
    unpack. *)
Theorem local_gateway_needs_endpoint (env : Env)
    (urlfile : list (list string)) (gateway_node : SSHNode.t)
    (client_node : list SSHNode.t) (n_clients : Z)
    (checkpoint_dir gateway_endpoint : option string) (n_batches : Z)
    (options : FetchOptions) (st : State) :
  Wireguard.truthy gateway_endpoint = false ->
  (gateway_node = None
   \/ exists a, gateway_node = Some a /\ free_of "@" a = true) ->
  exists e,
    main_experiment env urlfile gateway_node client_node n_clients
      checkpoint_dir gateway_endpoint n_batches options st
    = (st, Raise e)
    /\ (e = AssertionError \/ e = ValueError).
Proof.
  intros Hfalsy Hnode. unfold main_experiment.
  rewrite bind_lift.
  pose proof (client_nodes_of_inv client_node n_clients) as Hnodes.
  destruct (client_nodes_of client_node n_clients) as [nodes|e].
  2:{ destruct Hnodes as (-> & _). eauto. }
  rewrite bind_lift.
  pose proof (unpack_rows_inv urlfile) as Hrows.
  destruct (unpack_rows urlfile) as [urls|e].
  2:{ subst e. eauto. }
  rewrite bind_lift.
  assert (endpoint_of gateway_endpoint gateway_node = Raise AssertionError)
    as ->.
  { unfold endpoint_of.
    assert (SSHNode.public_ip gateway_node = Raise AssertionError) as Hip.
    { destruct Hnode as [->|(a & -> & Hfree)]; [reflexivity|].
      unfold SSHNode.public_ip. rewrite Hfree. reflexivity. }
    destruct gateway_endpoint as [[|c rest]|]; [exact Hip| |exact Hip].
    simpl in Hfalsy. discriminate. }
  eauto.
Qed.

Lemma local_gateway_needs_endpoint_witness :
  main_experiment Scenario.obliging [["https://a.com"%string]] None
    [Some "root@client1"%string] 1 (Some "/ckpt"%string) None 2
    (Scenario.options {[ "tcp"%string := 4 ]}) Scenario.initial
  = (Scenario.initial, Raise AssertionError).
Proof.
  destruct (local_gateway_needs_endpoint Scenario.obliging
              [["https://a.com"%string]] None [Some "root@client1"%string] 1
              (Some "/ckpt"%string) None 2
              (Scenario.options {[ "tcp"%string := 4 ]}) Scenario.initial
              eq_refl (or_introl eq_refl))
    as (e & Hrun & _).
  rewrite Hrun. vm_compute in Hrun. injection Hrun as <-. reflexivity.
Defined.

(** X16.  The experiment that [main] constructs has at least one agent.
    With [--n-clients n] for [n > 1] it has [n] agents, all on the one
    client node (on the localhost when no node was given); otherwise one
    agent per client node, in order.  The rows of the URL file had one
    column each.  The gateway's config carries [--gateway-endpoint]
    when that is given and not empty, and the public ip of the gateway
    node otherwise. *)
Theorem main_agents (env : Env) (urlfile : list (list string))
    (gateway_node : SSHNode.t) (client_node : list SSHNode.t)
    (n_clients : Z) (checkpoint_dir gateway_endpoint : option string)
    (n_batches : Z) (options : FetchOptions) (st : State)
    (experiment : TraceCollectionExperiment.t) :
  let built :=
    main_experiment env urlfile gateway_node client_node n_clients
      checkpoint_dir gateway_endpoint n_batches options st in
  let agents := TraceCollectionExperiment.clients experiment in
  built.2 = Ok experiment ->
  agents <> []
  /\ (1 < n_clients ->
      length agents = Z.to_nat n_clients
      /\ exists node,
           (client_node = [node] \/ client_node = [] /\ node = None)
           /\ forall peer, peer ∈ agents -> BrowserPeer.node peer = node)
  /\ (n_clients <= 1 ->
      BrowserPeer.node <$> agents
      = match client_node with [] => [None] | _ => client_node end)
  /\ (exists urls, urlfile = (fun url => [url]) <$> urls)
  /\ exists endpoint private public,
       (if Wireguard.truthy gateway_endpoint
        then gateway_endpoint = Some endpoint
        else SSHNode.public_ip gateway_node = Ok endpoint)
       /\ gateway_objs (wg built.1)
            !! WireguardGateway.wg_conf
                 (TraceCollectionExperiment.gateway experiment)
          = Some {| gateway_basic :=
                      basic_config "10.0.0.1" private public (Some endpoint);
                    clients := BrowserPeer.wg_conf <$> agents |}.
Proof.
  intros built agents Hok. subst built. unfold main_experiment in Hok |- *.
  rewrite bind_lift in Hok |- *.
  pose proof (client_nodes_of_inv client_node n_clients) as Hnodes.
  destruct (client_nodes_of client_node n_clients) as [nodes|e];
    [|discriminate].
  destruct Hnodes as (Hnonempty & Hmany & Hone).
  rewrite bind_lift in Hok |- *.
  pose proof (unpack_rows_inv urlfile) as Hrows.
  destruct (unpack_rows urlfile) as [urls|e]; [|discriminate].
  rewrite bind_lift in Hok |- *.
  destruct (endpoint_of gateway_endpoint gateway_node) as [endpoint|e]
    eqn:Hendpoint; [|discriminate].
  pose proof (experiment_nodes _ _ _ _ _ _ _ _ _ _ Hok) as Hsit.
  fold agents in Hsit.
  split.
  { intros Hnil. rewrite Hnil in Hsit. simpl in Hsit. congruence. }
  split.
  { intros Hn. destruct (Hmany Hn) as (node & Hrep & Hgiven).
    split.
    - rewrite <- (length_fmap BrowserPeer.node), Hsit, Hrep.
      apply length_replicate.
    - exists node. split; [exact Hgiven|]. intros peer Hpeer.
      assert (BrowserPeer.node peer ∈ BrowserPeer.node <$> agents) as Hin.
      { apply list_elem_of_fmap. exists peer. split; [reflexivity|exact Hpeer]. }
      rewrite Hsit, Hrep in Hin. apply elem_of_replicate in Hin as [-> _].
      reflexivity. }
  split.
  { intros Hn. rewrite Hsit. apply Hone, Hn. }
  split; [exists urls; exact Hrows|].
  destruct (experiment_store _ _ _ _ _ _ _ _ _ _ Hok)
    as ((private & public & Hgw) & _).
  exists endpoint, private, public. split; [|exact Hgw].
  unfold endpoint_of in Hendpoint.
  destruct gateway_endpoint as [[|c rest]|]; simpl; [exact Hendpoint| |exact Hendpoint].
  injection Hendpoint as <-. reflexivity.
Qed.

Lemma main_agents_witness :
  exists experiment,
    (main_experiment Scenario.obliging
       [["https://a.com"%string]; ["https://b.org"%string]]
       (Some "root@192.0.2.1"%string) [] 3 (Some "/ckpt"%string) None 2
       (Scenario.options {[ "tcp"%string := 4 ]}) Scenario.initial).2
    = Ok experiment
    /\ length (TraceCollectionExperiment.clients experiment) = 3%nat
    /\ SSHNode.public_ip (Some "root@192.0.2.1"%string)
       = Ok "192.0.2.1"%string.
Proof.
  destruct (main_experiment Scenario.obliging
       [["https://a.com"%string]; ["https://b.org"%string]]
       (Some "root@192.0.2.1"%string) [] 3 (Some "/ckpt"%string) None 2
       (Scenario.options {[ "tcp"%string := 4 ]}) Scenario.initial).2
    as [experiment|e] eqn:Hbuilt; [|vm_compute in Hbuilt; discriminate].
  exists experiment. split; [reflexivity|].
  destruct (main_agents _ _ _ _ _ _ _ _ _ _ experiment Hbuilt)
    as (_ & Hmany & _).
  destruct (Hmany ltac:(lia)) as (Hlen & _).
  split; [exact Hlen|]. vm_compute. reflexivity.
Defined.

(** X17.  A URL whose port cannot be parsed keeps [main] from
    constructing the experiment, whichever agent the URL would go to:
    [list(_filter_urls(urls))] in [BrowserPeer.__init__] lets the
    exception of [urlparse(url).port] through. *)
Theorem unparsable_url_aborts (env : Env) (urlfile : list (list string))
    (gateway_node : SSHNode.t) (client_node : list SSHNode.t)
    (n_clients : Z) (checkpoint_dir gateway_endpoint : option string)
    (n_batches : Z) (options : FetchOptions) (st : State)
    (url : string) (e : pyexc) :
  [url] ∈ urlfile -> urlparse_port env url = Raise e ->
  exists e',
    (main_experiment env urlfile gateway_node client_node n_clients
       checkpoint_dir gateway_endpoint n_batches options st).2 = Raise e'.
Proof.
  intros Hrow Hbad.
  destruct (main_experiment env urlfile gateway_node client_node n_clients
              checkpoint_dir gateway_endpoint n_batches options st).2
    as [experiment|e'] eqn:Hok; [exfalso|eauto].
  unfold main_experiment in Hok. rewrite bind_lift in Hok.
  pose proof (client_nodes_of_inv client_node n_clients) as Hnodes.
  destruct (client_nodes_of client_node n_clients) as [nodes|e0];
    [|discriminate].
  destruct Hnodes as (Hnonempty & _).
  rewrite bind_lift in Hok.
  pose proof (unpack_rows_inv urlfile) as Hrows.
  destruct (unpack_rows urlfile) as [urls|e0]; [|discriminate].
  rewrite bind_lift in Hok.
  destruct (endpoint_of gateway_endpoint gateway_node) as [endpoint|e0];
    [|discriminate].
  destruct (init_inv _ _ _ _ _ _ _ _ _ _ Hok) as (dir & st3 & Hmk).
  assert (url ∈ urls) as Hin.
  { rewrite Hrows in Hrow. apply list_elem_of_fmap in Hrow as (u & [= ->] & Hu).
    exact Hu. }
  apply list_elem_of_lookup in Hin as (idx & Hidx).
  assert (0 < length nodes)%nat as Hk.
  { destruct nodes; [contradiction|simpl; lia]. }
  destruct (make_clients_parsed _ _ _ _ _ _ _ _ _ _ Hmk
              (idx mod length nodes)%nat url) as (port & Hport).
  - apply Nat.mod_upper_bound. lia.
  - apply list_elem_of_lookup. exists (idx / length nodes)%nat.
    rewrite slice_step_lookup by exact Hk. simpl.
    rewrite <- Hidx. f_equal.
    pose proof (Nat.div_mod idx (length nodes) ltac:(lia)). lia.
  - rewrite Hbad in Hport. discriminate.
Qed.

Lemma unparsable_url_aborts_witness :
  (main_experiment Scenario.obliging
     [["https://a.com"%string]; ["https://b.org:99999/x"%string]]
     (Some "root@192.0.2.1"%string) [] 1 (Some "/ckpt"%string) None 2
     (Scenario.options {[ "tcp"%string := 4 ]}) Scenario.initial).2
  = Raise ValueError.
Proof.
  destruct (unparsable_url_aborts Scenario.obliging
     [["https://a.com"%string]; ["https://b.org:99999/x"%string]]
     (Some "root@192.0.2.1"%string) [] 1 (Some "/ckpt"%string) None 2
     (Scenario.options {[ "tcp"%string := 4 ]}) Scenario.initial
     "https://b.org:99999/x" ValueError)
    as (e' & Hraise).
  - right. left.
  - vm_compute. reflexivity.
  - rewrite Hraise. vm_compute in Hraise. injection Hraise as <-.
    reflexivity.
Defined.

(** X18.  When the agents' checkpoint paths differ and every checkpoint
    exists, [clear_checkpoint] of the experiment removes exactly these
    files: afterwards none of them is there, every other file is as it
    was, and nothing else of the state has changed. *)
Theorem clear_checkpoint_removes (self : TraceCollectionExperiment.t)
    (st : State) :
  let paths :=
    BrowserPeer.checkpoint_path <$> TraceCollectionExperiment.clients self in
  NoDup paths ->
  (forall path, path ∈ paths -> is_Some (files st !! path)) ->
  exists st',
    TraceCollectionExperiment.clear_checkpoint self st = (st', inr tt)
    /\ (forall path,
          files st' !! path
          = if decide (path ∈ paths) then None else files st !! path)
    /\ same_objects st st' /\ history st' = history st.
Proof.
  intros paths Hdup Hall.
  unfold TraceCollectionExperiment.clear_checkpoint.
  rewrite clear_checkpoints_ok.
  - eexists. split; [reflexivity|]. split.
    + intros path. simpl. apply lookup_cleared.
    + split; [repeat split|reflexivity].
  - exact Hdup.
  - intros peer Hpeer. apply Hall. apply list_elem_of_fmap.
    exists peer. split; [reflexivity|exact Hpeer].
Qed.

Lemma clear_checkpoint_removes_witness :
  exists st',
    TraceCollectionExperiment.clear_checkpoint Scenario.two_agents
      (set_files (fun _ => {[ "/ckpt/peer-10_0_0_2.state"%string := [];
                              "/ckpt/peer-10_0_0_3.state"%string := [];
                              "/ckpt/notes"%string := [] ]})
         Scenario.configured)
    = (st', inr tt)
    /\ files st' !! "/ckpt/peer-10_0_0_3.state"%string = None
    /\ files st' !! "/ckpt/notes"%string = Some [].
Proof.
  destruct (clear_checkpoint_removes Scenario.two_agents
      (set_files (fun _ => {[ "/ckpt/peer-10_0_0_2.state"%string := [];
                              "/ckpt/peer-10_0_0_3.state"%string := [];
                              "/ckpt/notes"%string := [] ]})
         Scenario.configured))
    as (st' & Hrun & Hfiles & _).
  - apply (bool_decide_unpack _). vm_compute. exact I.
  - intros path Hpath. vm_compute in Hpath.
    repeat (apply elem_of_cons in Hpath as [->|Hpath];
            [vm_compute; eauto|]).
    apply elem_of_nil in Hpath. contradiction.
  - exists st'. split; [exact Hrun|]. rewrite !Hfiles.
    split; vm_compute; reflexivity.
Defined.

(** X19.  [clear_checkpoint] of the experiment stops at the first agent
    whose checkpoint is missing (or was already removed for an agent
    with the same path): it raises [FileNotFoundError] for that path
    with the checkpoints of the agents before it removed and every
    other file, those of the agents after it among them, as it was. *)
Theorem clear_checkpoint_stops_at_missing
    (self : TraceCollectionExperiment.t) (st : State)
    (before after : list BrowserPeer.t) (peer : BrowserPeer.t) :
  let cleared := BrowserPeer.checkpoint_path <$> before in
  TraceCollectionExperiment.clients self = (before ++ peer :: after)%list ->
  NoDup cleared ->
  (forall path, path ∈ cleared -> is_Some (files st !! path)) ->
  (files st !! BrowserPeer.checkpoint_path peer = None
   \/ BrowserPeer.checkpoint_path peer ∈ cleared) ->
  exists st',
    TraceCollectionExperiment.clear_checkpoint self st
    = (st', inl (FileNotFoundError (BrowserPeer.checkpoint_path peer)))
    /\ forall path,
         files st' !! path
         = if decide (path ∈ cleared) then None else files st !! path.
Proof.
  intros cleared Hclients Hdup Hall Hmissing.
  unfold TraceCollectionExperiment.clear_checkpoint.
  rewrite Hclients, clear_checkpoints_app, clear_checkpoints_ok.
  - simpl. unfold BrowserPeer.clear_checkpoint. simpl.
    rewrite lookup_cleared. fold cleared.
    assert ((if decide (BrowserPeer.checkpoint_path peer ∈ cleared)
             then None else files st !! BrowserPeer.checkpoint_path peer)
            = None) as ->.
    { destruct (decide (BrowserPeer.checkpoint_path peer ∈ cleared));
        [reflexivity|]. destruct Hmissing; [assumption|contradiction]. }
    eexists. split; [reflexivity|].
    intros path. simpl. apply lookup_cleared.
  - exact Hdup.
  - intros q Hq. apply Hall. apply list_elem_of_fmap.
    exists q. split; [reflexivity|exact Hq].
Qed.

Lemma clear_checkpoint_stops_at_missing_witness :
  exists st',
    TraceCollectionExperiment.clear_checkpoint Scenario.two_agents
      (Scenario.checkpointed 2)
    = (st', inl (FileNotFoundError "/ckpt/peer-10_0_0_3.state"))
    /\ files st' !! "/ckpt/peer-10_0_0_2.state"%string = None.
Proof.
  destruct (clear_checkpoint_stops_at_missing Scenario.two_agents
              (Scenario.checkpointed 2) [Scenario.agent 4 2] []
              Scenario.second_agent)
    as (st' & Hrun & Hfiles).
  - reflexivity.
  - apply (bool_decide_unpack _). vm_compute. exact I.
  - intros path Hpath. vm_compute in Hpath.
    apply elem_of_cons in Hpath as [->|Hpath]; [vm_compute; eauto|].
    apply elem_of_nil in Hpath. contradiction.
  - left. vm_compute. reflexivity.
  - exists st'. split; [exact Hrun|]. rewrite Hfiles.
    vm_compute. reflexivity.
Defined.

(** X20.  Where the detour through floats is exact (every count below
    2^53 and 1 <= n < 2^1075), [batch] returns the exact plan: each
    category whose maximum across the URLs is positive maps to the
    ceiling of maximum / n, every value of the plan is positive, a
    category that is absent or non-positive everywhere does not appear,
    and an all-zero input gives the empty plan. *)
Theorem batch_exact_below_2_53
    (remaining : gmap string (gmap string Z)) (n : Z) :
  1 <= n -> n < 2 ^ 1075 -> counts_below (2 ^ 53) remaining ->
  batch_is_exact remaining n.
Proof.
  intros Hn Hnmax Hbound.
  set (merged := counter_pos (merge_remaining remaining)).
  assert (forall k v, merged !! k = Some v ->
            0 < v /\ is_max_count remaining k v) as Hmerged.
  { intros k v Hk. apply counter_pos_lookup in Hk as [Hk _].
    apply merged_seen. exact Hk. }
  assert (forall k, nowhere_positive remaining k -> merged !! k = None)
    as Hdrop.
  { intros k Hnowhere. destruct (merged !! k) as [v|] eqn:Hk; [|reflexivity].
    destruct (Hmerged k v Hk) as (Hpos & (peer & ctr & Hp & Hc) & _).
    specialize (Hnowhere peer ctr v Hp Hc). lia. }
  exists ((fun v => exact_ceil v n) <$> merged). split.
  - unfold batch. fold merged. apply ceil_items_fmap.
    intros k v Hk.
    destruct (Hmerged k v Hk) as (Hpos & (peer & ctr & Hp & Hc) & _).
    apply ceil_truediv_exact; [|lia].
    split; [exact Hpos|]. exact (Hbound peer ctr Hp k v Hc).
  - split.
    + intros k M Hmax Hpos. rewrite lookup_fmap.
      assert (merged !! k = Some M) as ->; [|reflexivity].
      apply counter_pos_lookup. split; [|exact Hpos].
      apply merged_max; assumption.
    + intros k v. rewrite lookup_fmap.
      destruct (merged !! k) as [u|] eqn:Hk; [|discriminate].
      intros [= <-]. apply exact_ceil_pos; [|lia].
      apply (Hmerged k u Hk).
    + intros k Hnowhere. rewrite lookup_fmap, (Hdrop k Hnowhere).
      reflexivity.
    + intros Hzero. apply map_empty. intros k.
      rewrite lookup_fmap, Hdrop; [reflexivity|].
      intros peer ctr v Hp Hc. rewrite (Hzero peer ctr k v Hp Hc). lia.
Qed.

Lemma batch_exact_below_2_53_witness : batch_is_exact test_counters 4.
Proof.
  apply batch_exact_below_2_53.
  - lia.
  - reflexivity.
  - unfold counts_below. apply (bool_decide_unpack _). vm_compute. exact I.
Defined.

End Extras.
